(** * Solana token validator: detection queue, honeypot detector and risk aggregation

    A shallow embedding of the JavaScript sources

    - [services/jupiterService.js]      (swap simulation),
    - [analyzers/honeypotDetector.js]   (sub-tests and their weighted mean, in
      the version with the trading simulation and in the one that reads the
      chain only),
    - [analyzers/holderAnalyzer.js]     (holder concentration),
    - [analyzers/tokenAnalyzer.js]      (timeout-guarded checks, risk score),
    - [analyzers/liquidityAnalyzer.js]  (pool discovery and LP security),
    - [analyzers/socialAnalyzer.js]     (social risk score),
    - [services/comprehensivePumpMonitor.js], [services/optimizedPumpMonitor.js]
      and [services/enhancedPumpFunMonitor.js] (listener, queue and worker,
      and the analysis the comprehensive worker starts),
    - [utils/batchProcessor.js]         (batches and the semaphore),
    - [config/rateLimit.js]             (the credit ledger),
    - [index.js]                        (the enhanced risk of the validator),

    followed by the properties of the pipeline that the specification states
    and by further properties of the same code.

    Conventions.  A collaborator call ([await f(..)]) is represented by its
    outcome: it returned a value or it threw.  A call raced against a timer
    is represented by which of the two fired first.  JavaScript numbers that
    the code only ever produces as integers (scores, counters, milliseconds)
    are [Z]; numbers that carry fractions (weights, percentages, price
    impact) are exact rationals [Q].  The risk score divides two integers,
    for which [Math.round] of the double and of the exact quotient agree.
    The honeypot mean multiplies by binary-inexact weights; about it only
    bounds that hold with a margin are stated, and the concrete evaluations
    below lie away from half-integers or at a value that the doubles reach
    exactly (28.5 when every chain lookup is refused), so that the exact
    value and the IEEE double round alike.  Sums of holder percentages are
    exact here, where a sum of doubles may differ in the last place and
    with it a threshold test at the boundary; what is stated about them are
    the code's own formulas, orderings and bounds.  A loop that need not
    end is given a bound on its iterations and answers [None] when the
    bound is reached. *)

From Stdlib Require Import ZArith QArith Qround Qminmax String List Bool Lia Lqa Sorted.
From stdpp Require Import gmap strings list pretty.

Local Open Scope Z_scope.

(** ** Outcomes of collaborator calls *)

(** [await f()] inside [try { .. } catch (error) { .. }]: the call returned
    [a] or threw an error whose [message] is given. *)
Inductive Outcome (A : Type) : Type :=
  | Threw (message : string)
  | Returned (a : A).
Arguments Threw {A} message.
Arguments Returned {A} a.

(** A call raced against [setTimeout(.., timeoutMs)]: the promise is resolved
    by whichever comes first, and a later [resolve] has no effect. *)
Inductive Guarded (A : Type) : Type :=
  | TimedOut
  | Settled (o : Outcome A).
Arguments TimedOut {A}.
Arguments Settled {A} o.

Inductive Severity : Type := LOW | MEDIUM | HIGH | CRITICAL.

(** ** JavaScript arithmetic used by the analyzers *)
Module Js.

(** [Math.round(x)]: the nearest integer, halves rounded towards +infinity. *)
Definition round (x : Q) : Z := Qfloor (x + (1 # 2)).

(** [x > y] on numbers. *)
Definition gt (x y : Q) : bool := negb (Qle_bool x y).

(** [x === y] on numbers. *)
Definition eq (x y : Q) : bool := Qeq_bool x y.

(** Truthiness of a string-valued property that may be absent. *)
Definition truthy (s : option string) : bool :=
  match s with
  | Some EmptyString => false
  | Some _ => true
  | None => false
  end.

(** Truthiness of a property holding an object, a non-empty string or
    [null]. *)
Definition isSet {A : Type} (o : option A) : bool :=
  match o with Some _ => true | None => false end.

(** [s.includes(pat)] *)
Fixpoint includes (pat s : string) : bool :=
  if String.prefix pat s then true
  else match s with
       | EmptyString => false
       | String _ rest => includes pat rest
       end.

(** [c.toLowerCase()] on the ASCII letters. *)
Definition lower_ascii (c : Ascii.ascii) : Ascii.ascii :=
  let n := Ascii.nat_of_ascii c in
  if (Nat.leb 65 n && Nat.leb n 90)%bool then Ascii.ascii_of_nat (n + 32) else c.

(** [s.toLowerCase()] *)
Fixpoint toLowerCase (s : string) : string :=
  match s with
  | EmptyString => EmptyString
  | String c rest => String (lower_ascii c) (toLowerCase rest)
  end.

End Js.

(** ** services/jupiterService.js (the version that calls the free quote API) *)
Module JupiterService.

(** The fields of a quote that [simulateSwap] reads. [priceImpactPct] is
    [None] when the property is absent or does not parse as a number; in
    both cases neither threshold comparison succeeds. *)
Record Quote : Type := {
  outAmount : option string;
  priceImpactPct : option Q;
  routePlan : option (list string)
}.

Record HoneypotAnalysis : Type := {
  isHoneypot : bool;
  confidence : Q;
  probability : option Z;
  indicators : list string;
  severity : Severity
}.

Record SwapResult : Type := {
  canBuy : bool;
  canSell : bool;
  buyQuote : option Quote;
  sellQuote : option Quote;
  honeypotAnalysis : option HoneypotAnalysis;
  error : option string
}.

(** [this.rateLimit()]. The constructor stores the number 1100 under the
    name [rateLimit]; that own property hides the method of the same name,
    so the call throws. *)
Definition rateLimit : Outcome unit := Threw "this.rateLimit is not a function".

(** [testConnectivity()]; [http] is the outcome of its [axios.get]. *)
Definition testConnectivity (http : Outcome unit) : bool :=
  match rateLimit, http with
  | Returned _, Returned _ => true
  | _, _ => false
  end.

(** [getSwapQuote(..)]; [http] is the outcome of its [axios.get], with
    [response.data] as [None] when it is falsy. *)
Definition getSwapQuote (http : Outcome (option Quote)) : Outcome (option Quote) :=
  match rateLimit with
  | Threw msg => Threw msg
  | Returned _ => http
  end.

Definition parseFloat (p : option Q) : Q := default 0%Q p.

(** The price-impact and route penalties of the branch where both quotes
    exist; returns the accumulated probability and the indicators. *)
Definition impactPenalties (buy sell : Quote) : Z * list string :=
  let buyImpact := parseFloat (priceImpactPct buy) in
  let sellImpact := parseFloat (priceImpactPct sell) in
  let '(p, ind) := (0, @nil string) in
  let '(p, ind) :=
    if Js.gt buyImpact 10 then (p + 20, ind ++ ["HIGH_BUY_IMPACT"%string]) else (p, ind) in
  let '(p, ind) :=
    if Js.gt sellImpact 15 then (p + 30, ind ++ ["HIGH_SELL_IMPACT"%string]) else (p, ind) in
  match routePlan buy with
  | Some [_] => (p + 10, ind ++ ["LIMITED_ROUTES"%string])
  | _ => (p, ind)
  end.

(** [simulateSwap(tokenMint)], for every outcome of its two quote requests:
    [buy] is the outcome of the first [this.getSwapQuote], [sell] that of
    the second one, which is only made when the buy quote carries an
    [outAmount]. A quote is [None] when the HTTP body is falsy. *)
Definition simulateSwap (buy sell : Outcome (option Quote)) : SwapResult :=
  let failed msg :=
    {| canBuy := false; canSell := false; buyQuote := None; sellQuote := None;
       honeypotAnalysis :=
         Some {| isHoneypot := false; confidence := 3 # 10; probability := Some 30;
                 indicators := ["SIMULATION_FAILED"%string]; severity := MEDIUM |};
       error := Some msg |} in
  let noBuyRoute :=
    {| canBuy := false; canSell := false; buyQuote := None; sellQuote := None;
       honeypotAnalysis :=
         Some {| isHoneypot := true; confidence := 8 # 10; probability := None;
                 indicators := ["NO_BUY_ROUTE"%string]; severity := CRITICAL |};
       error := None |} in
  match buy with
  | Threw msg => failed msg
  | Returned None => noBuyRoute
  | Returned (Some bq) =>
      if negb (Js.truthy (outAmount bq)) then noBuyRoute
      else
        match sell with
        | Threw msg => failed msg
        | Returned sq =>
            let canSell := match sq with Some _ => true | None => false end in
            let scored :=
              match sq with
              | None => (95, ["CANNOT_SELL"%string])
              | Some s => impactPenalties bq s
              end in
            let honeypotProbability := fst scored in
            let indicators := snd scored in
            {| canBuy := true; canSell := canSell;
               buyQuote := Some bq; sellQuote := sq;
               honeypotAnalysis :=
                 Some {| isHoneypot := 50 <? honeypotProbability;
                         confidence := Qmin (9 # 10) (inject_Z honeypotProbability / 100);
                         probability := Some honeypotProbability;
                         indicators := indicators;
                         severity := if 80 <? honeypotProbability then CRITICAL
                                     else if 50 <? honeypotProbability then HIGH
                                     else LOW |};
               error := None |}
        end
  end.

End JupiterService.

(** ** services/solanaService.js: the values the analyzers read *)
Module SolanaService.

(** [getTokenMintInfo]: an authority is [None] once revoked. *)
Record MintInfo : Type := {
  mintAuthority : option string;
  freezeAuthority : option string;
  decimals : Z
}.

(** [getTokenSupply]: [uiAmount] is [parseFloat(uiAmountString || '0')]. *)
Record Supply : Type := { uiAmount : Q }.

(** [getAccountInfo] *)
Record AccountInfo : Type := {
  owner : string;
  executable : bool;
  lamports : Z
}.

Definition standardPrograms : list string :=
  [ "TokenkegQfeZyiNwAJbNbGKPFXCWuBvf9Ss623VQ5DA";
    "TokenzQdBNbLqP5VEhdkAS6EPFLC1PHnBqCXEpPxuEb" ]%string.

(** [standardPrograms.includes(owner)] *)
Definition isStandard (o : string) : bool :=
  existsb (String.eqb o) standardPrograms.

End SolanaService.

(** ** analyzers/honeypotDetector.js (the version with the trading simulation) *)
Module HoneypotDetector.
Import SolanaService.

(** What a sub-test returns. The skipped trading simulation carries no
    [issues] property; [canSell] is present on a completed simulation. *)
Record TestResult : Type := {
  issues : option (list string);
  riskScore : Z;
  severity : Severity;
  canSell : option bool
}.

Definition analyzeAuthorities (mint : Outcome MintInfo) : TestResult :=
  match mint with
  | Threw _ =>
      {| issues := Some ["AUTHORITY_ANALYSIS_FAILED"%string]; riskScore := 30;
         severity := MEDIUM; canSell := None |}
  | Returned mintInfo =>
      let '(iss, risk) := (@nil string, 0) in
      let '(iss, risk) :=
        if Js.isSet (mintAuthority mintInfo)
        then (iss ++ ["MINT_AUTHORITY_ACTIVE"%string], risk + 40) else (iss, risk) in
      let '(iss, risk) :=
        if Js.isSet (freezeAuthority mintInfo)
        then (iss ++ ["FREEZE_AUTHORITY_ACTIVE"%string], risk + 50) else (iss, risk) in
      {| issues := Some iss; riskScore := risk;
         severity := if 70 <? risk then CRITICAL else if 30 <? risk then HIGH else LOW;
         canSell := None |}
  end.

Definition analyzeProgram (account : Outcome (option AccountInfo)) : TestResult :=
  match account with
  | Threw _ =>
      {| issues := Some ["PROGRAM_ANALYSIS_FAILED"%string]; riskScore := 40;
         severity := MEDIUM; canSell := None |}
  | Returned None =>
      {| issues := Some ["ACCOUNT_NOT_FOUND"%string]; riskScore := 90;
         severity := CRITICAL; canSell := None |}
  | Returned (Some accountInfo) =>
      let std := isStandard (owner accountInfo) in
      {| issues := Some (if std then [] else ["NON_STANDARD_PROGRAM"%string]);
         riskScore := if std then 0 else 60;
         severity := if std then LOW else HIGH;
         canSell := None |}
  end.

Definition analyzeSupplyMetrics (supply : Outcome Supply) (mint : Outcome MintInfo)
  : TestResult :=
  match supply, mint with
  | Returned sup, Returned mintInfo =>
      let totalSupply := uiAmount sup in
      let '(iss, risk) := (@nil string, 0) in
      let '(iss, risk) :=
        if Js.eq totalSupply 0 then (iss ++ ["ZERO_SUPPLY"%string], risk + 80)
        else if Js.gt totalSupply (inject_Z (10 ^ 12))
             then (iss ++ ["EXTREMELY_HIGH_SUPPLY"%string], risk + 15)
             else (iss, risk) in
      let '(iss, risk) :=
        if ((18 <? decimals mintInfo) || (decimals mintInfo =? 0))%bool
        then (iss ++ ["UNUSUAL_DECIMALS"%string], risk + 10) else (iss, risk) in
      {| issues := Some iss; riskScore := risk;
         severity := if 60 <? risk then CRITICAL else if 20 <? risk then MEDIUM else LOW;
         canSell := None |}
  | _, _ =>
      {| issues := Some ["SUPPLY_ANALYSIS_FAILED"%string]; riskScore := 30;
         severity := MEDIUM; canSell := None |}
  end.

(** [runTradingSimulation]: [connectivity] is the outcome of
    [jupiterService.testConnectivity()], [swap] that of
    [jupiterService.simulateSwap(mintAddress)], which is only called when
    the service is available. *)
Definition runTradingSimulation
    (connectivity : Outcome bool) (swap : Outcome JupiterService.SwapResult)
  : TestResult :=
  let failed :=
    {| issues := Some ["TRADING_SIMULATION_ERROR"%string]; riskScore := 40;
       severity := MEDIUM; canSell := None |} in
  match connectivity with
  | Threw _ => failed
  | Returned false =>
      {| issues := None; riskScore := 20; severity := LOW; canSell := None |}
  | Returned true =>
      match swap with
      | Threw _ => failed
      | Returned result =>
          let '(iss, risk) := (@nil string, 0) in
          let '(iss, risk) :=
            if negb (JupiterService.canBuy result)
            then (iss ++ ["CANNOT_BUY_TOKEN"%string], risk + 80) else (iss, risk) in
          let '(iss, risk) :=
            if negb (JupiterService.canSell result)
            then (iss ++ ["CANNOT_SELL_TOKEN"%string], risk + 90) else (iss, risk) in
          let '(iss, risk) :=
            match JupiterService.honeypotAnalysis result with
            | Some h =>
                (iss ++ JupiterService.indicators h,
                 Z.max risk (default 0 (JupiterService.probability h)))
            | None => (iss, risk)
            end in
          {| issues := Some iss; riskScore := risk;
             severity := if 80 <? risk then CRITICAL else if 50 <? risk then HIGH else LOW;
             canSell := Some (JupiterService.canSell result) |}
      end
  end.

Definition weights : gmap string Q :=
  list_to_map
    [ ("authorityAnalysis", 3 # 10); ("programAnalysis", 2 # 10);
      ("supplyAnalysis", 15 # 100); ("tradingSimulation", 35 # 100) ]%string.

(** [weights[testName] || 0.1] *)
Definition weightOf (testName : string) : Q := default (1 # 10) (weights !! testName).

Record Probability : Type := { overall : Z; confidence : Q }.

(** The [forEach] over [Object.entries(tests)]: every sub-test carries a
    numeric [riskScore], so each entry passes the guard. *)
Definition accumulate (acc : Q * Q) (entry : string * TestResult) : Q * Q :=
  let '(totalRisk, totalWeight) := acc in
  let '(testName, result) := entry in
  let weight := weightOf testName in
  ((totalRisk + inject_Z (riskScore result) * weight)%Q, (totalWeight + weight)%Q).

Definition calculateHoneypotProbability (tests : list (string * TestResult))
  : Probability :=
  let '(totalRisk, totalWeight) := fold_left accumulate tests (0%Q, 0%Q) in
  let overall := if Js.gt totalWeight 0 then Js.round (totalRisk / totalWeight) else 30 in
  {| overall := Z.max 0 (Z.min 100 overall);
     confidence := Qmin (9 # 10) totalWeight |}.

Inductive Verdict : Type :=
  | CONFIRMED_HONEYPOT | LIKELY_HONEYPOT | SUSPICIOUS | CAUTION_ADVISED | LOW_RISK
  | ANALYSIS_FAILED | TIMEOUT | ERROR.

Definition generateVerdict (probability : Probability) : Verdict :=
  if 80 <=? overall probability then CONFIRMED_HONEYPOT
  else if 60 <=? overall probability then LIKELY_HONEYPOT
  else if 40 <=? overall probability then SUSPICIOUS
  else if 20 <=? overall probability then CAUTION_ADVISED
  else LOW_RISK.

(** What the required modules answer during one run of [detectHoneypot],
    in the order the calls are made: [solanaService] for the first three
    sub-tests, then [jupiterService.testConnectivity()] and
    [jupiterService.simulateSwap(mintAddress)]. *)
Record Observed : Type := {
  authMint : Outcome MintInfo;
  programAccount : Outcome (option AccountInfo);
  supply : Outcome Supply;
  supplyMint : Outcome MintInfo;
  connectivity : Outcome bool;
  swap : Outcome JupiterService.SwapResult
}.

Record Analysis : Type := {
  tests : list (string * TestResult);
  honeypotProbability : option Probability;
  verdict : Verdict
}.

(** [detectHoneypot]: the four sub-tests never throw, so the outer
    [catch] (verdict [ANALYSIS_FAILED]) is not entered. *)
Definition detectHoneypot (o : Observed) : Analysis :=
  let tests :=
    [ ("authorityAnalysis", analyzeAuthorities (authMint o));
      ("programAnalysis", analyzeProgram (programAccount o));
      ("supplyAnalysis", analyzeSupplyMetrics (supply o) (supplyMint o));
      ("tradingSimulation", runTradingSimulation (connectivity o) (swap o)) ]%string in
  let p := calculateHoneypotProbability tests in
  {| tests := tests; honeypotProbability := Some p; verdict := generateVerdict p |}.

(** [tests[name]] *)
Definition test (name : string) (a : Analysis) : option TestResult :=
  snd <$> List.find (fun e => String.eqb (fst e) name) (tests a).

End HoneypotDetector.

(** ** analyzers/holderAnalyzer.js *)
Module HolderAnalyzer.
Import SolanaService.

Inductive HolderType : Type :=
  | HOLDER | WALLET | PROGRAM | TOKEN_ACCOUNT | NOT_FOUND | LOOKUP_ERROR.

(** One entry of [getTokenLargestAccounts], together with what the calls
    made for it answer: [validKey] is [solanaService.isValidPublicKey],
    [info] is [rateLimiter.executeRequest(() => getBasicHolderInfo(..))],
    whose inner outcome is that of [getAccountInfo]. *)
Record Account : Type := {
  address : string;
  amount : option Q;
  validKey : bool;
  info : Outcome (Outcome (option AccountInfo))
}.

Record Holder : Type := {
  holderAddress : string;
  holderAmount : Q;
  percentage : Q;
  type : HolderType;
  analyzed : bool
}.

Record Concentration : Type := {
  top1Percentage : Q;
  top5Percentage : Q;
  top10Percentage : Q;
  herfindahlIndex : Q
}.

Record Result : Type := {
  holders : list Holder;
  concentration : option Concentration;
  issues : list string;
  warnings : list string;
  score : Z;
  severity : Severity;
  holderCount : nat
}.

Definition knownBurnAddresses : gset string :=
  list_to_set
    [ "11111111111111111111111111111111";
      "So11111111111111111111111111111111111111112";
      "1nc1nerator11111111111111111111111111111111" ]%string.

(** The character class [[1-9A-HJ-NP-Za-km-z]]. *)
Definition base58Char (c : Ascii.ascii) : bool :=
  let n := Ascii.nat_of_ascii c in
  ((Nat.leb 49 n && Nat.leb n 57)
   || (Nat.leb 65 n && Nat.leb n 72)
   || (Nat.leb 74 n && Nat.leb n 78)
   || (Nat.leb 80 n && Nat.leb n 90)
   || (Nat.leb 97 n && Nat.leb n 107)
   || (Nat.leb 109 n && Nat.leb n 122))%bool.

Definition isValidBase58Address (a : Account) : bool :=
  let len := String.length (address a) in
  if (Nat.ltb len 32 || Nat.ltb 44 len)%bool then false
  else if negb (forallb base58Char (list_ascii_of_string (address a))) then false
  else validKey a.

Definition getBasicHolderInfo (accountInfo : Outcome (option AccountInfo)) : HolderType :=
  match accountInfo with
  | Threw _ => LOOKUP_ERROR
  | Returned None => NOT_FOUND
  | Returned (Some ai) =>
      if executable ai then PROGRAM
      else if negb (String.eqb (owner ai) "11111111111111111111111111111111")
           then TOKEN_ACCOUNT else WALLET
  end.

(** One iteration of [for (const account of largestAccounts)];
    [processedCount] is the length of [validHolders]. *)
Definition processAccount (totalSupply : Q) (validHolders : list Holder) (account : Account)
  : list Holder :=
  match amount account with
  | None => validHolders
  | Some uiAmount =>
      if Js.eq uiAmount 0 then validHolders
      else if negb (isValidBase58Address account) then validHolders
      else if bool_decide (address account ∈ knownBurnAddresses) then validHolders
      else
        let pct := (uiAmount / totalSupply * 100)%Q in
        let basic :=
          {| holderAddress := address account; holderAmount := uiAmount;
             percentage := pct; type := HOLDER; analyzed := false |} in
        let holder :=
          if Nat.ltb (List.length validHolders) 3 then
            match info account with
            | Returned details =>
                {| holderAddress := address account; holderAmount := uiAmount;
                   percentage := pct; type := getBasicHolderInfo details;
                   analyzed := true |}
            | Threw _ => basic
            end
          else basic in
        validHolders ++ [holder]
  end.

Definition sumPercentage (hs : list Holder) : Q :=
  fold_left (fun sum h => (sum + percentage h)%Q) hs 0%Q.

Definition calculateConcentration (hs : list Holder) : Concentration :=
  match hs with
  | [] =>
      {| top1Percentage := 0; top5Percentage := 0; top10Percentage := 0;
         herfindahlIndex := 0 |}
  | first :: _ =>
      {| top1Percentage := percentage first;
         top5Percentage := sumPercentage (firstn 5 hs);
         top10Percentage := sumPercentage (firstn 10 hs);
         herfindahlIndex :=
           fold_left (fun sum h =>
                        let marketShare := (percentage h / 100)%Q in
                        (sum + marketShare * marketShare)%Q) hs 0%Q |}
  end.

(** [x.toFixed(2)], used only inside message texts. *)
Definition toFixed2 (x : Q) : string :=
  let cents := Js.round (x * 100) in
  let frac := Z.abs cents mod 100 in
  let whole := Z.abs cents / 100 in
  let sign := if cents <? 0 then "-"%string else ""%string in
  let pad := if frac <? 10 then "0"%string else ""%string in
  (sign ++ pretty whole ++ "." ++ pad ++ pretty frac)%string.

Record Risk : Type := {
  riskIssues : list string;
  riskWarnings : list string;
  riskScore : Z;
  riskSeverity : Severity
}.

Definition assessHolderRisks (c : Concentration) (hs : list Holder) : Risk :=
  let '(iss, warn, sc) := (@nil string, @nil string, 100) in
  let '(iss, warn, sc) :=
    if Js.gt (top1Percentage c) 50 then
      (iss ++ ["🔴 Single holder controls " ++ toFixed2 (top1Percentage c) ++ "% of supply"]%string,
       warn, sc - 40)
    else if Js.gt (top1Percentage c) 30 then
      (iss, warn ++ ["🟡 Top holder controls " ++ toFixed2 (top1Percentage c) ++ "% of supply"]%string,
       sc - 20)
    else (iss, warn, sc) in
  let '(iss, warn, sc) :=
    if Js.gt (top10Percentage c) 80 then
      (iss ++ ["🔴 Top 10 holders control " ++ toFixed2 (top10Percentage c) ++ "% of supply"]%string,
       warn, sc - 30)
    else if Js.gt (top10Percentage c) 60 then
      (iss, warn ++ ["🟡 Top 10 holders control " ++ toFixed2 (top10Percentage c) ++ "% of supply"]%string,
       sc - 15)
    else (iss, warn, sc) in
  let '(iss, warn, sc) :=
    if Js.gt (herfindahlIndex c) (25 # 100) then
      (iss ++ ["🔴 Extremely concentrated holder distribution"%string], warn, sc - 25)
    else if Js.gt (herfindahlIndex c) (15 # 100) then
      (iss, warn ++ ["🟡 Highly concentrated holder distribution"%string], sc - 15)
    else (iss, warn, sc) in
  let programHolders :=
    List.length (List.filter (fun h => match type h with PROGRAM => true | _ => false end) hs) in
  let '(iss, warn, sc) :=
    if Nat.ltb 0 programHolders then
      (iss, warn ++ ["🟡 " ++ pretty programHolders
                       ++ " program-controlled holder accounts detected"]%string,
       sc - 10)
    else (iss, warn, sc) in
  {| riskIssues := iss; riskWarnings := warn; riskScore := Z.max 0 sc;
     riskSeverity :=
       if Nat.ltb 0 (List.length iss) then CRITICAL
       else if Nat.ltb 2 (List.length warn) then HIGH
       else if Nat.ltb 0 (List.length warn) then MEDIUM else LOW |}.

(** What one run of [analyzeHolderDistribution] observes. *)
Record Observed : Type := {
  largestAccounts : Outcome (option (list Account));
  supply : Outcome Supply
}.

Definition noData (msg : string) : Result :=
  {| holders := []; concentration := None; issues := [msg]; warnings := [];
     score := 0; severity := CRITICAL; holderCount := 0%nat |}.

(** The comparator of [validHolders.sort((a, b) => b.percentage - a.percentage)]. *)
Definition insertByPercentage (h : Holder) : list Holder -> list Holder :=
  fix ins (l : list Holder) : list Holder :=
    match l with
    | [] => [h]
    | x :: rest =>
        if Qle_bool (percentage x) (percentage h) then h :: l else x :: ins rest
    end.

Definition sortByPercentage (hs : list Holder) : list Holder :=
  fold_right insertByPercentage [] hs.

Definition analyzeHolderDistribution (o : Observed) : Result :=
  let failure msg := noData ("Failed to analyze holder distribution: " ++ msg)%string in
  match largestAccounts o with
  | Threw msg => failure msg
  | Returned None | Returned (Some []) => noData "No holder data available"
  | Returned (Some accounts) =>
      match supply o with
      | Threw msg => failure msg
      | Returned sup =>
          let totalSupply := uiAmount sup in
          if Js.eq totalSupply 0 then noData "Token has zero supply"
          else
            let validHolders := fold_left (processAccount totalSupply) accounts [] in
            let c := calculateConcentration validHolders in
            let riskAssessment := assessHolderRisks c validHolders in
            {| holders := sortByPercentage validHolders;
               concentration := Some c;
               issues := riskIssues riskAssessment;
               warnings := riskWarnings riskAssessment;
               score := riskScore riskAssessment;
               severity := riskSeverity riskAssessment;
               holderCount := List.length validHolders |}
      end
  end.

End HolderAnalyzer.

(** ** analyzers/tokenAnalyzer.js *)
Module TokenAnalyzer.
Import SolanaService.

(** [metadataService.getTokenMetadata] *)
Record Metadata : Type := {
  name : option string;
  symbol : option string;
  source : string
}.

(** [jupiterService.getPrice] *)
Record Price : Type := { price : Q }.

(** The check-specific properties of a result object. *)
Inductive Detail : Type :=
  | BasicInfo (mintInfo : option MintInfo) (supply : option Supply)
  | Authorities (mintAuthority freezeAuthority : option string)
  | ProgramOwnership (owner : option string) (isValidProgram : bool)
  | MetadataInfo (metadata : option Metadata)
  | Holders (holders : list HolderAnalyzer.Holder)
            (concentration : option HolderAnalyzer.Concentration)
  | Honeypot (verdict : HoneypotDetector.Verdict)
             (honeypotProbability : option HoneypotDetector.Probability)
             (tests : list (string * HoneypotDetector.TestResult))
  | MarketData (price : option Price).

(** A result object; [skipped] is [false] where the property is absent. *)
Record CheckResult : Type := {
  issues : list string;
  warnings : list string;
  score : Z;
  skipped : bool;
  detail : Detail
}.

Definition analyzeBasicInfo (mint : Outcome MintInfo) (sup : Outcome Supply) : CheckResult :=
  match mint, sup with
  | Returned mintInfo, Returned supply =>
      {| issues := []; warnings := []; score := 100; skipped := false;
         detail := BasicInfo (Some mintInfo) (Some supply) |}
  | Threw msg, _ | Returned _, Threw msg =>
      {| issues := [msg]; warnings := []; score := 0; skipped := false;
         detail := BasicInfo None None |}
  end.

Definition analyzeAuthorities (mint : Outcome MintInfo) : CheckResult :=
  match mint with
  | Returned mintInfo =>
      let iss := @nil string in
      let warn := @nil string in
      let iss :=
        if Js.isSet (mintAuthority mintInfo)
        then iss ++ ["🔴 MINT AUTHORITY NOT REVOKED - Supply can be inflated!"%string]
        else iss in
      let iss :=
        if Js.isSet (freezeAuthority mintInfo)
        then iss ++ ["🔴 FREEZE AUTHORITY NOT REVOKED - Accounts can be frozen!"%string]
        else iss in
      let sc := 100 - Z.of_nat (List.length iss) * 40 - Z.of_nat (List.length warn) * 10 in
      {| issues := iss; warnings := warn; score := Z.max 0 sc; skipped := false;
         detail := Authorities (mintAuthority mintInfo) (freezeAuthority mintInfo) |}
  | Threw msg =>
      {| issues := [msg]; warnings := []; score := 0; skipped := false;
         detail := Authorities None None |}
  end.

Definition analyzeProgramOwnership (account : Outcome (option AccountInfo)) : CheckResult :=
  match account with
  | Returned None =>
      {| issues := ["Token account not found"%string]; warnings := []; score := 0;
         skipped := false; detail := ProgramOwnership None false |}
  | Returned (Some accountInfo) =>
      let isStandardProgram := isStandard (owner accountInfo) in
      {| issues := if isStandardProgram then []
                   else [("🔴 Non-standard program owner: " ++ owner accountInfo)%string];
         warnings := [];
         score := if isStandardProgram then 100 else 20;
         skipped := false;
         detail := ProgramOwnership (Some (owner accountInfo)) isStandardProgram |}
  | Threw msg =>
      {| issues := [msg]; warnings := []; score := 0; skipped := false;
         detail := ProgramOwnership None false |}
  end.

Definition analyzeMetadataWithTimeout (g : Guarded (option Metadata)) : CheckResult :=
  match g with
  | TimedOut =>
      {| issues := []; warnings := ["Metadata analysis timed out"%string]; score := 70;
         skipped := true; detail := MetadataInfo None |}
  | Settled (Returned metadata) =>
      let iss := @nil string in
      let warn := @nil string in
      let warn :=
        if negb (Js.truthy (metadata ≫= name))
        then warn ++ ["🟡 No token name found"%string] else warn in
      let warn :=
        if negb (Js.truthy (metadata ≫= symbol))
        then warn ++ ["🟡 No token symbol found"%string] else warn in
      let warn :=
        match metadata with
        | Some m => if String.eqb (source m) "BASIC"
                    then warn ++ ["🟡 No Metaplex metadata found"%string] else warn
        | None => warn
        end in
      let sc := 100 - Z.of_nat (List.length iss) * 20 - Z.of_nat (List.length warn) * 5 in
      {| issues := iss; warnings := warn; score := Z.max 0 sc; skipped := false;
         detail := MetadataInfo metadata |}
  | Settled (Threw msg) =>
      {| issues := [msg]; warnings := []; score := 0; skipped := false;
         detail := MetadataInfo None |}
  end.

Definition analyzeHoldersWithTimeout (g : Guarded HolderAnalyzer.Observed) : CheckResult :=
  match g with
  | TimedOut =>
      {| issues := [];
         warnings := ["Holder analysis skipped - token too popular or network slow"%string];
         score := 70; skipped := true; detail := Holders [] None |}
  | Settled (Returned observed) =>
      let result := HolderAnalyzer.analyzeHolderDistribution observed in
      {| issues := HolderAnalyzer.issues result;
         warnings := HolderAnalyzer.warnings result;
         score := HolderAnalyzer.score result;
         skipped := false;
         detail := Holders (HolderAnalyzer.holders result)
                           (HolderAnalyzer.concentration result) |}
  | Settled (Threw msg) =>
      {| issues := [msg]; warnings := []; score := 0; skipped := false;
         detail := Holders [] None |}
  end.

(** [result.honeypotProbability?.overall || 0] *)
Definition overallOr0 (p : option HoneypotDetector.Probability) : Z :=
  default 0 (HoneypotDetector.overall <$> p).

Definition runHoneypotDetection (g : Guarded HoneypotDetector.Observed) : CheckResult :=
  match g with
  | TimedOut =>
      {| issues := [];
         warnings := ["Honeypot detection timed out - Jupiter API may be unavailable"%string];
         score := 50; skipped := true;
         detail := Honeypot HoneypotDetector.TIMEOUT
                     (Some {| HoneypotDetector.overall := 0;
                              HoneypotDetector.confidence := 0 |}) [] |}
  | Settled (Returned observed) =>
      let result := HoneypotDetector.detectHoneypot observed in
      let overall := overallOr0 (HoneypotDetector.honeypotProbability result) in
      let '(iss, warn) := (@nil string, @nil string) in
      let '(iss, warn) :=
        if 70 <? overall
        then (iss ++ [("🔴 HIGH HONEYPOT RISK: " ++ pretty overall ++ "%")%string], warn)
        else if 40 <? overall
        then (iss, warn ++ [("🟡 Moderate honeypot risk: " ++ pretty overall ++ "%")%string])
        else (iss, warn) in
      let iss :=
        match HoneypotDetector.test "swapSimulation" result with
        | Some swapSimulation =>
            if negb (default false (HoneypotDetector.canSell swapSimulation))
            then iss ++ ["🔴 CANNOT SELL TOKENS - Confirmed honeypot!"%string] else iss
        | None => iss
        end in
      {| issues := iss; warnings := warn; score := Z.max 0 (100 - overall);
         skipped := false;
         detail := Honeypot (HoneypotDetector.verdict result)
                     (HoneypotDetector.honeypotProbability result)
                     (HoneypotDetector.tests result) |}
  | Settled (Threw msg) =>
      {| issues := [msg]; warnings := []; score := 30; skipped := false;
         detail := Honeypot HoneypotDetector.ERROR
                     (Some {| HoneypotDetector.overall := 0;
                              HoneypotDetector.confidence := 0 |}) [] |}
  end.

Definition analyzeMarketData (g : Guarded (option Price)) : CheckResult :=
  match g with
  | TimedOut =>
      {| issues := []; warnings := ["Market data unavailable"%string]; score := 70;
         skipped := true; detail := MarketData None |}
  | Settled (Returned p) =>
      {| issues := [];
         warnings := if Js.isSet p then [] else ["No price data available"%string];
         score := if Js.isSet p then 100 else 50;
         skipped := false; detail := MarketData p |}
  | Settled (Threw _) =>
      {| issues := []; warnings := ["Failed to fetch price data"%string]; score := 50;
         skipped := false; detail := MarketData None |}
  end.

Definition weights : gmap string Z :=
  list_to_map
    [ ("basicInfo", 10); ("authorities", 40); ("programOwnership", 20);
      ("metadata", 5); ("holders", 15); ("honeypot", 30); ("marketData", 5) ]%string.

(** [weights[checkName] || 10], for the keys [analyzeToken] writes and any
    other key that [Object.prototype] does not define. *)
Definition weightOf (checkName : string) : Z :=
  match weights !! checkName with
  | Some w => if w =? 0 then 10 else w
  | None => 10
  end.

(** The guard of the [forEach] body: every result object built above is
    non-null and has a numeric [score], which leaves [!result.skipped]. *)
Definition counted (result : CheckResult) : bool := negb (skipped result).

Definition accumulate (acc : Z * Z) (entry : string * CheckResult) : Z * Z :=
  let '(totalScore, totalWeight) := acc in
  let '(checkName, result) := entry in
  if counted result then
    let weight := weightOf checkName in
    (totalScore + score result * weight, totalWeight + weight)
  else acc.

(** [checks] is the object's entries in insertion order. *)
Definition calculateRiskScore (checks : list (string * CheckResult)) : Z :=
  let '(totalScore, totalWeight) := fold_left accumulate checks (0, 0) in
  if 0 <? totalWeight
  then Js.round (inject_Z totalScore / inject_Z totalWeight)
  else 50.

Inductive SafetyLevel : Type := SAFE | CAUTION | RISKY | DANGEROUS.

Definition getSafetyLevel (score : Z) : SafetyLevel :=
  if 80 <=? score then SAFE
  else if 60 <=? score then CAUTION
  else if 40 <=? score then RISKY
  else DANGEROUS.

(** The strings [getSafetyLevel] returns. *)
Definition label (l : SafetyLevel) : string :=
  match l with
  | SAFE => "🟢 SAFE"
  | CAUTION => "🟡 CAUTION"
  | RISKY => "🟠 RISKY"
  | DANGEROUS => "🔴 DANGEROUS"
  end.

(** [checks[name]] *)
Definition check (name : string) (checks : list (string * CheckResult))
  : option CheckResult :=
  snd <$> List.find (fun e => String.eqb (fst e) name) checks.

Definition generateRecommendations (checks : list (string * CheckResult)) : list string :=
  let recs := @nil string in
  let recs :=
    match detail <$> check "authorities" checks with
    | Some (Authorities (Some _) _) =>
        recs ++ ["🚨 AVOID: Mint authority not revoked - infinite supply risk"%string]
    | _ => recs
    end in
  let recs :=
    match detail <$> check "authorities" checks with
    | Some (Authorities _ (Some _)) =>
        recs ++ ["🚨 CAUTION: Freeze authority active - accounts can be frozen"%string]
    | _ => recs
    end in
  let recs :=
    match check "honeypot" checks with
    | Some h => if Nat.ltb 0 (List.length (issues h))
                then recs ++ ["🚨 HONEYPOT DETECTED: Do not purchase this token"%string]
                else recs
    | None => recs
    end in
  let recs :=
    match detail <$> check "programOwnership" checks with
    | Some (ProgramOwnership _ false) =>
        recs ++ ["🚨 AVOID: Non-standard token program detected"%string]
    | _ => recs
    end in
  let recs :=
    match detail <$> check "holders" checks with
    | Some (Holders _ (Some c)) =>
        if Js.gt (HolderAnalyzer.top1Percentage c) 50
        then recs ++ ["⚠️ HIGH RISK: Single holder owns majority of supply"%string]
        else recs
    | _ => recs
    end in
  match recs with
  | [] => ["✅ No critical issues detected - but always DYOR"%string]
  | _ => recs
  end.

(** [options.includeX]: [None] when the property is absent. *)
Record Options : Type := {
  includeMetadata : option bool;
  includeHolderAnalysis : option bool;
  includeHoneypotDetection : option bool;
  includeMarketData : option bool
}.

(** [options.includeX !== false] *)
Definition enabled (o : option bool) : bool :=
  match o with Some false => false | _ => true end.

(** The collaborator outcomes one run of [analyzeToken] observes. *)
Record Observed : Type := {
  basicMint : Outcome MintInfo;
  basicSupply : Outcome Supply;
  authMint : Outcome MintInfo;
  account : Outcome (option AccountInfo);
  metadataCall : Guarded (option Metadata);
  holdersCall : Guarded HolderAnalyzer.Observed;
  honeypotCall : Guarded HoneypotDetector.Observed;
  marketCall : Guarded (option Price)
}.

Record Analysis : Type := {
  checks : list (string * CheckResult);
  riskScore : Z;
  safetyLevel : SafetyLevel;
  recommendations : list string
}.

Definition runChecks (o : Observed) (options : Options) : list (string * CheckResult) :=
  [ ("basicInfo", analyzeBasicInfo (basicMint o) (basicSupply o));
    ("authorities", analyzeAuthorities (authMint o));
    ("programOwnership", analyzeProgramOwnership (account o)) ]%string
  ++ (if enabled (includeMetadata options)
      then [("metadata"%string, analyzeMetadataWithTimeout (metadataCall o))] else [])
  ++ (if enabled (includeHolderAnalysis options)
      then [("holders"%string, analyzeHoldersWithTimeout (holdersCall o))] else [])
  ++ (if enabled (includeHoneypotDetection options)
      then [("honeypot"%string, runHoneypotDetection (honeypotCall o))] else [])
  ++ (if enabled (includeMarketData options)
      then [("marketData"%string, analyzeMarketData (marketCall o))] else []).

(** [analyzeToken]: [Threw] is the re-throw of the outer [catch]. Every
    check converts its own failures into a result object, and the three
    aggregation functions are total, so the body always reaches [return]. *)
Definition analyzeToken (o : Observed) (options : Options) : Outcome Analysis :=
  let checks := runChecks o options in
  let riskScore := calculateRiskScore checks in
  Returned
    {| checks := checks;
       riskScore := riskScore;
       safetyLevel := getSafetyLevel riskScore;
       recommendations := generateRecommendations checks |}.

End TokenAnalyzer.

(** ** The listener, the queue and the worker *)

(** [params] of a [logsNotification]: [result.value.signature],
    [result.value.logs] and [result.context.slot]. *)
Record Notification : Type := {
  signature : string;
  logs : list string;
  slot : Z
}.

(** The [tokenEvent] object. [timestamp] and [detectedAt] are two readings
    of the same clock, taken while the event is built. *)
Record TokenEvent : Type := {
  eventSignature : string;
  eventSlot : Z;
  timestamp : Z;
  eventLogs : list string;
  detectedAt : Z
}.

(** A parsed WebSocket message, as [handleMessage] tells them apart. *)
Inductive Message : Type :=
  | Subscribed (id : Z)
  | LogsNotification (params : Notification)
  | Unrelated.

(** One turn of the event loop. *)
Inductive Event : Type :=
  | Incoming (m : Message) (now : Z)
  | Tick (now : Z)
  | Settle (ok : bool)
  | ToggleStreaming.

(** *** A monitor run

    The parts of a monitor object that the event loop drives, and the runs
    they generate. Besides the object's state a run records which analyses
    have been started and have not settled yet ([inFlight]) and every event
    that has been pushed onto the queue so far ([entered]). *)
Section Pipeline.

Context {State : Type}.
Variable tokenQueueOf : State -> list TokenEvent.
Variable handleMessage : State -> Message -> Z -> State.
Variable workerCycle : State -> Z -> State * option TokenEvent.
Variable workerSettle : State -> bool -> State.
Variable toggle : State -> State.

Record Run : Type := {
  object : State;
  inFlight : list TokenEvent;
  entered : list TokenEvent
}.

(** The events appended to the queue between two states. *)
Definition pushed (before after : State) : list TokenEvent :=
  skipn (List.length (tokenQueueOf before)) (tokenQueueOf after).

(** [Settle] is the continuation after [await]: it exists only for an
    analysis that was started. *)
Definition fire (r : Run) (ev : Event) : option Run :=
  match ev with
  | Incoming m now =>
      let st' := handleMessage (object r) m now in
      Some {| object := st'; inFlight := inFlight r;
              entered := entered r ++ pushed (object r) st' |}
  | Tick now =>
      let '(st', started) := workerCycle (object r) now in
      Some {| object := st';
              inFlight := inFlight r ++ from_option (fun e => [e]) [] started;
              entered := entered r |}
  | Settle ok =>
      match inFlight r with
      | [] => None
      | _ :: rest =>
          Some {| object := workerSettle (object r) ok; inFlight := rest;
                  entered := entered r |}
      end
  | ToggleStreaming =>
      Some {| object := toggle (object r); inFlight := inFlight r;
              entered := entered r |}
  end.

Variable initial : State.

Definition start : Run := {| object := initial; inFlight := []; entered := [] |}.

Inductive reachable : Run -> Prop :=
  | reachable_start : reachable start
  | reachable_fire r ev r' : reachable r -> fire r ev = Some r' -> reachable r'.

(** The run a list of events produces; an event that cannot fire (a
    [Settle] with nothing in flight) is passed over. *)
Definition play (evs : list Event) : Run :=
  fold_left (fun r ev => default r (fire r ev)) evs start.

End Pipeline.

Arguments Run State : clear implicits.

(** *** services/comprehensivePumpMonitor.js *)
Module ComprehensivePumpMonitor.

(** [stats.apiCalls] and [stats.recentResults] are written by the analysis
    itself and read by none of the functions below. *)
Record Stats : Type := {
  detected : Z;
  analyzed : Z
}.

Record State : Type := {
  tokenQueue : list TokenEvent;
  isAnalyzing : bool;
  isStreaming : bool;
  processedSignatures : gset string;
  stats : Stats
}.

Definition maxQueueSize : nat := 6.
Definition analysisDelay : Z := 25000.

Definition constructor : State :=
  {| tokenQueue := []; isAnalyzing := false; isStreaming := true;
     processedSignatures := ∅;
     stats := {| detected := 0; analyzed := 0 |} |}.

Definition isRealTokenCreation (logs : list string) : bool :=
  let creationIndicators :=
    [ "Program log: Instruction: InitializeMint2";
      "Program log: Instruction: Create" ]%string in
  existsb (fun indicator => existsb (fun log => Js.includes indicator log) logs)
          creationIndicators.

Definition processTokenCreation (st : State) (params : Notification) (now : Z) : State :=
  if bool_decide (signature params ∈ processedSignatures st) then st
  else if negb (isRealTokenCreation (logs params)) then st
  else
    let processed := {[ signature params ]} ∪ processedSignatures st in
    let stats' := {| detected := detected (stats st) + 1;
                     analyzed := analyzed (stats st) |} in
    let tokenEvent :=
      {| eventSignature := signature params; eventSlot := slot params;
         timestamp := now; eventLogs := logs params; detectedAt := now |} in
    {| tokenQueue :=
         if Nat.ltb (List.length (tokenQueue st)) maxQueueSize
         then tokenQueue st ++ [tokenEvent] else tokenQueue st;
       isAnalyzing := isAnalyzing st;
       isStreaming := isStreaming st;
       processedSignatures := processed;
       stats := stats' |}.

Definition handleMessage (st : State) (m : Message) (now : Z) : State :=
  if negb (isStreaming st) then st
  else match m with
       | Subscribed _ => st
       | LogsNotification params => processTokenCreation st params now
       | Unrelated => st
       end.

(** One firing of the interval callback of [startComprehensiveWorker], up
    to its first [await]. The second component is the event whose
    analysis is started, if any. *)
Definition startComprehensiveWorker (st : State) (now : Z) : State * option TokenEvent :=
  if (negb (isAnalyzing st) && Nat.ltb 0 (List.length (tokenQueue st)))%bool then
    match tokenQueue st with
    | [] => (st, None)
    | tokenEvent :: rest =>
        let tokenAge := now - detectedAt tokenEvent in
        if tokenAge <? analysisDelay then
          ({| tokenQueue := tokenEvent :: rest; isAnalyzing := false;
              isStreaming := isStreaming st;
              processedSignatures := processedSignatures st; stats := stats st |},
           None)
        else
          ({| tokenQueue := rest; isAnalyzing := true;
              isStreaming := isStreaming st;
              processedSignatures := processedSignatures st; stats := stats st |},
           Some tokenEvent)
    end
  else (st, None).

(** The rest of the callback, once [runFullAnalysis] has settled:
    [stats.analyzed++] if it resolved, the [catch] if it rejected, and the
    [finally] in both cases. *)
Definition analysisSettled (st : State) (ok : bool) : State :=
  {| tokenQueue := tokenQueue st; isAnalyzing := false;
     isStreaming := isStreaming st;
     processedSignatures := processedSignatures st;
     stats := if ok then {| detected := detected (stats st);
                            analyzed := analyzed (stats st) + 1 |}
              else stats st |}.

(** The [s] command of [setupControls]. *)
Definition toggleStreaming (st : State) : State :=
  {| tokenQueue := tokenQueue st; isAnalyzing := isAnalyzing st;
     isStreaming := negb (isStreaming st);
     processedSignatures := processedSignatures st; stats := stats st |}.

Definition fire : Run State -> Event -> option (Run State) :=
  fire tokenQueue handleMessage startComprehensiveWorker analysisSettled toggleStreaming.

Definition reachable : Run State -> Prop :=
  reachable tokenQueue handleMessage startComprehensiveWorker analysisSettled
    toggleStreaming constructor.

Definition play : list Event -> Run State :=
  play tokenQueue handleMessage startComprehensiveWorker analysisSettled toggleStreaming constructor.

End ComprehensivePumpMonitor.

(** *** services/optimizedPumpMonitor.js *)
Module OptimizedPumpMonitor.

Record Stats : Type := {
  detected : Z;
  analyzed : Z;
  filtered : Z;
  failed : Z
}.

Record State : Type := {
  tokenQueue : list TokenEvent;
  isAnalyzing : bool;
  isStreaming : bool;
  processedSignatures : gset string;
  stats : Stats
}.

Definition maxQueueSize : nat := 5.
Definition analysisDelay : Z := 15000.

Definition constructor : State :=
  {| tokenQueue := []; isAnalyzing := false; isStreaming := true;
     processedSignatures := ∅;
     stats := {| detected := 0; analyzed := 0; filtered := 0; failed := 0 |} |}.

Definition isActualTokenCreation (logs : list string) : bool :=
  let mustHave :=
    [ "Program log: Instruction: InitializeMint2";
      "Program log: Instruction: Create" ]%string in
  let hasRequired :=
    existsb (fun pattern => existsb (fun log => Js.includes pattern log) logs) mustHave in
  if negb hasRequired then false
  else
    let excludePatterns := [ "Swap"; "Buy"; "Sell"; "Transfer"; "Burn" ]%string in
    let hasExclusion :=
      existsb (fun log =>
                 existsb (fun pattern =>
                            Js.includes (Js.toLowerCase pattern) (Js.toLowerCase log))
                         excludePatterns) logs in
    negb hasExclusion.

Definition processLogEvent (st : State) (params : Notification) (now : Z) : State :=
  if bool_decide (signature params ∈ processedSignatures st) then st
  else if negb (isActualTokenCreation (logs params)) then
    {| tokenQueue := tokenQueue st; isAnalyzing := isAnalyzing st;
       isStreaming := isStreaming st;
       processedSignatures := processedSignatures st;
       stats := {| detected := detected (stats st); analyzed := analyzed (stats st);
                   filtered := filtered (stats st) + 1; failed := failed (stats st) |} |}
  else
    let processed := {[ signature params ]} ∪ processedSignatures st in
    let stats' := {| detected := detected (stats st) + 1;
                     analyzed := analyzed (stats st);
                     filtered := filtered (stats st); failed := failed (stats st) |} in
    let tokenEvent :=
      {| eventSignature := signature params; eventSlot := slot params;
         timestamp := now; eventLogs := logs params; detectedAt := now |} in
    {| tokenQueue :=
         if Nat.ltb (List.length (tokenQueue st)) maxQueueSize
         then tokenQueue st ++ [tokenEvent] else tokenQueue st;
       isAnalyzing := isAnalyzing st;
       isStreaming := isStreaming st;
       processedSignatures := processed;
       stats := stats' |}.

Definition handleMessage (st : State) (m : Message) (now : Z) : State :=
  if negb (isStreaming st) then st
  else match m with
       | Subscribed _ => st
       | LogsNotification params => processLogEvent st params now
       | Unrelated => st
       end.

(** One firing of the interval callback of [startOptimizedWorker], up to
    its first [await]. *)
Definition startOptimizedWorker (st : State) (now : Z) : State * option TokenEvent :=
  if (negb (isAnalyzing st) && Nat.ltb 0 (List.length (tokenQueue st)))%bool then
    match tokenQueue st with
    | [] => (st, None)
    | tokenEvent :: rest =>
        let tokenAge := now - detectedAt tokenEvent in
        if tokenAge <? analysisDelay then
          ({| tokenQueue := tokenEvent :: rest; isAnalyzing := false;
              isStreaming := isStreaming st;
              processedSignatures := processedSignatures st; stats := stats st |},
           None)
        else
          ({| tokenQueue := rest; isAnalyzing := true;
              isStreaming := isStreaming st;
              processedSignatures := processedSignatures st; stats := stats st |},
           Some tokenEvent)
    end
  else (st, None).

(** The rest of the callback once [analyzeAgedToken] has settled. *)
Definition analysisSettled (st : State) (ok : bool) : State :=
  {| tokenQueue := tokenQueue st; isAnalyzing := false;
     isStreaming := isStreaming st;
     processedSignatures := processedSignatures st;
     stats := if ok
              then {| detected := detected (stats st);
                      analyzed := analyzed (stats st) + 1;
                      filtered := filtered (stats st); failed := failed (stats st) |}
              else {| detected := detected (stats st);
                      analyzed := analyzed (stats st);
                      filtered := filtered (stats st);
                      failed := failed (stats st) + 1 |} |}.

Definition toggleStreaming (st : State) : State :=
  {| tokenQueue := tokenQueue st; isAnalyzing := isAnalyzing st;
     isStreaming := negb (isStreaming st);
     processedSignatures := processedSignatures st; stats := stats st |}.

Definition fire : Run State -> Event -> option (Run State) :=
  fire tokenQueue handleMessage startOptimizedWorker analysisSettled toggleStreaming.

Definition reachable : Run State -> Prop :=
  reachable tokenQueue handleMessage startOptimizedWorker analysisSettled
    toggleStreaming constructor.

Definition play : list Event -> Run State :=
  play tokenQueue handleMessage startOptimizedWorker analysisSettled toggleStreaming constructor.

End OptimizedPumpMonitor.

(** *** services/enhancedPumpFunMonitor.js *)
Module EnhancedPumpFunMonitor.

(** The [logs] argument of the [onLogs] callback; [context.slot] is passed
    beside it. *)
Record Logs : Type := {
  logsSignature : string;
  logLines : list string;
  accounts : option (list string)
}.

Record QueuedEvent : Type := {
  queuedSignature : string;
  queuedSlot : Z;
  queuedTimestamp : Z;
  queuedAccounts : list string;
  queuedDetectedAt : Z
}.

Record Stats : Type := {
  detected : Z;
  queued : Z;
  analyzed : Z;
  skipped : Z
}.

Record State : Type := {
  tokenQueue : list QueuedEvent;
  isAnalyzing : bool;
  isStreaming : bool;
  processedSignatures : gset string;
  stats : Stats
}.

Definition maxQueueSize : nat := 100.

Definition hasTokenCreation (lines : list string) : bool :=
  existsb (fun log =>
             Js.includes "Program log: Instruction: InitializeMint2" log
             || Js.includes "InitializeMint2" log
             || Js.includes "CreateToken" log
             || (Js.includes "create" log && Js.includes "mint" log))%bool
          lines.

Definition handlePumpFunLog (st : State) (l : Logs) (contextSlot : Z) (now : Z) : State :=
  if negb (isStreaming st) then st
  else if bool_decide (logsSignature l ∈ processedSignatures st) then st
  else if hasTokenCreation (logLines l) then
    let processed := {[ logsSignature l ]} ∪ processedSignatures st in
    let tokenEvent :=
      {| queuedSignature := logsSignature l; queuedSlot := contextSlot;
         queuedTimestamp := now; queuedAccounts := default [] (accounts l);
         queuedDetectedAt := now |} in
    if Nat.ltb (List.length (tokenQueue st)) maxQueueSize then
      {| tokenQueue := tokenQueue st ++ [tokenEvent];
         isAnalyzing := isAnalyzing st; isStreaming := isStreaming st;
         processedSignatures := processed;
         stats := {| detected := detected (stats st) + 1;
                     queued := queued (stats st) + 1;
                     analyzed := analyzed (stats st);
                     skipped := skipped (stats st) |} |}
    else
      {| tokenQueue := tokenQueue st;
         isAnalyzing := isAnalyzing st; isStreaming := isStreaming st;
         processedSignatures := processed;
         stats := {| detected := detected (stats st) + 1;
                     queued := queued (stats st);
                     analyzed := analyzed (stats st);
                     skipped := skipped (stats st) + 1 |} |}
  else st.

End EnhancedPumpFunMonitor.

(** ** Arrays *)
Module JsArray.

(** [[...new Set(values)]]: the first occurrence of every value, in order. *)
Definition distinct (values : list string) : list string :=
  fold_left (fun seen value =>
               if bool_decide (value ∈ seen) then seen else seen ++ [value])
            values [].

End JsArray.

(** ** analyzers/socialAnalyzer.js *)
Module SocialAnalyzer.

Record Analysis : Type := {
  hasWebsite : bool;
  hasTwitter : bool;
  hasTelegram : bool;
  hasDiscord : bool;
  suspiciousContent : list string;
  verificationStatus : string;
  riskScore : Z;
  warnings : option (list string)
}.

(** [pattern.source] of the three [suspiciousPatterns]. *)
Definition suspiciousPatterns : list string :=
  [ "(guaranteed|moon|100x|\$\$\$)";
    "(rug\s*pull|honeypot|scam)";
    "(pump\s*and\s*dump|p&d)" ]%string.

(** What the regular expressions answer on the fetched document: the four
    tests of [checkSocialLinks] and, for each suspicious pattern in order,
    whether it matches the text content. *)
Record Document : Type := {
  website : bool;
  twitter : bool;
  telegram : bool;
  discord : bool;
  matches : string -> bool
}.

Definition calculateSocialRiskScore (analysis : Analysis) : Z :=
  let score := 50 in
  let score := if hasWebsite analysis then score - 10 else score in
  let score := if hasTwitter analysis then score - 10 else score in
  let score := if hasTelegram analysis then score - 5 else score in
  let score := if hasDiscord analysis then score - 5 else score in
  let score := score + Z.of_nat (List.length (suspiciousContent analysis)) * 20 in
  Z.max 0 (Z.min 100 score).

(** [analyzeSocialPresence(metadata)]: [uri] is [metadata.uri] when
    [metadata] and the property are set, [fetched] the outcome of
    [axios.get(metadata.uri)]. *)
Definition analyzeSocialPresence (uri : option string) (fetched : Outcome Document)
  : Analysis :=
  let unfetched score warning :=
    {| hasWebsite := false; hasTwitter := false; hasTelegram := false;
       hasDiscord := false; suspiciousContent := [];
       verificationStatus := "UNVERIFIED"; riskScore := score;
       warnings := Some [warning] |} in
  if negb (Js.truthy uri) then unfetched 80 "NO_METADATA_AVAILABLE"%string
  else
    match fetched with
    | Threw _ => unfetched 70 "METADATA_FETCH_FAILED"%string
    | Returned data =>
        let checked :=
          {| hasWebsite := website data; hasTwitter := twitter data;
             hasTelegram := telegram data; hasDiscord := discord data;
             suspiciousContent := List.filter (matches data) suspiciousPatterns;
             verificationStatus := "UNVERIFIED"; riskScore := 50;
             warnings := None |} in
        {| hasWebsite := hasWebsite checked; hasTwitter := hasTwitter checked;
           hasTelegram := hasTelegram checked; hasDiscord := hasDiscord checked;
           suspiciousContent := suspiciousContent checked;
           verificationStatus := verificationStatus checked;
           riskScore := calculateSocialRiskScore checked;
           warnings := None |}
    end.

End SocialAnalyzer.

(** ** utils/batchProcessor.js *)
Module BatchProcessor.

(** [array.slice(i, j)] for [0 <= i <= j]. *)
Definition slice {A : Type} (i j : nat) (array : list A) : list A :=
  firstn (j - i) (skipn i array).

(** The values of [i] for which the body of
    [for (let i = 0; i < length; i += size)] runs, starting from [i];
    [None] when the loop is still running after [fuel] iterations. *)
Fixpoint starts (fuel length size i : nat) : option (list nat) :=
  if Nat.ltb i length then
    match fuel with
    | O => None
    | S fuel' => cons i <$> starts fuel' length size (i + size)
    end
  else Some [].

(** [chunk(array, size)], cut off after [fuel] iterations. *)
Definition chunkWithin {A : Type} (fuel : nat) (array : list A) (size : nat)
  : option (list (list A)) :=
  List.map (fun i => slice i (i + size) array) <$> starts fuel (List.length array) size 0.

(** [chunk(array, size)]: one iteration per element is enough whenever the
    loop ends at all. *)
Definition chunk {A : Type} (array : list A) (size : nat) : option (list (list A)) :=
  chunkWithin (List.length array) array size.

Section Processing.
Context {A R : Type}.

(** One element of [results]. The entries that the [continue] mode makes
    up for a failed batch carry only [item] and [error]. *)
Record Entry : Type := {
  item : A;
  result : option R;
  success : option bool;
  error : option string;
  index : option nat
}.

(** [processSingleBatch(items, processor, {startIndex})]; [processor i] is
    what the callback does for the item whose [itemIndex] is [i]. *)
Definition processSingleBatch (items : list A) (processor : nat -> Outcome R)
    (startIndex : nat) : list Entry :=
  imap (fun itemIndex item =>
          match processor (startIndex + itemIndex)%nat with
          | Returned r =>
              {| item := item; result := Some r; success := Some true; error := None;
                 index := Some (startIndex + itemIndex)%nat |}
          | Threw message =>
              {| item := item; result := None; success := Some false;
                 error := Some message; index := Some (startIndex + itemIndex)%nat |}
          end) items.

Record Batch : Type := {
  batchItems : list A;
  batchIndex : nat;
  startIndex : nat
}.

Inductive OnError : Type := Continue | Stop | Retry.

Record BatchError : Type := {
  failedBatch : nat;
  failure : string;
  failedItems : list A
}.

Record Summary : Type := {
  results : list Entry;
  errors : list BatchError;
  totalProcessed : nat;
  successCount : nat;
  errorCount : nat
}.

(** How [processBatch] ends: it returns a summary, or (mode [stop]) it
    rejects with the message of the batch that failed first, which is one
    of [messages]. *)
Inductive Ending : Type :=
  | Completed (summary : Summary)
  | Rejected (messages : list string).

(** The batches the first loop of [processBatch] builds. *)
Definition batchesWithin (fuel : nat) (items : list A) (batchSize : nat)
  : option (list Batch) :=
  List.map (fun i => {| batchItems := slice i (i + batchSize) items;
                        batchIndex := i / batchSize;
                        startIndex := i |})
    <$> starts fuel (List.length items) batchSize 0.

(** The body of one batch promise. [processor i attempt] is what the
    callback does for item [i] on the first run of its batch (attempt 0)
    and on the retry (attempt 1); [hooks b] is the outcome of calling
    [onProgress] and [onBatchComplete] for batch [b] ([Returned tt] when
    neither is given).  The result is the batch's resolved value and the
    record pushed onto [errors], or the message it rejects with. *)
Definition runBatch (processor : nat -> nat -> Outcome R) (hooks : nat -> Outcome unit)
    (onError : OnError) (batch : Batch)
  : Outcome (list Entry * list BatchError) :=
  let batchResults :=
    processSingleBatch (batchItems batch) (fun i => processor i 0%nat) (startIndex batch) in
  match hooks (batchIndex batch) with
  | Returned _ => Returned (batchResults, [])
  | Threw message =>
      match onError with
      | Stop => Threw message
      | Retry =>
          Returned
            (processSingleBatch (batchItems batch) (fun i => processor i 1%nat)
                                (startIndex batch), [])
      | Continue =>
          Returned
            (List.map (fun item => {| item := item; result := None; success := None;
                                      error := Some message; index := None |})
                      (batchItems batch),
             [ {| failedBatch := batchIndex batch; failure := message;
                  failedItems := batchItems batch |} ])
      end
  end.

(** [!r.error] *)
Definition noError (r : Entry) : bool := negb (Js.truthy (error r)).

(** The messages of the batch promises that reject. *)
Definition rejections (settled : list (Outcome (list Entry * list BatchError)))
  : list string :=
  omap (fun o => match o with Threw message => Some message | Returned _ => None end) settled.

(** [processBatch(items, processor, options)], cut off after [fuel]
    iterations of its first loop.  [None] stands for a call that never
    settles: the loop does not end, or there are batches and the semaphore
    has no permit to give.  [Promise.all] keeps the batches' values in the
    order of [batches]; the records in [errors] are listed in that order
    too, whereas the code pushes them as the batches fail. *)
Definition processBatchWithin (fuel : nat) (items : list A)
    (processor : nat -> nat -> Outcome R) (hooks : nat -> Outcome unit)
    (batchSize concurrency : nat) (onError : OnError)
  : option Ending :=
  match batchesWithin fuel items batchSize with
  | None => None
  | Some batches =>
      if (Nat.eqb concurrency 0 && Nat.ltb 0 (List.length batches))%bool then None
      else
        let settled := List.map (runBatch processor hooks onError) batches in
        match rejections settled with
        | _ :: _ => Some (Rejected (rejections settled))
        | [] =>
            let values :=
              omap (fun o => match o with Returned v => Some v | Threw _ => None end)
                   settled in
            let results := concat (List.map fst values) in
            Some (Completed
                    {| results := results;
                       errors := concat (List.map snd values);
                       totalProcessed := List.length results;
                       successCount := List.length (List.filter noError results);
                       errorCount :=
                         List.length (List.filter (fun r => negb (noError r)) results) |})
        end
  end.

Definition processBatch (items : list A)
    (processor : nat -> nat -> Outcome R) (hooks : nat -> Outcome unit)
    (batchSize concurrency : nat) (onError : OnError) : option Ending :=
  processBatchWithin (List.length items) items processor hooks batchSize concurrency onError.

End Processing.

Arguments Entry : clear implicits.
Arguments Batch : clear implicits.
Arguments BatchError : clear implicits.
Arguments Summary : clear implicits.
Arguments Ending : clear implicits.

End BatchProcessor.

(** ** utils/batchProcessor.js: the semaphore *)
Module Semaphore.

(** [waiting] holds the callers whose [acquire()] has not resolved yet,
    by name. *)
Record State : Type := {
  permits : Z;
  waiting : list nat
}.

Definition constructor (permits : Z) : State := {| permits := permits; waiting := [] |}.

(** [acquire()] by [caller]; the flag tells whether the release function
    is handed out at once. *)
Definition acquire (st : State) (caller : nat) : State * bool :=
  if 0 <? permits st
  then ({| permits := permits st - 1; waiting := waiting st |}, true)
  else ({| permits := permits st; waiting := waiting st ++ [caller] |}, false).

(** A call of a release function; the second component is the waiting
    caller that is given a release function in turn. *)
Definition release (st : State) : State * option nat :=
  let permits := permits st + 1 in
  match waiting st with
  | [] => ({| permits := permits; waiting := [] |}, None)
  | resolve :: rest => ({| permits := permits - 1; waiting := rest |}, Some resolve)
  end.

(** A semaphore together with the callers that hold a release function
    they have not called yet. *)
Record Run : Type := {
  object : State;
  holders : list nat
}.

Inductive Step : Type :=
  | Acquire (caller : nat)
  | Release (caller : nat).

(** [holders] once [caller] has used up its release function. *)
Fixpoint without (caller : nat) (holders : list nat) : list nat :=
  match holders with
  | [] => []
  | holder :: rest =>
      if Nat.eqb holder caller then rest else holder :: without caller rest
  end.

(** A holder calls its release function once, as the [finally] of
    [processBatch] does. *)
Definition fire (r : Run) (step : Step) : option Run :=
  match step with
  | Acquire caller =>
      let after := acquire (object r) caller in
      Some {| object := fst after;
              holders := if snd after then holders r ++ [caller] else holders r |}
  | Release caller =>
      if bool_decide (caller ∈ holders r) then
        let after := release (object r) in
        Some {| object := fst after;
                holders := without caller (holders r)
                           ++ from_option (fun woken => [woken]) [] (snd after) |}
      else None
  end.

Inductive reachable (initial : Z) : Run -> Prop :=
  | reachable_start :
      reachable initial {| object := constructor initial; holders := [] |}
  | reachable_fire r step r' :
      reachable initial r -> fire r step = Some r' -> reachable initial r'.

End Semaphore.

(** ** analyzers/honeypotDetector.js (the version that reads the chain only) *)
Module OnChainHoneypotDetector.
Import SolanaService.

Record TestResult : Type := {
  issues : list string;
  warnings : list string;
  riskScore : Z;
  severity : Severity
}.

Definition analyzeAuthorities (mint : Outcome MintInfo) : TestResult :=
  match mint with
  | Threw _ =>
      {| issues := ["AUTHORITY_ANALYSIS_FAILED"%string]; warnings := []; riskScore := 25;
         severity := MEDIUM |}
  | Returned mintInfo =>
      let '(iss, risk) := (@nil string, 0) in
      let '(iss, risk) :=
        if Js.isSet (mintAuthority mintInfo)
        then (iss ++ ["MINT_AUTHORITY_ACTIVE"%string], risk + 30) else (iss, risk) in
      let '(iss, risk) :=
        if Js.isSet (freezeAuthority mintInfo)
        then (iss ++ ["FREEZE_AUTHORITY_ACTIVE"%string], risk + 40) else (iss, risk) in
      {| issues := iss; warnings := []; riskScore := risk;
         severity := if 50 <? risk then CRITICAL else if 20 <? risk then HIGH else LOW |}
  end.

Definition analyzeProgram (account : Outcome (option AccountInfo)) : TestResult :=
  match account with
  | Threw _ =>
      {| issues := ["PROGRAM_ANALYSIS_FAILED"%string]; warnings := []; riskScore := 30;
         severity := MEDIUM |}
  | Returned None =>
      {| issues := ["ACCOUNT_NOT_FOUND"%string]; warnings := []; riskScore := 80;
         severity := CRITICAL |}
  | Returned (Some accountInfo) =>
      let std := isStandard (owner accountInfo) in
      {| issues := if std then [] else ["NON_STANDARD_PROGRAM"%string];
         warnings := [];
         riskScore := if std then 0 else 50;
         severity := if std then LOW else CRITICAL |}
  end.

Definition analyzeSupplyMetrics (supply : Outcome Supply) (mint : Outcome MintInfo)
  : TestResult :=
  match supply, mint with
  | Returned sup, Returned mintInfo =>
      let totalSupply := uiAmount sup in
      let '(iss, warn, risk) := (@nil string, @nil string, 0) in
      let '(iss, warn, risk) :=
        if Js.eq totalSupply 0 then (iss ++ ["ZERO_SUPPLY"%string], warn, risk + 70)
        else if Js.gt totalSupply (inject_Z (10 ^ 12))
             then (iss, warn ++ ["EXTREMELY_HIGH_SUPPLY"%string], risk + 10)
             else (iss, warn, risk) in
      let '(iss, warn, risk) :=
        if ((18 <? decimals mintInfo) || (decimals mintInfo =? 0))%bool
        then (iss, warn ++ ["UNUSUAL_DECIMALS"%string], risk + 5) else (iss, warn, risk) in
      {| issues := iss; warnings := warn; riskScore := risk;
         severity := if 50 <? risk then CRITICAL else if 10 <? risk then MEDIUM else LOW |}
  | _, _ =>
      {| issues := ["SUPPLY_ANALYSIS_FAILED"%string]; warnings := []; riskScore := 20;
         severity := MEDIUM |}
  end.

(** [analyzeHolderPatterns]: [holders] is the race between
    [getTokenLargestAccounts(mintAddress, 5)] and the five-second timer,
    each holder given by its [uiAmount]; [supply] is the outcome of the
    [getTokenSupply] that follows when holders were found. *)
Definition analyzeHolderPatterns (holders : Guarded (list (option Q)))
    (supply : Outcome Supply) : TestResult :=
  let skipped :=
    {| issues := []; warnings := ["HOLDER_ANALYSIS_SKIPPED"%string]; riskScore := 15;
       severity := LOW |} in
  match holders with
  | TimedOut => skipped
  | Settled (Threw _) => skipped
  | Settled (Returned []) =>
      {| issues := []; warnings := ["NO_HOLDER_DATA"%string]; riskScore := 10;
         severity := LOW |}
  | Settled (Returned (first :: _)) =>
      match supply with
      | Threw _ => skipped
      | Returned sup =>
          let totalSupply := uiAmount sup in
          let '(iss, warn, risk) := (@nil string, @nil string, 0) in
          let '(iss, warn, risk) :=
            if Js.gt totalSupply 0 then
              let topHolderPct := (default 0 first / totalSupply * 100)%Q in
              if Js.gt topHolderPct 80
              then (iss ++ ["EXTREME_CONCENTRATION"%string], warn, risk + 60)
              else if Js.gt topHolderPct 50
              then (iss ++ ["HIGH_CONCENTRATION"%string], warn, risk + 30)
              else if Js.gt topHolderPct 30
              then (iss, warn ++ ["MODERATE_CONCENTRATION"%string], risk + 10)
              else (iss, warn, risk)
            else (iss, warn, risk) in
          {| issues := iss; warnings := warn; riskScore := risk;
             severity := if 50 <? risk then CRITICAL else if 20 <? risk then HIGH else LOW |}
      end
  end.

Definition weights : gmap string Q :=
  list_to_map
    [ ("authorityAnalysis", 4 # 10); ("programAnalysis", 3 # 10);
      ("supplyAnalysis", 2 # 10); ("holderPatterns", 1 # 10) ]%string.

(** [weights[testName] || 0.1] *)
Definition weightOf (testName : string) : Q := default (1 # 10) (weights !! testName).

Record Probability : Type := { overall : Z; confidence : Q }.

(** The [forEach] over [Object.entries(tests)]; the accumulator is
    [(totalRisk, maxRisk, testCount)]. Every sub-test carries a numeric
    [riskScore]. *)
Definition accumulate (acc : Q * Q * Z) (entry : string * TestResult) : Q * Q * Z :=
  let weight := weightOf (fst entry) in
  ((fst (fst acc) + inject_Z (riskScore (snd entry)) * weight)%Q,
   (snd (fst acc) + 100 * weight)%Q,
   snd acc + 1).

Definition calculateOnChainHoneypotProbability (tests : list (string * TestResult))
  : Probability :=
  let sums := fold_left accumulate tests (0%Q, 0%Q, 0) in
  let totalRisk := fst (fst sums) in
  let maxRisk := snd (fst sums) in
  let testCount := snd sums in
  let overall := if Js.gt maxRisk 0 then Js.round (totalRisk / maxRisk * 100) else 50 in
  {| overall := Z.min 100 (Z.max 0 overall);
     confidence := if 0 <? testCount then Qmin (8 # 10) (inject_Z testCount * (2 # 10))
                   else 3 # 10 |}.

Inductive Verdict : Type :=
  | LIKELY_HONEYPOT | HIGH_RISK | SUSPICIOUS | CAUTION | LOW_RISK | CANNOT_ANALYZE.

Definition generateVerdict (probability : Probability) : Verdict :=
  if 80 <=? overall probability then LIKELY_HONEYPOT
  else if 60 <=? overall probability then HIGH_RISK
  else if 40 <=? overall probability then SUSPICIOUS
  else if 20 <=? overall probability then CAUTION
  else LOW_RISK.

(** The [switch] of [generateRecommendations]. *)
Definition advice (issue : string) : list string :=
  if String.eqb issue "MINT_AUTHORITY_ACTIVE"
  then ["• Mint authority not revoked - supply can be inflated"%string]
  else if String.eqb issue "FREEZE_AUTHORITY_ACTIVE"
  then ["• Freeze authority not revoked - accounts can be frozen"%string]
  else if String.eqb issue "NON_STANDARD_PROGRAM"
  then ["• Token uses non-standard program - higher risk"%string]
  else if String.eqb issue "EXTREME_CONCENTRATION"
  then ["• Extreme holder concentration detected"%string]
  else [].

Definition generateRecommendations (tests : list (string * TestResult))
    (probability : Probability) : list string :=
  let headline :=
    if 60 <=? overall probability
    then "🚨 HIGH RISK: Avoid this token due to suspicious on-chain patterns"%string
    else if 40 <=? overall probability
    then "⚠️ CAUTION: Multiple risk factors detected - proceed with extreme caution"%string
    else if 20 <=? overall probability
    then "⚠️ MODERATE RISK: Some concerns detected - do additional research"%string
    else "✅ ON-CHAIN ANALYSIS: No major red flags detected in on-chain data"%string in
  JsArray.distinct
    ([headline]
     ++ flat_map (fun entry => flat_map advice (issues (snd entry))) tests
     ++ ["📝 NOTE: This analysis is based on on-chain data only (no DEX simulation)"%string]).

(** What the chain answers during one run of [detectHoneypot], in the
    order of the calls. *)
Record Observed : Type := {
  authMint : Outcome MintInfo;
  programAccount : Outcome (option AccountInfo);
  supply : Outcome Supply;
  supplyMint : Outcome MintInfo;
  holders : Guarded (list (option Q));
  holdersSupply : Outcome Supply
}.

Record Analysis : Type := {
  tests : list (string * TestResult);
  honeypotProbability : Probability;
  verdict : Verdict;
  recommendations : list string
}.

(** [detectHoneypot]: the four sub-tests catch what their lookups throw,
    so the outer [catch] (verdict [CANNOT_ANALYZE]) is not entered. *)
Definition detectHoneypot (o : Observed) : Analysis :=
  let tests :=
    [ ("authorityAnalysis", analyzeAuthorities (authMint o));
      ("programAnalysis", analyzeProgram (programAccount o));
      ("supplyAnalysis", analyzeSupplyMetrics (supply o) (supplyMint o));
      ("holderPatterns", analyzeHolderPatterns (holders o) (holdersSupply o)) ]%string in
  let p := calculateOnChainHoneypotProbability tests in
  {| tests := tests; honeypotProbability := p; verdict := generateVerdict p;
     recommendations := generateRecommendations tests p |}.

End OnChainHoneypotDetector.

(** ** config/rateLimit.js: the credit ledger of [RateLimitManager] *)
Module RateLimitManager.

Record State : Type := {
  creditsUsed : Z;
  maxCredits : Z
}.

(** The constructor, for the ceiling [RATE_LIMITS.MAX_TOTAL_CREDITS]. *)
Definition constructor (maxTotalCredits : Z) : State :=
  {| creditsUsed := 0; maxCredits := maxTotalCredits |}.

(** The guard at the head of [executeRequest]: the call throws before it
    schedules anything. *)
Definition refused (st : State) (credits : Z) : bool :=
  maxCredits st <? creditsUsed st + credits.

Definition limitMessage (st : State) (credits : Z) : string :=
  ("Credit limit exceeded. Used: " ++ pretty (creditsUsed st) ++ ", Required: "
   ++ pretty credits ++ ", Max: " ++ pretty (maxCredits st))%string.

(** The continuation of [executeRequest] after its [await]: the credits
    are added when the scheduled function resolved. *)
Definition settle {A : Type} (st : State) (credits : Z) (job : Outcome A) : State :=
  match job with
  | Returned _ => {| creditsUsed := creditsUsed st + credits; maxCredits := maxCredits st |}
  | Threw _ => st
  end.

(** [await executeRequest(requestFunc, credits)] when nothing else touches
    the ledger in between; [job] is the outcome of
    [mainLimiter.schedule(.., requestFunc)]. *)
Definition executeRequest {A : Type} (st : State) (credits : Z) (job : Outcome A)
  : State * Outcome A :=
  if refused st credits then (st, Threw (limitMessage st credits))
  else (settle st credits job, job).

(** Requests made one after the other, each awaited before the next. *)
Definition inSequence {A : Type} (st : State) (requests : list (Z * Outcome A)) : State :=
  fold_left (fun st request => fst (executeRequest st (fst request) (snd request)))
            requests st.

(** Two requests that overlap, as the members of one batch of
    [executeBatch] do: both pass the guard before either settles. *)
Definition overlapping {A : Type} (st : State) (first second : Z * Outcome A)
  : option State :=
  if (refused st (fst first) || refused st (fst second))%bool then None
  else Some (settle (settle st (fst first) (snd first)) (fst second) (snd second)).

(** [resetCredits()] *)
Definition resetCredits (st : State) : State :=
  {| creditsUsed := 0; maxCredits := maxCredits st |}.

End RateLimitManager.

(** ** services/enhancedPumpFunMonitor.js: the worker *)
Module EnhancedWorker.
Import EnhancedPumpFunMonitor.

Definition constructor : State :=
  {| tokenQueue := []; isAnalyzing := false; isStreaming := true;
     processedSignatures := ∅;
     stats := {| detected := 0; queued := 0; analyzed := 0; skipped := 0 |} |}.

(** One firing of the interval callback of [startAnalysisWorker], up to
    its [await]; [emitted] is the outcome of [this.emit('newToken', ..)],
    which runs the listeners.  When a listener throws, the [catch] and the
    [finally] run in the same turn. *)
Definition startAnalysisWorker (st : State) (emitted : Outcome unit) : State :=
  if (negb (isAnalyzing st) && Nat.ltb 0 (List.length (tokenQueue st)))%bool then
    match tokenQueue st with
    | [] => st
    | tokenEvent :: rest =>
        match emitted with
        | Returned _ =>
            {| tokenQueue := rest; isAnalyzing := true; isStreaming := isStreaming st;
               processedSignatures := processedSignatures st;
               stats := {| detected := detected (stats st); queued := queued (stats st);
                           analyzed := analyzed (stats st) + 1;
                           skipped := skipped (stats st) |} |}
        | Threw _ =>
            {| tokenQueue := rest; isAnalyzing := false; isStreaming := isStreaming st;
               processedSignatures := processedSignatures st; stats := stats st |}
        end
    end
  else st.

(** The [finally] after the three-second delay. *)
Definition delayElapsed (st : State) : State :=
  {| tokenQueue := tokenQueue st; isAnalyzing := false; isStreaming := isStreaming st;
     processedSignatures := processedSignatures st; stats := stats st |}.

(** The [s] command of [setupKeyboardControls]. *)
Definition toggleStreaming (st : State) : State :=
  {| tokenQueue := tokenQueue st; isAnalyzing := isAnalyzing st;
     isStreaming := negb (isStreaming st);
     processedSignatures := processedSignatures st; stats := stats st |}.

(** One turn of the event loop. *)
Inductive Turn : Type :=
  | LogEntry (l : Logs) (contextSlot now : Z)
  | Cycle (emitted : Outcome unit)
  | DelayElapsed
  | Toggle.

(** The delay's continuation exists while a cycle is suspended in its
    [await], which is when [isAnalyzing] is set. *)
Definition fire (st : State) (turn : Turn) : option State :=
  match turn with
  | LogEntry l contextSlot now => Some (handlePumpFunLog st l contextSlot now)
  | Cycle emitted => Some (startAnalysisWorker st emitted)
  | DelayElapsed => if isAnalyzing st then Some (delayElapsed st) else None
  | Toggle => Some (toggleStreaming st)
  end.

Inductive reachable : State -> Prop :=
  | reachable_start : reachable constructor
  | reachable_fire st turn st' : reachable st -> fire st turn = Some st' -> reachable st'.

End EnhancedWorker.

(** ** analyzers/liquidityAnalyzer.js *)
Module LiquidityAnalyzer.

(** A secured percentage as JavaScript computes it: the quotient of two
    amounts is infinite or [NaN] when the LP supply is zero or does not
    parse. *)
Inductive Num : Type :=
  | Finite (q : Q)
  | Infinite (positive : bool)
  | NaN.

(** [a / b * 100] for a finite [a]; [b] is [None] when [parseFloat]
    answered [NaN]. *)
Definition percentOf (a : Q) (b : option Q) : Num :=
  match b with
  | None => NaN
  | Some b =>
      if Qeq_bool b 0
      then (if Qeq_bool a 0 then NaN else Infinite (Qle_bool 0 a))
      else Finite (a / b * 100)
  end.

(** [x + y] *)
Definition plus (x y : Num) : Num :=
  match x, y with
  | Finite a, Finite b => Finite (a + b)
  | NaN, _ | _, NaN => NaN
  | Infinite s, Finite _ | Finite _, Infinite s => Infinite s
  | Infinite s, Infinite t => if Bool.eqb s t then Infinite s else NaN
  end.

(** [x / n] for a positive count [n] *)
Definition over (x : Num) (n : nat) : Num :=
  match x with
  | Finite a => Finite (a / inject_Z (Z.of_nat n))
  | other => other
  end.

(** [x >= c] *)
Definition ge (x : Num) (c : Q) : bool :=
  match x with
  | Finite a => Qle_bool c a
  | Infinite s => s
  | NaN => false
  end.

(** [x < c] *)
Definition lt (x : Num) (c : Q) : bool :=
  match x with
  | Finite a => negb (Qle_bool c a)
  | Infinite s => negb s
  | NaN => false
  end.

Inductive Status : Type :=
  | EXCELLENT | GOOD | MODERATE | POOR | DANGEROUS
  | ESTIMATED | ERROR | NO_LIQUIDITY | UNKNOWN.

(** A pool object. [totalSupply], [lockedAmount] and [burnedAmount] are
    written by [analyzePoolSecurity] and read by nothing. *)
Record Pool : Type := {
  address : string;
  dex : string;
  tokenBalance : option Q;
  program : string;
  lpMint : option string;
  securityStatus : option Status;
  securedPercentage : option Num
}.

Record Analysis : Type := {
  pools : list Pool;
  overallStatus : Status;
  overallSecured : Num;
  riskFactors : list string;
  warnings : list string;
  lpProviders : nat
}.

Definition BURN_ADDRESSES : gset string :=
  list_to_set
    [ "11111111111111111111111111111111";
      "1nc1nerator11111111111111111111111111111111";
      "So11111111111111111111111111111111111111112" ]%string.

Definition DEX_PROGRAMS : list (string * string) :=
  [ ("RAYDIUM_V4", "675kPX9MHTjS2zt1qfr1NYHuzeLXfQM9H24wFSUt1Mp8");
    ("ORCA_WHIRLPOOLS", "whirLbMiicVdio4qvUfM5KAg6Ct8VwpYzGff3uctyCc");
    ("ORCA_V1", "9WzDXwBbmkg8ZTbNMqUxvQRAyrZzDsGYdLVL9zYtAWWM");
    ("METEORA", "Eo7WjKq67rjJQSZxS6z3YkapzY3eMj6Xy8X5EQVn5UaB") ]%string.

Definition KNOWN_LOCKERS : gset string :=
  list_to_set
    [ "LockerVault1111111111111111111111111111";
      "TeamFinance1111111111111111111111111111" ]%string.

(** [Object.values(this.DEX_PROGRAMS).includes(owner)] *)
Definition isDEXAccount (owner : string) : bool :=
  existsb (String.eqb owner) (List.map snd DEX_PROGRAMS).

(** [programMap[programId] || 'Unknown DEX'], for the program ids it is
    called with. *)
Definition getDEXName (programId : string) : string :=
  let programMap : gmap string string :=
    list_to_map
      [ ("675kPX9MHTjS2zt1qfr1NYHuzeLXfQM9H24wFSUt1Mp8", "Raydium");
        ("whirLbMiicVdio4qvUfM5KAg6Ct8VwpYzGff3uctyCc", "Orca");
        ("9WzDXwBbmkg8ZTbNMqUxvQRAyrZzDsGYdLVL9zYtAWWM", "Orca V1");
        ("Eo7WjKq67rjJQSZxS6z3YkapzY3eMj6Xy8X5EQVn5UaB", "Meteora") ]%string in
  default "Unknown DEX"%string (programMap !! programId).

(** One entry of [getTokenLargestAccounts(tokenMint, 20)], with what
    [getAccountInfo(holder.address)] answers for it. *)
Record LargestHolder : Type := {
  holderAddress : string;
  uiAmount : option Q;
  accountInfo : Outcome (option SolanaService.AccountInfo)
}.

(** What the two lookups on an LP mint answer: the parsed
    [uiAmountString] of its supply ([None] for [NaN]) and its largest
    holders with their [uiAmount]. *)
Record LpObserved : Type := {
  lpSupply : Outcome (option Q);
  lpHolders : Outcome (list (string * option Q))
}.

Definition analyzeHolderForPool (holder : LargestHolder) : option Pool :=
  match accountInfo holder with
  | Returned (Some info) =>
      if isDEXAccount (SolanaService.owner info) then
        Some {| address := holderAddress holder;
                dex := getDEXName (SolanaService.owner info);
                tokenBalance := uiAmount holder;
                program := SolanaService.owner info;
                lpMint := None;
                securityStatus := None;
                securedPercentage := None |}
      else None
  | Returned None => None
  | Threw _ => None
  end.

Definition findLiquidityPools (largestHolders : Outcome (list LargestHolder)) : list Pool :=
  match largestHolders with
  | Returned holders =>
      fold_left (fun pools holder =>
                   match analyzeHolderForPool holder with
                   | Some poolCandidate => pools ++ [poolCandidate]
                   | None => pools
                   end) holders []
  | Threw _ => []
  end.

Definition getSecurityStatus (securedPercentage : Num) : Status :=
  if ge securedPercentage 95 then EXCELLENT
  else if ge securedPercentage 80 then GOOD
  else if ge securedPercentage 60 then MODERATE
  else if ge securedPercentage 30 then POOR
  else DANGEROUS.

(** One step of the loop over [lpHolders]; the accumulator is
    [(lockedAmount, burnedAmount)]. *)
Definition tally (acc : Q * Q) (holder : string * option Q) : Q * Q :=
  if bool_decide (fst holder ∈ BURN_ADDRESSES)
  then (fst acc, (snd acc + default 0 (snd holder))%Q)
  else if bool_decide (fst holder ∈ KNOWN_LOCKERS)
  then ((fst acc + default 0 (snd holder))%Q, snd acc)
  else acc.

(** [analyzePoolSecurity(pool)]; [lp] answers the lookups on the pool's
    LP mint. *)
Definition analyzePoolSecurity (lp : string -> LpObserved) (pool : Pool) : Pool :=
  let updated status secured :=
    {| address := address pool; dex := dex pool; tokenBalance := tokenBalance pool;
       program := program pool; lpMint := lpMint pool;
       securityStatus := Some status; securedPercentage := secured |} in
  match lpMint pool with
  | None | Some EmptyString => updated ESTIMATED (Some (Finite 50))
  | Some mint =>
      match lpSupply (lp mint), lpHolders (lp mint) with
      | Returned totalSupply, Returned holders =>
          let amounts := fold_left tally holders (0%Q, 0%Q) in
          let lockedAmount := fst amounts in
          let burnedAmount := snd amounts in
          let secured := percentOf (lockedAmount + burnedAmount) totalSupply in
          updated (getSecurityStatus secured) (Some secured)
      | _, _ => updated ERROR (securedPercentage pool)
      end
  end.

(** The [forEach] of [calculateOverallMetrics]; the accumulator is
    [(totalSecurity, validPools)]. *)
Definition addPool (acc : Num * nat) (pool : Pool) : Num * nat :=
  match securedPercentage pool with
  | Some secured => (plus (fst acc) secured, S (snd acc))
  | None => acc
  end.

Definition calculateOverallMetrics (analysis : Analysis) : Analysis :=
  match pools analysis with
  | [] => analysis
  | _ =>
      let sums := fold_left addPool (pools analysis) (Finite 0, 0%nat) in
      let totalSecurity := fst sums in
      let validPools := snd sums in
      let secured := if Nat.ltb 0 validPools then over totalSecurity validPools
                     else Finite 0 in
      {| pools := pools analysis;
         overallStatus := getSecurityStatus secured;
         overallSecured := secured;
         riskFactors := riskFactors analysis;
         warnings := warnings analysis;
         lpProviders := List.length (pools analysis) |}
  end.

Definition assessLiquidityRisks (analysis : Analysis) : Analysis :=
  let risks := @nil string in
  let warns := @nil string in
  let risks :=
    if lt (overallSecured analysis) 30
    then risks ++ ["🔴 Very low liquidity security (<30% locked/burned)"%string]
    else risks in
  let warns :=
    if lt (overallSecured analysis) 30 then warns
    else if lt (overallSecured analysis) 60
    then warns ++ ["🟡 Moderate liquidity security - Some rug pull risk"%string]
    else warns in
  let warns :=
    if Nat.eqb (List.length (pools analysis)) 1
    then warns ++ ["🟡 Single liquidity pool detected"%string] else warns in
  let risks :=
    if Nat.eqb (List.length (pools analysis)) 1 then risks
    else if Nat.eqb (List.length (pools analysis)) 0
    then risks ++ ["🔴 No liquidity pools found"%string] else risks in
  let warns :=
    if Nat.ltb (lpProviders analysis) 3
    then warns ++ ["🟡 Low LP provider count - Centralization risk"%string] else warns in
  {| pools := pools analysis;
     overallStatus := overallStatus analysis;
     overallSecured := overallSecured analysis;
     riskFactors := risks;
     warnings := warns;
     lpProviders := lpProviders analysis |}.

(** [analyzeLiquidity(tokenMint)]. [findLiquidityPools] and
    [analyzePoolSecurity] catch what their lookups throw and the two
    remaining steps call nothing, so the outer [catch] (status [ERROR]) is
    not entered. *)
Definition analyzeLiquidity
    (largestHolders : Outcome (list LargestHolder)) (lp : string -> LpObserved)
  : Analysis :=
  let found := findLiquidityPools largestHolders in
  match found with
  | [] =>
      {| pools := []; overallStatus := NO_LIQUIDITY; overallSecured := Finite 0;
         riskFactors := ["🔴 No liquidity pools detected"%string];
         warnings := []; lpProviders := 0 |}
  | _ =>
      assessLiquidityRisks
        (calculateOverallMetrics
           {| pools := List.map (analyzePoolSecurity lp) found;
              overallStatus := UNKNOWN; overallSecured := Finite 0;
              riskFactors := []; warnings := []; lpProviders := 0 |})
  end.

(** [x.toFixed(1)] *)
Definition toFixed1 (x : Num) : string :=
  match x with
  | Finite q =>
      let magnitude := if Qle_bool 0 q then q else (- q)%Q in
      let tenths := Js.round (magnitude * 10) in
      let sign := if Qle_bool 0 q then ""%string else "-"%string in
      (sign ++ pretty (tenths / 10) ++ "." ++ pretty (tenths mod 10))%string
  | Infinite true => "Infinity"
  | Infinite false => "-Infinity"
  | NaN => "NaN"
  end.

End LiquidityAnalyzer.

(** ** analyzers/holderAnalyzer.js: the accounts that become holders *)
Module HolderFilter.

(** The three [continue] guards of the loop over [largestAccounts]: an
    account is kept when its [uiAmount] is set and non-zero, its address
    is a valid base58 key, and it is not a known burn address. *)
Definition kept (account : HolderAnalyzer.Account) : bool :=
  match HolderAnalyzer.amount account with
  | None => false
  | Some uiAmount =>
      negb (Js.eq uiAmount 0)
      && HolderAnalyzer.isValidBase58Address account
      && negb (bool_decide (HolderAnalyzer.address account
                            ∈ HolderAnalyzer.knownBurnAddresses))
  end.

(** [b.percentage - a.percentage <= 0]: [a] may stand before [b]. *)
Definition descending (a b : HolderAnalyzer.Holder) : Prop :=
  (HolderAnalyzer.percentage b <= HolderAnalyzer.percentage a)%Q.

End HolderFilter.

(** ** The honeypot detector against the quote service it requires *)
Module Wiring.

(** What [detectHoneypot] observes when [jupiterService] is the module
    embedded above: [testConnectivity()] answers what that function
    computes from the outcome [http] of its request. *)
Definition asWired (o : HoneypotDetector.Observed) (http : Outcome unit)
  : HoneypotDetector.Observed :=
  {| HoneypotDetector.authMint := HoneypotDetector.authMint o;
     HoneypotDetector.programAccount := HoneypotDetector.programAccount o;
     HoneypotDetector.supply := HoneypotDetector.supply o;
     HoneypotDetector.supplyMint := HoneypotDetector.supplyMint o;
     HoneypotDetector.connectivity := Returned (JupiterService.testConnectivity http);
     HoneypotDetector.swap := HoneypotDetector.swap o |}.

(** What it observes when the service is reachable and [simulateSwap] sees
    the quote outcomes [buy] and [sell]. *)
Definition simulated (o : HoneypotDetector.Observed)
    (buy sell : Outcome (option JupiterService.Quote)) : HoneypotDetector.Observed :=
  {| HoneypotDetector.authMint := HoneypotDetector.authMint o;
     HoneypotDetector.programAccount := HoneypotDetector.programAccount o;
     HoneypotDetector.supply := HoneypotDetector.supply o;
     HoneypotDetector.supplyMint := HoneypotDetector.supplyMint o;
     HoneypotDetector.connectivity := Returned true;
     HoneypotDetector.swap := Returned (JupiterService.simulateSwap buy sell) |}.

(** What it observes in a run of the program: the chain lookups answer as
    in [o], the price endpoint answers [http] to the request of
    [testConnectivity()], and the quote endpoint would answer [buy] and
    [sell] to the two requests of [simulateSwap], each sent through
    [getSwapQuote]. *)
Definition live (o : HoneypotDetector.Observed) (http : Outcome unit)
    (buy sell : Outcome (option JupiterService.Quote)) : HoneypotDetector.Observed :=
  {| HoneypotDetector.authMint := HoneypotDetector.authMint o;
     HoneypotDetector.programAccount := HoneypotDetector.programAccount o;
     HoneypotDetector.supply := HoneypotDetector.supply o;
     HoneypotDetector.supplyMint := HoneypotDetector.supplyMint o;
     HoneypotDetector.connectivity := Returned (JupiterService.testConnectivity http);
     HoneypotDetector.swap :=
       Returned (JupiterService.simulateSwap (JupiterService.getSwapQuote buy)
                                             (JupiterService.getSwapQuote sell)) |}.

(** [jupiterService.getPrice(mintAddress)]; [http] is the outcome of its
    [axios.get], holding [response.data.data[tokenMint]] when that is set.
    Whatever fails inside, the call of [this.rateLimit()] included, is
    caught and answered with [null]: [getPrice] never throws. *)
Definition getPrice (http : Outcome (option TokenAnalyzer.Price))
  : option TokenAnalyzer.Price :=
  match JupiterService.rateLimit with
  | Threw _ => None
  | Returned _ =>
      match http with
      | Returned priceData => priceData
      | Threw _ => None
      end
  end.

End Wiring.

(** ** services/comprehensivePumpMonitor.js: the analysis the worker starts *)
Module ComprehensiveAnalysis.

(** The object [runFullAnalysis] builds: what [tokenAnalyzer.analyzeToken]
    returned, with [liquidity] added. *)
Record Analysis : Type := {
  token : TokenAnalyzer.Analysis;
  liquidity : LiquidityAnalyzer.Analysis
}.

(** One entry of [transaction.meta.postTokenBalances]; [uiTokenAmount]
    tells whether the property is set. *)
Record Balance : Type := {
  mint : option string;
  uiTokenAmount : bool
}.

(** [extractTokenMint(tokenEvent)]; [transaction] is the outcome of
    [getTransaction]: [None] for [null], and inside it [None] when
    [meta] or [postTokenBalances] is missing. *)
Definition extractTokenMint (transaction : Outcome (option (option (list Balance))))
  : option string :=
  match transaction with
  | Returned (Some (Some postTokenBalances)) =>
      List.find (fun balance => Js.truthy (mint balance) && uiTokenAmount balance)
                postTokenBalances
      ≫= mint
  | Returned (Some None) => None
  | Returned None => None
  | Threw _ => None
  end.

(** The options [runFullAnalysis] passes to [analyzeToken]. *)
Definition fullOptions : TokenAnalyzer.Options :=
  {| TokenAnalyzer.includeMetadata := Some true;
     TokenAnalyzer.includeHolderAnalysis := Some true;
     TokenAnalyzer.includeHoneypotDetection := Some true;
     TokenAnalyzer.includeMarketData := Some false |}.

Record StoredResult : Type := {
  tokenMint : string;
  riskScore : Z;
  safetyLevel : TokenAnalyzer.SafetyLevel;
  liquiditySecured : LiquidityAnalyzer.Num;
  timestamp : string;
  signature : string
}.

(** [x || 0] on a number *)
Definition orZero (x : LiquidityAnalyzer.Num) : LiquidityAnalyzer.Num :=
  match x with
  | LiquidityAnalyzer.Finite q =>
      if Qeq_bool q 0 then LiquidityAnalyzer.Finite 0 else x
  | LiquidityAnalyzer.NaN => LiquidityAnalyzer.Finite 0
  | LiquidityAnalyzer.Infinite _ => x
  end.

(** [storeResult]: [unshift], then [pop] when more than 15 are kept. *)
Definition storeResult (recentResults : list StoredResult) (tokenMint : string)
    (analysis : Analysis) (tokenEvent : TokenEvent) (isoNow : string)
  : list StoredResult :=
  let unshifted :=
    {| tokenMint := tokenMint;
       riskScore := TokenAnalyzer.riskScore (token analysis);
       safetyLevel := TokenAnalyzer.safetyLevel (token analysis);
       liquiditySecured := orZero (LiquidityAnalyzer.overallSecured (liquidity analysis));
       timestamp := isoNow;
       signature := eventSignature tokenEvent |} :: recentResults in
  if Nat.ltb 15 (List.length unshifted) then removelast unshifted else unshifted.

(** The part of [this.stats] the analysis writes. *)
Record Stats : Type := {
  apiCalls : Z;
  recentResults : list StoredResult
}.

(** What one run of [runFullAnalysis] observes. *)
Record Observed : Type := {
  transaction : Outcome (option (option (list Balance)));
  checks : TokenAnalyzer.Observed;
  largestHolders : Outcome (list LiquidityAnalyzer.LargestHolder);
  lp : string -> LiquidityAnalyzer.LpObserved;
  isoNow : string
}.

(** [runFullAnalysis(tokenEvent)]: the whole body sits in a [try] whose
    [catch] only logs. *)
Definition runFullAnalysis (stats : Stats) (tokenEvent : TokenEvent) (o : Observed) : Stats :=
  let counted := {| apiCalls := apiCalls stats + 1; recentResults := recentResults stats |} in
  match extractTokenMint (transaction o) with
  | None => counted
  | Some EmptyString => counted
  | Some tokenMint =>
      match TokenAnalyzer.analyzeToken (checks o) fullOptions with
      | Threw _ => counted
      | Returned analysis =>
          let full :=
            {| token := analysis;
               liquidity := LiquidityAnalyzer.analyzeLiquidity (largestHolders o) (lp o) |} in
          {| apiCalls := apiCalls counted + 12;
             recentResults :=
               storeResult (recentResults counted) tokenMint full tokenEvent (isoNow o) |}
      end
  end.

(** [stats] as the constructor leaves it. *)
Definition constructorStats : Stats := {| apiCalls := 0; recentResults := [] |}.

(** The stats after the worker has run the given analyses, one after the
    other. *)
Definition analysed (jobs : list (TokenEvent * Observed)) : Stats :=
  fold_left (fun stats job => runFullAnalysis stats (fst job) (snd job)) jobs constructorStats.

(** What every stored result satisfies: a secured-liquidity figure of 0 or
    50, the safety level of its score, and a score between 0 and 100. *)
Definition wellStored (r : StoredResult) : Prop :=
  (exists q, liquiditySecured r = LiquidityAnalyzer.Finite q /\ (q == 0 \/ q == 50)%Q)
  /\ safetyLevel r = TokenAnalyzer.getSafetyLevel (riskScore r)
  /\ 0 <= riskScore r <= 100.

Definition collectIssues (analysis : Analysis) : list string :=
  JsArray.distinct (flat_map (fun entry => TokenAnalyzer.issues (snd entry))
                     (TokenAnalyzer.checks (token analysis))
            ++ LiquidityAnalyzer.riskFactors (liquidity analysis)).

Definition collectWarnings (analysis : Analysis) : list string :=
  JsArray.distinct (flat_map (fun entry => TokenAnalyzer.warnings (snd entry))
                     (TokenAnalyzer.checks (token analysis))
            ++ LiquidityAnalyzer.warnings (liquidity analysis)).

Record Recommendation : Type := {
  verdict : string;
  reasons : list string
}.

Definition getFinalRecommendation (analysis : Analysis) : Recommendation :=
  let checks := TokenAnalyzer.checks (token analysis) in
  let reasons := @nil string in
  let reasons :=
    match TokenAnalyzer.detail <$> TokenAnalyzer.check "authorities" checks with
    | Some (TokenAnalyzer.Authorities mintAuthority freezeAuthority) =>
        if (Js.truthy mintAuthority || Js.truthy freezeAuthority)%bool
        then reasons ++ ["Token authorities not revoked - dev can manipulate"%string]
        else reasons
    | _ => reasons
    end in
  let reasons :=
    match TokenAnalyzer.detail <$> TokenAnalyzer.check "holders" checks with
    | Some (TokenAnalyzer.Holders _ (Some c)) =>
        if Js.gt (HolderAnalyzer.top1Percentage c) 50
        then reasons ++ ["Single holder owns majority - extreme rug pull risk"%string]
        else reasons
    | _ => reasons
    end in
  let secured := LiquidityAnalyzer.overallSecured (liquidity analysis) in
  let reasons :=
    if LiquidityAnalyzer.lt secured 30
    then reasons ++ [("Only " ++ LiquidityAnalyzer.toFixed1 secured
                      ++ "% liquidity secured - high rug pull risk")%string]
    else reasons in
  let riskScore := TokenAnalyzer.riskScore (token analysis) in
  {| verdict :=
       if 80 <=? riskScore then "🚨 DO NOT TRADE - Multiple critical security flaws"
       else if 60 <=? riskScore then "⚠️ AVOID - High risk of rug pull or scam"
       else if 40 <=? riskScore then "⚠️ PROCEED WITH EXTREME CAUTION"
       else if 20 <=? riskScore then "✅ RELATIVELY SAFE - Always DYOR"
       else "✅ APPEARS SECURE - Good security practices";
     reasons := reasons |}.

End ComprehensiveAnalysis.

(** ** index.js: the validator with the queue system *)
Module EnhancedSolanaTokenValidator.

Record Analysis : Type := {
  token : TokenAnalyzer.Analysis;
  liquidity : LiquidityAnalyzer.Analysis;
  enhancedRiskScore : Z
}.

(** The options [analyzeToken] passes on. *)
Definition allOptions : TokenAnalyzer.Options :=
  {| TokenAnalyzer.includeMetadata := Some true;
     TokenAnalyzer.includeHolderAnalysis := Some true;
     TokenAnalyzer.includeHoneypotDetection := Some true;
     TokenAnalyzer.includeMarketData := Some true |}.

(** [a || b] on integers *)
Definition orElse (a b : Z) : Z := if a =? 0 then b else a.

Definition calculateEnhancedRisk (tokenAnalysis : TokenAnalyzer.Analysis)
    (liquidityAnalysis : LiquidityAnalyzer.Analysis) : Z :=
  let riskScore := orElse (TokenAnalyzer.riskScore tokenAnalysis) 50 in
  let riskScore :=
    match LiquidityAnalyzer.overallStatus liquidityAnalysis with
    | LiquidityAnalyzer.DANGEROUS => riskScore + 30
    | LiquidityAnalyzer.POOR => riskScore + 20
    | LiquidityAnalyzer.EXCELLENT => riskScore - 15
    | _ => riskScore
    end in
  Z.max 0 (Z.min 100 riskScore).

(** [analyzeToken(mintAddress)]; [validKey] is what
    [solanaService.isValidPublicKey(mintAddress)] answers. *)
Definition analyzeToken (mintAddress : string) (validKey : bool)
    (checks : TokenAnalyzer.Observed)
    (largestHolders : Outcome (list LiquidityAnalyzer.LargestHolder))
    (lp : string -> LiquidityAnalyzer.LpObserved)
  : Outcome Analysis :=
  if negb validKey then Threw ("Invalid token address: " ++ mintAddress)%string
  else
    match TokenAnalyzer.analyzeToken checks allOptions with
    | Threw message => Threw message
    | Returned analysis =>
        let liquidityAnalysis := LiquidityAnalyzer.analyzeLiquidity largestHolders lp in
        Returned {| token := analysis; liquidity := liquidityAnalysis;
                    enhancedRiskScore := calculateEnhancedRisk analysis liquidityAnalysis |}
    end.

Definition getSafetyLevel (score : Z) : string :=
  if 80 <=? score then "🔴 EXTREMELY DANGEROUS"
  else if 60 <=? score then "🟠 HIGH RISK"
  else if 40 <=? score then "🟡 MODERATE RISK"
  else if 20 <=? score then "🟢 LOW RISK"
  else "✅ APPEARS SAFE".

Definition getFinalRecommendation (score : Z) : string :=
  if 80 <=? score then "🚨 DO NOT TRADE - Multiple critical security flaws detected"
  else if 60 <=? score then "⚠️ AVOID - High risk of rug pull or scam"
  else if 40 <=? score then "⚠️ PROCEED WITH EXTREME CAUTION"
  else if 20 <=? score then "✅ RELATIVELY SAFE - Always DYOR"
  else "✅ APPEARS SECURE - Good security practices detected".

(** [analysis.enhancedRiskScore || analysis.riskScore], the score
    [printEnhancedResults] labels. *)
Definition printedScore (analysis : Analysis) : Z :=
  orElse (enhancedRiskScore analysis) (TokenAnalyzer.riskScore (token analysis)).

End EnhancedSolanaTokenValidator.

(** ** Token extraction of the optimized monitor (src/services/optimizedPumpMonitor.js) *)

Module OptimizedExtraction.

Definition PUMP_PROGRAM_ID : string := "6EF8rrecthR5Dkzon8Nwu78hRvfCKubJ14M5uBEwF6P".

Definition knownPrograms : list string :=
  [ PUMP_PROGRAM_ID;
    "TokenkegQfeZyiNwAJbNbGKPFXCWuBvf9Ss623VQ5DA";
    "So11111111111111111111111111111111111111112";
    "11111111111111111111111111111111" ]%string.

(** [looksLikeTokenMint(address)]; the empty string of [!address] is
    shorter than 32.  The monitor calls it on ASCII strings only, where
    the number of bytes is the JavaScript length. *)
Definition looksLikeTokenMint (address : string) : bool :=
  if Nat.ltb (String.length address) 32 then false
  else negb (existsb (String.eqb address) knownPrograms).

(** The character class [[A-HJ-NP-Z1-9]]. *)
Definition inClass (c : Ascii.ascii) : bool :=
  let n := Ascii.nat_of_ascii c in
  (Nat.leb 65 n && Nat.leb n 72) || (Nat.leb 74 n && Nat.leb n 78)
  || (Nat.leb 80 n && Nat.leb n 90) || (Nat.leb 49 n && Nat.leb n 57).

(** The longest prefix of [s] of at most [limit] characters of the class,
    and what follows it. *)
Fixpoint run (limit : nat) (s : string) : string * string :=
  match limit, s with
  | S limit', String c rest =>
      if inClass c
      then let (matched, after) := run limit' rest in (String c matched, after)
      else (EmptyString, s)
  | _, _ => (EmptyString, s)
  end.

(** The matches of [/[A-HJ-NP-Z1-9]{32,44}/g] in [s], from left to right:
    at each position the quantifier takes as many characters as it can, up
    to 44; with fewer than 32 there is no match at this position and the
    search moves on by one character, otherwise it resumes after the
    match.  [fuel] bounds the number of positions tried. *)
Fixpoint matchesWithin (fuel : nat) (s : string) : list string :=
  match fuel with
  | O => []
  | S fuel' =>
      match s with
      | EmptyString => []
      | String _ rest =>
          let (matched, after) := run 44 s in
          if Nat.leb 32 (String.length matched)
          then matched :: matchesWithin fuel' after
          else matchesWithin fuel' rest
      end
  end.

(** [log.match(/[A-HJ-NP-Z1-9]{32,44}/g)], [[]] standing for [null]: no
    more positions are tried than the log has characters. *)
Definition matchAll (log : string) : list string :=
  matchesWithin (String.length log) log.

Fixpoint extractFromLogs (logs : list string) : option string :=
  match logs with
  | [] => None
  | log :: rest =>
      match List.find looksLikeTokenMint (matchAll log) with
      | Some found => Some found
      | None => extractFromLogs rest
      end
  end.

(** What the monitor reads of a transaction: [meta.postTokenBalances] and
    [transaction.message.accountKeys] (in base 58), each [None] when a
    property on the way to it is missing. *)
Record Transaction : Type := {
  postTokenBalances : option (list ComprehensiveAnalysis.Balance);
  accountKeys : option (list string)
}.

(** The loop [for (let i = 1; i < Math.min(4, keys.length); i++)]. *)
Definition fromAccountKeys (keys : list string) : option string :=
  List.find looksLikeTokenMint (take 3 (drop 1 keys)).

(** [extractTokenMultiMethod(tokenEvent)]; [transaction] is the outcome
    of [getTransaction].  Returns [this.stats.apiCalls] with the mint. *)
Definition extractTokenMultiMethod (apiCalls : Z)
    (transaction : Outcome (option Transaction)) (tokenEvent : TokenEvent)
  : Z * option string :=
  let apiCalls := apiCalls + 1 in
  let method1 :=
    match transaction with
    | Returned (Some t) =>
        let found :=
          match postTokenBalances t with
          | Some balances =>
              List.find (fun balance =>
                           Js.truthy (ComprehensiveAnalysis.mint balance)
                           && ComprehensiveAnalysis.uiTokenAmount balance) balances
              ≫= ComprehensiveAnalysis.mint
          | None => None
          end in
        match found with
        | Some m => Some m
        | None =>
            match accountKeys t with
            | Some keys => fromAccountKeys keys
            | None => None
            end
        end
    | Returned None => None
    | Threw _ => None
    end in
  (apiCalls,
   match method1 with
   | Some m => Some m
   | None => extractFromLogs (eventLogs tokenEvent)
   end).

End OptimizedExtraction.

(** ** The aggregate as the specification words it *)
Module Spec.
Import TokenAnalyzer.

(** The checks that are not skipped. *)
Definition nonSkipped (checks : list (string * CheckResult)) : list (string * CheckResult) :=
  List.filter (fun entry => negb (skipped (snd entry))) checks.

(** [Σ(checkScore_i × weight_i)] over the non-skipped checks. *)
Definition weightedScores (checks : list (string * CheckResult)) : Z :=
  fold_right Z.add 0
    (List.map (fun entry => score (snd entry) * weightOf (fst entry)) (nonSkipped checks)).

(** [Σ(weight_i)] over the non-skipped checks. *)
Definition totalWeights (checks : list (string * CheckResult)) : Z :=
  fold_right Z.add 0 (List.map (fun entry => weightOf (fst entry)) (nonSkipped checks)).

(** The quotient of the two, exactly. *)
Definition weightNormalizedSum (checks : list (string * CheckResult)) : Q :=
  (inject_Z (weightedScores checks) / inject_Z (totalWeights checks))%Q.

(** The value the aggregator returns when no check is counted. *)
Definition neutralFallback : Z := 50.

(** [checks.authorities.freezeAuthority] is set. *)
Definition freezeAuthorityActive (checks : list (string * CheckResult)) : bool :=
  match detail <$> check "authorities" checks with
  | Some (Authorities _ (Some _)) => true
  | _ => false
  end.

(** [checks.programOwnership] names an owner outside the standard programs. *)
Definition nonStandardOwner (checks : list (string * CheckResult)) : bool :=
  match detail <$> check "programOwnership" checks with
  | Some (ProgramOwnership (Some _) false) => true
  | _ => false
  end.

(** [checks.holders.concentration.top1Percentage] equals [pct]. *)
Definition topHolderAt (pct : Q) (checks : list (string * CheckResult)) : bool :=
  match detail <$> check "holders" checks with
  | Some (Holders _ (Some c)) => Qeq_bool (HolderAnalyzer.top1Percentage c) pct
  | _ => false
  end.

(** The keys [analyzeToken] writes into [analysis.checks], in order. *)
Definition checkNames (options : Options) : list string :=
  [ "basicInfo"; "authorities"; "programOwnership" ]%string
  ++ (if enabled (includeMetadata options) then ["metadata"%string] else [])
  ++ (if enabled (includeHolderAnalysis options) then ["holders"%string] else [])
  ++ (if enabled (includeHoneypotDetection options) then ["honeypot"%string] else [])
  ++ (if enabled (includeMarketData options) then ["marketData"%string] else []).

(** The same result object, reported rather than skipped. *)
Definition reported (r : CheckResult) : CheckResult :=
  {| issues := issues r; warnings := warnings r; score := score r;
     skipped := false; detail := detail r |}.

End Spec.

(** [returned o] is the value a call produced, if it did not throw. *)
Definition returned {A : Type} (o : Outcome A) : option A :=
  match o with
  | Returned a => Some a
  | Threw _ => None
  end.

(** ** Concrete observations *)
Module Examples.
Import SolanaService.

(** A mint whose two authorities are revoked. *)
Definition revokedMint : MintInfo :=
  {| mintAuthority := None; freezeAuthority := None; decimals := 6 |}.

(** A mint whose freeze authority is still active. *)
Definition freezableMint : MintInfo :=
  {| mintAuthority := None;
     freezeAuthority := Some "9WzDXwBbmkg8ZTbNMqUxvQRAyrZzDsGYdLVL9zYtAWWM"%string;
     decimals := 6 |}.

Definition oneMillion : Supply := {| uiAmount := 1000000 |}.

(** A mint account owned by the SPL Token program. *)
Definition splOwned : AccountInfo :=
  {| owner := "TokenkegQfeZyiNwAJbNbGKPFXCWuBvf9Ss623VQ5DA"; executable := false;
     lamports := 1461600 |}.

(** A mint account owned by another program. *)
Definition foreignOwned : AccountInfo :=
  {| owner := "6EF8rrecthR5Dkzon8Nwu78hRvfCKubJ14M5uBEwF6P"; executable := false;
     lamports := 1461600 |}.

Definition buyQuoted : JupiterService.Quote :=
  {| JupiterService.outAmount := Some "48211907"%string;
     JupiterService.priceImpactPct := Some (1 # 100);
     JupiterService.routePlan := Some ["Raydium"; "Orca"]%string |}.

(** What [simulateSwap] reports when the buy request answers a quote and
    the sell request an empty body. *)
Definition buyOnlyReport : JupiterService.SwapResult :=
  JupiterService.simulateSwap (Returned (Some buyQuoted)) (Returned None).

(** What [simulateSwap] reports when the sell request throws. *)
Definition sellThrowsReport : JupiterService.SwapResult :=
  JupiterService.simulateSwap (Returned (Some buyQuoted))
    (Threw "Request failed with status code 400").

(** A token with revoked authorities, standard owner and ordinary supply,
    for which the simulation reports that buying works and selling does
    not. *)
Definition buyOnly : HoneypotDetector.Observed :=
  {| HoneypotDetector.authMint := Returned revokedMint;
     HoneypotDetector.programAccount := Returned (Some splOwned);
     HoneypotDetector.supply := Returned oneMillion;
     HoneypotDetector.supplyMint := Returned revokedMint;
     HoneypotDetector.connectivity := Returned true;
     HoneypotDetector.swap := Returned buyOnlyReport |}.

(** A freezable token under a foreign program; the swap service is not
    available, so no simulation is run. *)
Definition freezableForeign : HoneypotDetector.Observed :=
  {| HoneypotDetector.authMint := Returned freezableMint;
     HoneypotDetector.programAccount := Returned (Some foreignOwned);
     HoneypotDetector.supply := Returned oneMillion;
     HoneypotDetector.supplyMint := Returned freezableMint;
     HoneypotDetector.connectivity :=
       Returned (JupiterService.testConnectivity (Returned tt));
     HoneypotDetector.swap :=
       Returned (JupiterService.simulateSwap
                   (JupiterService.getSwapQuote (Returned (Some buyQuoted)))
                   (JupiterService.getSwapQuote (Returned (Some buyQuoted)))) |}.

Definition wallet : AccountInfo :=
  {| owner := "11111111111111111111111111111111"; executable := false; lamports := 5000 |}.

(** Two holders of a supply of one million: 700000 and 100000 tokens. *)
Definition seventyPercent : HolderAnalyzer.Observed :=
  {| HolderAnalyzer.largestAccounts :=
       Returned (Some
         [ {| HolderAnalyzer.address := "7xKXtg2CW87d97TXJSDpbD5jBkheTqA83TZRuJosgAsU";
              HolderAnalyzer.amount := Some 700000%Q;
              HolderAnalyzer.validKey := true;
              HolderAnalyzer.info := Returned (Returned (Some wallet)) |};
           {| HolderAnalyzer.address := "5Q544fKrFoe6tsEbD7S8EmxGTJYAKtTVhAW5Q5pge4j1";
              HolderAnalyzer.amount := Some 100000%Q;
              HolderAnalyzer.validKey := true;
              HolderAnalyzer.info := Returned (Returned (Some wallet)) |} ]);
     HolderAnalyzer.supply := Returned oneMillion |}.

Definition named : TokenAnalyzer.Metadata :=
  {| TokenAnalyzer.name := Some "Example"%string;
     TokenAnalyzer.symbol := Some "EXM"%string;
     TokenAnalyzer.source := "METAPLEX" |}.

Definition everyCheck : TokenAnalyzer.Options :=
  {| TokenAnalyzer.includeMetadata := None;
     TokenAnalyzer.includeHolderAnalysis := None;
     TokenAnalyzer.includeHoneypotDetection := None;
     TokenAnalyzer.includeMarketData := None |}.

Definition fastChecksOnly : TokenAnalyzer.Options :=
  {| TokenAnalyzer.includeMetadata := Some false;
     TokenAnalyzer.includeHolderAnalysis := Some false;
     TokenAnalyzer.includeHoneypotDetection := Some false;
     TokenAnalyzer.includeMarketData := Some false |}.

(** Freeze authority active, foreign owning program, top holder at 70%;
    every other check answers and finds nothing else. *)
Definition scenario2 : TokenAnalyzer.Observed :=
  {| TokenAnalyzer.basicMint := Returned freezableMint;
     TokenAnalyzer.basicSupply := Returned oneMillion;
     TokenAnalyzer.authMint := Returned freezableMint;
     TokenAnalyzer.account := Returned (Some foreignOwned);
     TokenAnalyzer.metadataCall := Settled (Returned (Some named));
     TokenAnalyzer.holdersCall := Settled (Returned seventyPercent);
     TokenAnalyzer.honeypotCall := Settled (Returned freezableForeign);
     TokenAnalyzer.marketCall :=
       Settled (Returned (Some {| TokenAnalyzer.price := 1 # 1000 |})) |}.

(** The chain lookups of the honeypot detector when the RPC node refuses
    every request. *)
Definition lookupsRefused : HoneypotDetector.Observed :=
  {| HoneypotDetector.authMint := Threw "429 Too Many Requests";
     HoneypotDetector.programAccount := Threw "429 Too Many Requests";
     HoneypotDetector.supply := Threw "429 Too Many Requests";
     HoneypotDetector.supplyMint := Threw "429 Too Many Requests";
     HoneypotDetector.connectivity := Returned false;
     HoneypotDetector.swap := Threw "not called" |}.

(** The same token when the price lookup fails, the holder lookup outlives
    its timer and the honeypot detector's chain lookups are refused. *)
Definition degraded : TokenAnalyzer.Observed :=
  {| TokenAnalyzer.basicMint := Returned freezableMint;
     TokenAnalyzer.basicSupply := Returned oneMillion;
     TokenAnalyzer.authMint := Returned freezableMint;
     TokenAnalyzer.account := Returned (Some foreignOwned);
     TokenAnalyzer.metadataCall := Settled (Returned (Some named));
     TokenAnalyzer.holdersCall := TimedOut;
     TokenAnalyzer.honeypotCall :=
       Settled (Returned (Wiring.live lookupsRefused (Threw "connect ETIMEDOUT")
                            (Threw "connect ETIMEDOUT") (Threw "connect ETIMEDOUT")));
     TokenAnalyzer.marketCall :=
       Settled (Returned (Wiring.getPrice (Threw "connect ETIMEDOUT"))) |}.


(** Every guarded check timed out. *)
Definition allTimedOut : list (string * TokenAnalyzer.CheckResult) :=
  [ ("metadata", TokenAnalyzer.analyzeMetadataWithTimeout TimedOut);
    ("holders", TokenAnalyzer.analyzeHoldersWithTimeout TimedOut);
    ("honeypot", TokenAnalyzer.runHoneypotDetection TimedOut);
    ("marketData", TokenAnalyzer.analyzeMarketData TimedOut) ]%string.

(** A notification whose logs carry the mint-initialisation marker. *)
Definition creation (sig : string) : Notification :=
  {| signature := sig;
     logs := [ "Program 6EF8rrecthR5Dkzon8Nwu78hRvfCKubJ14M5uBEwF6P invoke [1]";
               "Program log: Instruction: InitializeMint2" ]%string;
     slot := 312000000 |}.

(** The [i]-th detection: signature [i], received [i] seconds after start. *)
Definition detection (i : nat) : Event :=
  Incoming (LogsNotification (creation (pretty i))) (1000 * Z.of_nat i).

(** Seven detections in a row, with distinct signatures. *)
Definition sevenDetections : list Event := List.map detection (seq 1 7).

(** Six detections, the last one replayed, then a seventh. *)
Definition replayed : list Event :=
  List.map detection (seq 1 6) ++ [detection 6; detection 7].

(** One detection; a worker cycle 8 s later; one 30 s later. *)
Definition gatedThenStarted : list Event := [detection 1; Tick 9000; Tick 31000].

(** One detection and a worker cycle before the age gate opens. *)
Definition youngEvent : list Event := [detection 1].

(** The [i]-th log entry handed to the enhanced monitor. *)
Definition mintLogs (i : nat) : EnhancedPumpFunMonitor.Logs :=
  {| EnhancedPumpFunMonitor.logsSignature := pretty i;
     EnhancedPumpFunMonitor.logLines := ["Program log: Instruction: InitializeMint2"%string];
     EnhancedPumpFunMonitor.accounts := None |}.

Definition enhancedConstructor : EnhancedPumpFunMonitor.State :=
  {| EnhancedPumpFunMonitor.tokenQueue := [];
     EnhancedPumpFunMonitor.isAnalyzing := false;
     EnhancedPumpFunMonitor.isStreaming := true;
     EnhancedPumpFunMonitor.processedSignatures := ∅;
     EnhancedPumpFunMonitor.stats :=
       {| EnhancedPumpFunMonitor.detected := 0; EnhancedPumpFunMonitor.queued := 0;
          EnhancedPumpFunMonitor.analyzed := 0; EnhancedPumpFunMonitor.skipped := 0 |} |}.

(** The enhanced monitor after its first hundred detections. *)
Definition enhancedFull : EnhancedPumpFunMonitor.State :=
  fold_left (fun st i => EnhancedPumpFunMonitor.handlePumpFunLog st (mintLogs i) 312000000
                           (Z.of_nat i))
            (seq 1 100) enhancedConstructor.

(** The comprehensive monitor after its first six detections. *)
Definition comprehensiveFull : ComprehensivePumpMonitor.State :=
  object (ComprehensivePumpMonitor.play (List.map detection (seq 1 6))).

End Examples.

(** * Properties *)

(** ** Rounding *)

(** [Math.round(a / b)] on integers, by integer division. *)
Lemma round_div (a b : Z) :
  0 < b -> Js.round (inject_Z a / inject_Z b) = (2 * a + b) / (2 * b).
Proof.
  intros Hb. destruct b as [|p|p]; try lia.
  unfold Js.round, Qfloor, Qdiv, Qinv, Qmult, Qplus, inject_Z. simpl.
  f_equal; lia.
Qed.

Lemma round_div_bounds (a b lo hi : Z) :
  0 < b -> lo * b <= a -> a <= hi * b ->
  lo <= Js.round (inject_Z a / inject_Z b) <= hi.
Proof.
  intros Hb Hlo Hhi. rewrite round_div by assumption. split.
  - apply Z.div_le_lower_bound; lia.
  - apply Z.lt_succ_r. apply Z.div_lt_upper_bound; lia.
Qed.

(** The rounded quotient is the integer nearest to the quotient. *)
Lemma round_div_nearest (a b : Z) :
  0 < b ->
  let r := Js.round (inject_Z a / inject_Z b) in
  2 * a - b < 2 * b * r <= 2 * a + b.
Proof.
  intros Hb r. subst r. rewrite round_div by assumption.
  pose proof (Z.mul_div_le (2 * a + b) (2 * b)).
  pose proof (Z.mul_succ_div_gt (2 * a + b) (2 * b)).
  lia.
Qed.

(** ** The risk aggregator *)
Section Aggregator.
Import TokenAnalyzer.

Lemma weightOf_pos (checkName : string) : 0 < weightOf checkName.
Proof.
  unfold weightOf. destruct (weights !! checkName) as [w|] eqn:E; [|lia].
  unfold weights in E. cbn [list_to_map foldr fst snd] in E.
  repeat (apply lookup_insert_Some in E as [[_ <-]|[_ E]]; [reflexivity|]).
  rewrite lookup_empty in E. discriminate.
Qed.

(** What the [forEach] leaves in the two accumulators. *)
Lemma fold_accumulate (checks : list (string * CheckResult)) (s w : Z) :
  fold_left accumulate checks (s, w)
  = (s + Spec.weightedScores checks, w + Spec.totalWeights checks).
Proof.
  revert s w. induction checks as [|[n r] rest IH]; intros s w.
  - cbn. f_equal; lia.
  - cbn [fold_left accumulate]. unfold counted.
    unfold Spec.weightedScores, Spec.totalWeights, Spec.nonSkipped in *.
    cbn [List.filter snd fst].
    destruct (skipped r); cbn [negb]; rewrite IH; [reflexivity|].
    cbn [List.map fold_right fst snd]. f_equal; lia.
Qed.

Lemma calculateRiskScore_unfold (checks : list (string * CheckResult)) :
  calculateRiskScore checks
  = if 0 <? Spec.totalWeights checks
    then Js.round (Spec.weightNormalizedSum checks)
    else Spec.neutralFallback.
Proof.
  unfold calculateRiskScore. rewrite fold_accumulate. reflexivity.
Qed.

Lemma totalWeights_nonneg (checks : list (string * CheckResult)) :
  0 <= Spec.totalWeights checks.
Proof.
  unfold Spec.totalWeights.
  induction (Spec.nonSkipped checks) as [|[n r] rest IH]; cbn; [lia|].
  pose proof (weightOf_pos n). lia.
Qed.

Lemma weightedScores_bounds (checks : list (string * CheckResult)) (lo hi : Z) :
  (forall n r, In (n, r) checks -> skipped r = false -> lo <= score r <= hi) ->
  lo * Spec.totalWeights checks <= Spec.weightedScores checks
    <= hi * Spec.totalWeights checks.
Proof.
  unfold Spec.weightedScores, Spec.totalWeights, Spec.nonSkipped.
  induction checks as [|[n r] rest IH]; intros H; cbn [List.filter snd].
  - cbn. lia.
  - assert (IH' := IH (fun n' r' Hin => H n' r' (or_intror Hin))).
    destruct (skipped r) eqn:Hs; cbn [negb]; [exact IH'|].
    cbn [List.map fold_right fst snd].
    pose proof (H n r (or_introl Logic.eq_refl) Hs).
    pose proof (weightOf_pos n). nia.
Qed.

Lemma nonSkipped_idem (checks : list (string * CheckResult)) :
  Spec.nonSkipped (Spec.nonSkipped checks) = Spec.nonSkipped checks.
Proof.
  unfold Spec.nonSkipped. induction checks as [|[n r] rest IH]; [reflexivity|].
  cbn [List.filter snd]. destruct (skipped r) eqn:Hs; cbn [negb]; [exact IH|].
  cbn [List.filter snd]. rewrite Hs. cbn [negb]. f_equal. exact IH.
Qed.

Lemma all_skipped_totalWeights (checks : list (string * CheckResult)) :
  (forall n r, In (n, r) checks -> skipped r = true) -> Spec.totalWeights checks = 0.
Proof.
  unfold Spec.totalWeights, Spec.nonSkipped.
  induction checks as [|[n r] rest IH]; intros H; [reflexivity|].
  cbn [List.filter snd]. rewrite (H n r (or_introl Logic.eq_refl)). cbn [negb].
  apply IH. intros n' r' Hin. apply (H n' r'). right. exact Hin.
Qed.

Lemma riskScore_range (checks : list (string * CheckResult)) :
  (forall n r, In (n, r) checks -> 0 <= score r <= 100) ->
  0 <= calculateRiskScore checks <= 100.
Proof.
  intros H. rewrite calculateRiskScore_unfold.
  destruct (0 <? Spec.totalWeights checks) eqn:Hw; [|unfold Spec.neutralFallback; lia].
  apply Z.ltb_lt in Hw. unfold Spec.weightNormalizedSum.
  assert (Hb : 0 * Spec.totalWeights checks <= Spec.weightedScores checks
               <= 100 * Spec.totalWeights checks).
  { apply weightedScores_bounds. intros n r Hin _. exact (H n r Hin). }
  apply round_div_bounds; lia.
Qed.

Lemma riskScore_all_skipped (checks : list (string * CheckResult)) :
  (forall n r, In (n, r) checks -> skipped r = true) ->
  calculateRiskScore checks = Spec.neutralFallback.
Proof.
  intros H. rewrite calculateRiskScore_unfold.
  rewrite (all_skipped_totalWeights checks H). reflexivity.
Qed.

Lemma nonSkipped_app (l1 l2 : list (string * CheckResult)) :
  Spec.nonSkipped (l1 ++ l2) = Spec.nonSkipped l1 ++ Spec.nonSkipped l2.
Proof. unfold Spec.nonSkipped. apply List.filter_app. Qed.

Lemma riskScore_nonSkipped (checks : list (string * CheckResult)) :
  calculateRiskScore checks = calculateRiskScore (Spec.nonSkipped checks).
Proof.
  rewrite !calculateRiskScore_unfold.
  unfold Spec.weightNormalizedSum, Spec.weightedScores, Spec.totalWeights.
  rewrite nonSkipped_idem. reflexivity.
Qed.

(** A skipped result contributes to neither accumulator, wherever it sits. *)
Lemma riskScore_skipped_ignored (before after : list (string * CheckResult))
    (n : string) (r : CheckResult) :
  skipped r = true ->
  calculateRiskScore (before ++ (n, r) :: after) = calculateRiskScore (before ++ after).
Proof.
  intros Hs. rewrite (riskScore_nonSkipped (before ++ (n, r) :: after)).
  rewrite (riskScore_nonSkipped (before ++ after)).
  rewrite !nonSkipped_app. unfold Spec.nonSkipped at 2.
  cbn [List.filter snd]. rewrite Hs. reflexivity.
Qed.

End Aggregator.

(** ** Scores of the individual checks *)
Section CheckScores.
Import SolanaService TokenAnalyzer.

Lemma assessHolderRisks_score (c : HolderAnalyzer.Concentration)
    (hs : list HolderAnalyzer.Holder) :
  0 <= HolderAnalyzer.riskScore (HolderAnalyzer.assessHolderRisks c hs) <= 100.
Proof.
  unfold HolderAnalyzer.assessHolderRisks.
  destruct (Js.gt (HolderAnalyzer.top1Percentage c) 50),
    (Js.gt (HolderAnalyzer.top1Percentage c) 30),
    (Js.gt (HolderAnalyzer.top10Percentage c) 80),
    (Js.gt (HolderAnalyzer.top10Percentage c) 60),
    (Js.gt (HolderAnalyzer.herfindahlIndex c) (25 # 100)),
    (Js.gt (HolderAnalyzer.herfindahlIndex c) (15 # 100)),
    (Nat.ltb 0 _); cbn [HolderAnalyzer.riskScore]; lia.
Qed.

Lemma analyzeHolderDistribution_score (o : HolderAnalyzer.Observed) :
  0 <= HolderAnalyzer.score (HolderAnalyzer.analyzeHolderDistribution o) <= 100.
Proof.
  unfold HolderAnalyzer.analyzeHolderDistribution, HolderAnalyzer.noData.
  destruct (HolderAnalyzer.largestAccounts o) as [m|[[|a l]|]];
    cbn [HolderAnalyzer.score]; try lia.
  destruct (HolderAnalyzer.supply o) as [m|sup]; cbn [HolderAnalyzer.score]; try lia.
  destruct (Js.eq _ 0); cbn [HolderAnalyzer.score]; try lia.
  apply assessHolderRisks_score.
Qed.

Lemma calculateHoneypotProbability_overall (tests : list (string * HoneypotDetector.TestResult)) :
  0 <= HoneypotDetector.overall (HoneypotDetector.calculateHoneypotProbability tests) <= 100.
Proof.
  unfold HoneypotDetector.calculateHoneypotProbability.
  destruct (fold_left _ _ _) as [totalRisk totalWeight].
  cbn [HoneypotDetector.overall]. lia.
Qed.

Lemma check_scores (o : Observed) (options : Options) (n : string) (r : CheckResult) :
  In (n, r) (runChecks o options) -> 0 <= score r <= 100.
Proof.
  unfold runChecks. intros Hin.
  repeat (apply in_app_or in Hin as [Hin|Hin]).
  - cbn [In] in Hin. destruct Hin as [E|[E|[E|[]]]]; inversion E; subst; clear E.
    + unfold analyzeBasicInfo. destruct (basicMint o), (basicSupply o); cbn; lia.
    + unfold analyzeAuthorities. destruct (authMint o) as [m|mi]; cbn [score]; [lia|].
      destruct (Js.isSet (mintAuthority mi)), (Js.isSet (freezeAuthority mi)); cbn; lia.
    + unfold analyzeProgramOwnership. destruct (account o) as [m|[ai|]]; cbn [score]; try lia.
      destruct (isStandard _); lia.
  - destruct (enabled _); cbn [In] in Hin; [|tauto].
    destruct Hin as [E|[]]; inversion E; subst; clear E.
    unfold analyzeMetadataWithTimeout.
    destruct (metadataCall o) as [|[m|md]]; cbn [score]; lia.
  - destruct (enabled _); cbn [In] in Hin; [|tauto].
    destruct Hin as [E|[]]; inversion E; subst; clear E.
    unfold analyzeHoldersWithTimeout.
    destruct (holdersCall o) as [|[m|ob]]; cbn [score]; try lia.
    apply analyzeHolderDistribution_score.
  - destruct (enabled _); cbn [In] in Hin; [|tauto].
    destruct Hin as [E|[]]; inversion E; subst; clear E.
    unfold runHoneypotDetection.
    destruct (honeypotCall o) as [|[m|ob]]; cbn [score]; try lia.
    set (result := HoneypotDetector.detectHoneypot ob).
    assert (Ho : 0 <= overallOr0 (HoneypotDetector.honeypotProbability result) <= 100).
    { subst result. unfold HoneypotDetector.detectHoneypot.
      cbn [HoneypotDetector.honeypotProbability overallOr0 fmap option_fmap option_map default].
      apply calculateHoneypotProbability_overall. }
    destruct (70 <? overallOr0 _); [|destruct (40 <? overallOr0 _)]; cbn [score]; lia.
  - destruct (enabled _); cbn [In] in Hin; [|tauto].
    destruct Hin as [E|[]]; inversion E; subst; clear E.
    unfold analyzeMarketData.
    destruct (marketCall o) as [|[m|[p|]]]; cbn; lia.
Qed.

(** The score [analyzeToken] reports is always a number between 0 and 100. *)
Lemma analyzeToken_riskScore_range (o : Observed) (options : Options) :
  exists a, analyzeToken o options = Returned a /\ 0 <= riskScore a <= 100.
Proof.
  eexists. split; [reflexivity|]. cbn [riskScore].
  apply riskScore_range. intros n r. apply check_scores.
Qed.

End CheckScores.

(** ** Claims about the aggregator and the guarded checks *)
Section AnalyzerClaims.
Import SolanaService TokenAnalyzer.

(** C3.  For every mapping of check names to results whose scores lie in
    0..100, the aggregated risk score is an integer between 0 and 100 (so
    never NaN), and when every check is skipped it is the neutral fallback
    50. *)
Theorem C3_riskScore_within_0_100 (checks : list (string * CheckResult)) :
  (forall n r, In (n, r) checks -> 0 <= score r <= 100) ->
  0 <= calculateRiskScore checks <= 100
  /\ ((forall n r, In (n, r) checks -> skipped r = true) ->
      calculateRiskScore checks = Spec.neutralFallback).
Proof.
  intros H. split.
  - apply riskScore_range. exact H.
  - apply riskScore_all_skipped.
Qed.

Lemma C3_witness :
  0 <= calculateRiskScore Examples.allTimedOut <= 100
  /\ calculateRiskScore Examples.allTimedOut = 50.
Proof.
  assert (Hrange : forall n r, In (n, r) Examples.allTimedOut -> 0 <= score r <= 100).
  { intros n r Hin. cbn in Hin.
    destruct Hin as [E|[E|[E|[E|[]]]]]; inversion E; subst; cbn; lia. }
  assert (Hskip : forall n r, In (n, r) Examples.allTimedOut -> skipped r = true).
  { intros n r Hin. cbn in Hin.
    destruct Hin as [E|[E|[E|[E|[]]]]]; inversion E; subst; reflexivity. }
  destruct (C3_riskScore_within_0_100 Examples.allTimedOut Hrange) as [H1 H2].
  split; [exact H1 | exact (H2 Hskip)].
Defined.

(** C4, as stated, fails: with the three fast checks scoring 100, 60 and 20
    the weight-normalized sum is 3800/70, and the aggregator returns 54. *)
Lemma C4_counterexample :
  let checks := runChecks Examples.scenario2 Examples.fastChecksOnly in
  Spec.weightedScores checks = 3800
  /\ Spec.totalWeights checks = 70
  /\ calculateRiskScore checks = 54
  /\ ~ (inject_Z (calculateRiskScore checks) == Spec.weightNormalizedSum checks)%Q.
Proof.
  cbv zeta. repeat split; try (vm_compute; reflexivity).
  intros H. vm_compute in H. discriminate H.
Qed.

(** C4, amended.  The aggregator returns the weight-normalized sum over
    exactly the non-skipped checks, rounded to the nearest integer, and 50
    when no check is counted; a skipped result is left out of numerator and
    denominator alike; and skipping a check is told apart from the same
    check reporting its default score. *)
Theorem C4_rounded_weight_normalized_sum (checks : list (string * CheckResult)) :
  calculateRiskScore checks
  = (if 0 <? Spec.totalWeights checks
     then Js.round (Spec.weightNormalizedSum checks)
     else Spec.neutralFallback)
  /\ calculateRiskScore checks = calculateRiskScore (Spec.nonSkipped checks)
  /\ (forall before after n r,
        checks = before ++ (n, r) :: after -> skipped r = true ->
        calculateRiskScore checks = calculateRiskScore (before ++ after))
  /\ (exists others n r,
        skipped r = true
        /\ calculateRiskScore (others ++ [(n, r)])
           <> calculateRiskScore (others ++ [(n, Spec.reported r)])).
Proof.
  split; [apply calculateRiskScore_unfold|].
  split; [apply riskScore_nonSkipped|].
  split.
  - intros before after n r -> Hs. apply riskScore_skipped_ignored. exact Hs.
  - exists (runChecks Examples.scenario2 Examples.fastChecksOnly), "holders"%string,
      (analyzeHoldersWithTimeout TimedOut).
    split; [reflexivity|]. vm_compute. discriminate.
Qed.

(** Whatever the chain and the quote service answer, the honeypot check is
    reported, not skipped, and its issues are at most the one line that
    names an overall probability above 70. *)
Lemma runHoneypotDetection_issues (observed : HoneypotDetector.Observed) :
  skipped (runHoneypotDetection (Settled (Returned observed))) = false
  /\ 0 <= score (runHoneypotDetection (Settled (Returned observed))) <= 100
  /\ (issues (runHoneypotDetection (Settled (Returned observed))) = []
      \/ exists n,
           70 < n <= 100
           /\ issues (runHoneypotDetection (Settled (Returned observed)))
              = [("🔴 HIGH HONEYPOT RISK: " ++ pretty n ++ "%")%string]).
Proof.
  unfold runHoneypotDetection.
  assert (Hmiss : HoneypotDetector.test "swapSimulation"
                    (HoneypotDetector.detectHoneypot observed) = None) by reflexivity.
  rewrite Hmiss.
  assert (Ho : 0 <= overallOr0 (HoneypotDetector.honeypotProbability
                                  (HoneypotDetector.detectHoneypot observed)) <= 100).
  { unfold HoneypotDetector.detectHoneypot.
    cbn [HoneypotDetector.honeypotProbability overallOr0 fmap option_fmap option_map default].
    apply calculateHoneypotProbability_overall. }
  generalize dependent (overallOr0 (HoneypotDetector.honeypotProbability
                                      (HoneypotDetector.detectHoneypot observed))).
  intros overall Ho.
  destruct (70 <? overall) eqn:E70; [|destruct (40 <? overall)];
    cbn [skipped score issues app]; (split; [reflexivity|]); (split; [lia|]); auto.
  right. exists overall. apply Z.ltb_lt in E70. split; [lia|reflexivity].
Qed.

(** C5, as stated, fails.  The warning of the timed-out holder check does
    not read "timed out".  When the RPC node refuses every lookup of the
    honeypot detection, the sub-tests absorb the failures and the check
    comes back with no issue at all and the score 71.  A price lookup that
    fails is answered by [getPrice] with [null]: the market-data check then
    carries a warning and no issue. *)
Lemma C5_counterexample :
  existsb (Js.includes "timed out") (warnings (analyzeHoldersWithTimeout TimedOut)) = false
  /\ issues (runHoneypotDetection
               (Settled (Returned (Wiring.live Examples.lookupsRefused
                                     (Threw "connect ETIMEDOUT")
                                     (Threw "connect ETIMEDOUT")
                                     (Threw "connect ETIMEDOUT"))))) = []
  /\ score (runHoneypotDetection
              (Settled (Returned (Wiring.live Examples.lookupsRefused
                                    (Threw "connect ETIMEDOUT")
                                    (Threw "connect ETIMEDOUT")
                                    (Threw "connect ETIMEDOUT"))))) = 71
  /\ issues (analyzeMarketData
               (Settled (Returned (Wiring.getPrice (Threw "connect ETIMEDOUT"))))) = []
  /\ warnings (analyzeMarketData
                 (Settled (Returned (Wiring.getPrice (Threw "connect ETIMEDOUT")))))
     = ["No price data available"%string].
Proof. repeat split; vm_compute; reflexivity. Qed.

(** A holder lookup that outlives its timer, a honeypot detection whose
    chain lookups are all refused and a price lookup that fails leave the
    analysis complete: seven results, the holder one skipped. *)
Example degraded_analysis :
  let result := analyzeToken Examples.degraded Examples.everyCheck in
  (List.map fst <$> (checks <$> returned result))
  = Some [ "basicInfo"; "authorities"; "programOwnership"; "metadata"; "holders";
           "honeypot"; "marketData" ]%string
  /\ (List.map (fun entry => skipped (snd entry)) <$> (checks <$> returned result))
     = Some [false; false; false; false; true; false; false]
  /\ (List.map (fun entry => List.length (issues (snd entry)))
        <$> (checks <$> returned result))
     = Some [0; 1; 1; 0; 0; 0; 0]%nat
  /\ (riskScore <$> returned result) = Some 61.
Proof. cbv zeta. repeat split; vm_compute; reflexivity. Qed.

(** C5, amended.  A guarded check that outlives its timer yields a skipped
    result with no issue, one warning and its default score (70, 70, 50 and
    70).  A failure inside a check yields a result that is not skipped: a
    metadata lookup that throws gives the error message as the only issue
    and the score 0; a holder lookup that throws (the account list or the
    supply) gives the one issue "Failed to analyze holder distribution: "
    followed by the message, and the score 0; chain lookups that throw
    inside the honeypot detection become the risk scores 30, 40 and 30 of
    its sub-tests, and the check's issues are at most the line for an
    overall probability above 70, never the message; a price request that
    throws is answered with [null] and gives the warning "No price data
    available", no issue and the score 50.  Whatever the guarded checks do,
    [analyzeToken] returns an analysis that holds a result for every
    enabled check. *)
Theorem C5_guarded_checks_isolated (o : Observed) (options : Options) (msg : string)
    (sup : Outcome Supply) (mint : Outcome MintInfo)
    (account : HolderAnalyzer.Account) (accounts : list HolderAnalyzer.Account)
    (observed : HoneypotDetector.Observed) :
  (skipped (analyzeMetadataWithTimeout TimedOut) = true
   /\ issues (analyzeMetadataWithTimeout TimedOut) = []
   /\ score (analyzeMetadataWithTimeout TimedOut) = 70
   /\ warnings (analyzeMetadataWithTimeout TimedOut) = ["Metadata analysis timed out"%string])
  /\ (skipped (analyzeHoldersWithTimeout TimedOut) = true
      /\ issues (analyzeHoldersWithTimeout TimedOut) = []
      /\ score (analyzeHoldersWithTimeout TimedOut) = 70
      /\ warnings (analyzeHoldersWithTimeout TimedOut)
         = ["Holder analysis skipped - token too popular or network slow"%string])
  /\ (skipped (runHoneypotDetection TimedOut) = true
      /\ issues (runHoneypotDetection TimedOut) = []
      /\ score (runHoneypotDetection TimedOut) = 50
      /\ warnings (runHoneypotDetection TimedOut)
         = ["Honeypot detection timed out - Jupiter API may be unavailable"%string])
  /\ (skipped (analyzeMarketData TimedOut) = true
      /\ issues (analyzeMarketData TimedOut) = []
      /\ score (analyzeMarketData TimedOut) = 70
      /\ warnings (analyzeMarketData TimedOut) = ["Market data unavailable"%string])
  /\ (skipped (analyzeMetadataWithTimeout (Settled (Threw msg))) = false
      /\ issues (analyzeMetadataWithTimeout (Settled (Threw msg))) = [msg]
      /\ warnings (analyzeMetadataWithTimeout (Settled (Threw msg))) = []
      /\ score (analyzeMetadataWithTimeout (Settled (Threw msg))) = 0)
  /\ Forall (fun lookups =>
               skipped (analyzeHoldersWithTimeout (Settled (Returned lookups))) = false
               /\ issues (analyzeHoldersWithTimeout (Settled (Returned lookups)))
                  = [("Failed to analyze holder distribution: " ++ msg)%string]
               /\ warnings (analyzeHoldersWithTimeout (Settled (Returned lookups))) = []
               /\ score (analyzeHoldersWithTimeout (Settled (Returned lookups))) = 0)
            [ {| HolderAnalyzer.largestAccounts := Threw msg;
                 HolderAnalyzer.supply := sup |};
              {| HolderAnalyzer.largestAccounts := Returned (Some (account :: accounts));
                 HolderAnalyzer.supply := Threw msg |} ]
  /\ (HoneypotDetector.riskScore (HoneypotDetector.analyzeAuthorities (Threw msg)) = 30
      /\ HoneypotDetector.riskScore (HoneypotDetector.analyzeProgram (Threw msg)) = 40
      /\ HoneypotDetector.riskScore (HoneypotDetector.analyzeSupplyMetrics (Threw msg) mint)
         = 30
      /\ HoneypotDetector.riskScore (HoneypotDetector.analyzeSupplyMetrics sup (Threw msg))
         = 30
      /\ skipped (runHoneypotDetection (Settled (Returned observed))) = false
      /\ 0 <= score (runHoneypotDetection (Settled (Returned observed))) <= 100
      /\ (issues (runHoneypotDetection (Settled (Returned observed))) = []
          \/ exists n,
               70 < n <= 100
               /\ issues (runHoneypotDetection (Settled (Returned observed)))
                  = [("🔴 HIGH HONEYPOT RISK: " ++ pretty n ++ "%")%string]))
  /\ (Wiring.getPrice (Threw msg) = None
      /\ skipped (analyzeMarketData (Settled (Returned (Wiring.getPrice (Threw msg))))) = false
      /\ issues (analyzeMarketData (Settled (Returned (Wiring.getPrice (Threw msg))))) = []
      /\ warnings (analyzeMarketData (Settled (Returned (Wiring.getPrice (Threw msg)))))
         = ["No price data available"%string]
      /\ score (analyzeMarketData (Settled (Returned (Wiring.getPrice (Threw msg))))) = 50)
  /\ (exists a, analyzeToken o options = Returned a
                /\ List.map fst (checks a) = Spec.checkNames options).
Proof.
  split; [repeat split|]. split; [repeat split|]. split; [repeat split|].
  split; [repeat split|]. split; [repeat split|].
  split.
  { repeat constructor. }
  split.
  { destruct (runHoneypotDetection_issues observed) as (Hs & Hr & Hi).
    split; [reflexivity|]. split; [reflexivity|].
    split; [destruct mint; reflexivity|].
    split; [destruct sup; reflexivity|].
    split; [exact Hs|]. split; [exact Hr|exact Hi]. }
  split; [repeat split|].
  eexists. split; [reflexivity|].
  cbn [checks]. unfold runChecks, Spec.checkNames.
  destruct (enabled (includeMetadata options)), (enabled (includeHolderAnalysis options)),
    (enabled (includeHoneypotDetection options)), (enabled (includeMarketData options));
    reflexivity.
Qed.

End AnalyzerClaims.

(** ** Scenario 2: freeze authority, foreign owner, concentrated holder *)
Section Scenario2.
Import SolanaService TokenAnalyzer.

Lemma check_authorities (o : Observed) (options : Options) :
  check "authorities" (runChecks o options) = Some (analyzeAuthorities (authMint o)).
Proof. reflexivity. Qed.

Lemma check_programOwnership (o : Observed) (options : Options) :
  check "programOwnership" (runChecks o options)
  = Some (analyzeProgramOwnership (account o)).
Proof. reflexivity. Qed.

Lemma check_holders (o : Observed) (options : Options) :
  check "holders" (runChecks o options)
  = if enabled (includeHolderAnalysis options)
    then Some (analyzeHoldersWithTimeout (holdersCall o)) else None.
Proof.
  unfold runChecks.
  destruct (enabled (includeMetadata options)), (enabled (includeHolderAnalysis options)),
    (enabled (includeHoneypotDetection options)), (enabled (includeMarketData options));
    reflexivity.
Qed.

Lemma freezeAuthorityActive_score (o : Observed) (options : Options) :
  Spec.freezeAuthorityActive (runChecks o options) = true ->
  score (analyzeAuthorities (authMint o)) <= 60.
Proof.
  unfold Spec.freezeAuthorityActive. rewrite check_authorities. cbn [fmap option_fmap option_map].
  unfold analyzeAuthorities. destruct (authMint o) as [m|mi]; cbn [detail score]; [discriminate|].
  destruct (freezeAuthority mi); [|destruct (mintAuthority mi); discriminate].
  intros _. destruct (mintAuthority mi); cbn; lia.
Qed.

Lemma nonStandardOwner_score (o : Observed) (options : Options) :
  Spec.nonStandardOwner (runChecks o options) = true ->
  score (analyzeProgramOwnership (account o)) = 20.
Proof.
  unfold Spec.nonStandardOwner. rewrite check_programOwnership.
  cbn [fmap option_fmap option_map].
  unfold analyzeProgramOwnership. destruct (account o) as [m|[ai|]]; cbn [detail score];
    try discriminate.
  destruct (isStandard (owner ai)); [discriminate|reflexivity].
Qed.

Lemma gt_of_eq (x : Q) (a b : Q) :
  Qeq_bool x a = true -> (b < a)%Q -> Js.gt x b = true.
Proof.
  intros He Hlt. apply Qeq_bool_iff in He. unfold Js.gt.
  destruct (Qle_bool x b) eqn:Hle; [|reflexivity].
  apply Qle_bool_iff in Hle. rewrite He in Hle.
  exfalso. exact (Qlt_not_le _ _ Hlt Hle).
Qed.

Lemma topHolderAt_score (o : Observed) (options : Options) (pct : Q) :
  (50 < pct)%Q ->
  Spec.topHolderAt pct (runChecks o options) = true ->
  enabled (includeHolderAnalysis options) = true
  /\ skipped (analyzeHoldersWithTimeout (holdersCall o)) = false
  /\ score (analyzeHoldersWithTimeout (holdersCall o)) <= 60.
Proof.
  intros Hpct. unfold Spec.topHolderAt. rewrite check_holders.
  destruct (enabled (includeHolderAnalysis options)); [|discriminate].
  cbn [fmap option_fmap option_map].
  unfold analyzeHoldersWithTimeout.
  destruct (holdersCall o) as [|[m|ob]]; cbn [detail skipped score]; try discriminate.
  unfold HolderAnalyzer.analyzeHolderDistribution, HolderAnalyzer.noData.
  destruct (HolderAnalyzer.largestAccounts ob) as [m|[[|acc accs]|]];
    cbn [HolderAnalyzer.concentration]; try discriminate.
  destruct (HolderAnalyzer.supply ob) as [m|sup];
    cbn [HolderAnalyzer.concentration]; try discriminate.
  destruct (Js.eq (uiAmount sup) 0); cbn [HolderAnalyzer.concentration HolderAnalyzer.score];
    try discriminate.
  intros Htop. repeat split.
  set (c := HolderAnalyzer.calculateConcentration _) in *.
  set (hs := fold_left _ _ _).
  pose proof (gt_of_eq _ _ 50 Htop Hpct) as Hgt.
  unfold HolderAnalyzer.assessHolderRisks. rewrite Hgt.
  destruct (Js.gt (HolderAnalyzer.top10Percentage c) 80),
    (Js.gt (HolderAnalyzer.top10Percentage c) 60),
    (Js.gt (HolderAnalyzer.herfindahlIndex c) (25 # 100)),
    (Js.gt (HolderAnalyzer.herfindahlIndex c) (15 # 100)),
    (Nat.ltb 0 _); cbn [HolderAnalyzer.riskScore]; lia.
Qed.

Lemma weightedScores_cons (n : string) (r : CheckResult) (l : list (string * CheckResult)) :
  Spec.weightedScores ((n, r) :: l)
  = (if skipped r then 0 else score r * weightOf n) + Spec.weightedScores l.
Proof.
  unfold Spec.weightedScores, Spec.nonSkipped. cbn [List.filter snd].
  destruct (skipped r); reflexivity.
Qed.

Lemma totalWeights_cons (n : string) (r : CheckResult) (l : list (string * CheckResult)) :
  Spec.totalWeights ((n, r) :: l)
  = (if skipped r then 0 else weightOf n) + Spec.totalWeights l.
Proof.
  unfold Spec.totalWeights, Spec.nonSkipped. cbn [List.filter snd].
  destruct (skipped r); reflexivity.
Qed.

Lemma fast_checks_reported (o : Observed) :
  skipped (analyzeBasicInfo (basicMint o) (basicSupply o)) = false
  /\ skipped (analyzeAuthorities (authMint o)) = false
  /\ skipped (analyzeProgramOwnership (account o)) = false.
Proof.
  repeat split.
  - unfold analyzeBasicInfo. destruct (basicMint o), (basicSupply o); reflexivity.
  - unfold analyzeAuthorities. destruct (authMint o); reflexivity.
  - unfold analyzeProgramOwnership. destruct (account o) as [m|[ai|]]; reflexivity.
Qed.

Lemma riskScore_scenario_bound (o : Observed) (options : Options) :
  score (analyzeAuthorities (authMint o)) <= 60 ->
  score (analyzeProgramOwnership (account o)) <= 20 ->
  enabled (includeHolderAnalysis options) = true ->
  skipped (analyzeHoldersWithTimeout (holdersCall o)) = false ->
  score (analyzeHoldersWithTimeout (holdersCall o)) <= 60 ->
  calculateRiskScore (runChecks o options) <= 70.
Proof.
  intros Ha Hp He Hhs Hh.
  pose proof (check_scores o options) as Hsc.
  destruct (fast_checks_reported o) as (Sb & Sa & Sp).
  rewrite calculateRiskScore_unfold.
  destruct (0 <? Spec.totalWeights (runChecks o options)) eqn:Hw;
    [|unfold Spec.neutralFallback; lia].
  apply Z.ltb_lt in Hw. unfold Spec.weightNormalizedSum.
  apply round_div_bounds with (lo := 0); [exact Hw| |].
  - apply (weightedScores_bounds _ 0 100). intros n r Hin _. exact (Hsc n r Hin).
  - revert Hsc Hw. unfold runChecks. rewrite He.
    set (rb := analyzeBasicInfo _ _) in *. set (ra := analyzeAuthorities _) in *.
    set (rp := analyzeProgramOwnership _) in *. set (rh := analyzeHoldersWithTimeout _) in *.
    set (rm := analyzeMetadataWithTimeout _). set (ry := runHoneypotDetection _).
    set (rk := analyzeMarketData _).
    intros Hsc _.
    assert (Hb : 0 <= score rb <= 100) by (apply (Hsc "basicInfo"%string); cbn; auto).
    destruct (enabled (includeMetadata options)) eqn:Em,
      (enabled (includeHoneypotDetection options)) eqn:Ey,
      (enabled (includeMarketData options)) eqn:Ek;
      cbn [app] in *;
      rewrite ?weightedScores_cons, ?totalWeights_cons, ?Sb, ?Sa, ?Sp, ?Hhs;
      change (Spec.weightedScores []) with 0; change (Spec.totalWeights []) with 0;
      change (weightOf "basicInfo") with 10; change (weightOf "authorities") with 40;
      change (weightOf "programOwnership") with 20; change (weightOf "metadata") with 5;
      change (weightOf "holders") with 15; change (weightOf "honeypot") with 30;
      change (weightOf "marketData") with 5;
      repeat match goal with
             | |- context [skipped ?r] =>
                 let H := fresh "B" in
                 assert (H : 0 <= score r <= 100)
                   by (eapply Hsc; cbn; eauto 10);
                 destruct (skipped r)
             end;
      lia.
Qed.

Lemma getSafetyLevel_bands (s : Z) :
  (getSafetyLevel s = SAFE <-> 80 <= s)
  /\ (getSafetyLevel s = CAUTION <-> 60 <= s < 80)
  /\ (getSafetyLevel s = RISKY <-> 40 <= s < 60)
  /\ (getSafetyLevel s = DANGEROUS <-> s < 40).
Proof.
  unfold getSafetyLevel.
  destruct (80 <=? s) eqn:H80; [apply Z.leb_le in H80|apply Z.leb_gt in H80];
    (destruct (60 <=? s) eqn:H60; [apply Z.leb_le in H60|apply Z.leb_gt in H60]);
    (destruct (40 <=? s) eqn:H40; [apply Z.leb_le in H40|apply Z.leb_gt in H40]);
    repeat split; intros; try discriminate; try lia; try reflexivity.
Qed.

End Scenario2.

(** ** The honeypot detector *)
Section Honeypot.
Import SolanaService HoneypotDetector.

(** The simulation reports "buy succeeds, sell fails" exactly when the buy
    quote carries an [outAmount] and the sell quote comes back empty. *)
Lemma simulateSwap_buy_only (b s : Outcome (option JupiterService.Quote)) :
  JupiterService.canBuy (JupiterService.simulateSwap b s) = true ->
  JupiterService.canSell (JupiterService.simulateSwap b s) = false ->
  s = Returned None
  /\ JupiterService.probability
       <$> JupiterService.honeypotAnalysis (JupiterService.simulateSwap b s)
     = Some (Some 95).
Proof.
  unfold JupiterService.simulateSwap.
  destruct b as [m|[bq|]]; cbn; try discriminate.
  destruct (negb (Js.truthy (JupiterService.outAmount bq))); cbn; try discriminate.
  destruct s as [m|[sq|]]; cbn; try discriminate.
  intros _ _. split; reflexivity.
Qed.

(** Whatever swap result says "can buy, cannot sell", the sub-test scores
    at least 90 and is CRITICAL. *)
Lemma runTradingSimulation_buy_only (result : JupiterService.SwapResult) :
  JupiterService.canBuy result = true ->
  JupiterService.canSell result = false ->
  let t := runTradingSimulation (Returned true) (Returned result) in
  90 <= riskScore t /\ severity t = CRITICAL /\ canSell t = Some false.
Proof.
  intros Hb Hs. unfold runTradingSimulation. rewrite Hb, Hs. cbn [negb].
  destruct (JupiterService.honeypotAnalysis result) as [h|]; cbn.
  - destruct (80 <? _) eqn:E; [repeat split; lia|]. apply Z.ltb_ge in E. lia.
  - repeat split; lia.
Qed.

(** The weighted mean of the four sub-tests, in integers. *)
Lemma overall_of_four (ta tp ts tt : TestResult) :
  overall (calculateHoneypotProbability
             [ ("authorityAnalysis", ta); ("programAnalysis", tp);
               ("supplyAnalysis", ts); ("tradingSimulation", tt) ]%string)
  = Z.max 0 (Z.min 100
      ((2 * (30 * riskScore ta + 20 * riskScore tp + 15 * riskScore ts + 35 * riskScore tt)
        + 100) / 200)).
Proof.
  unfold calculateHoneypotProbability. cbn [fold_left accumulate].
  change (weightOf "authorityAnalysis") with (3 # 10)%Q.
  change (weightOf "programAnalysis") with (2 # 10)%Q.
  change (weightOf "supplyAnalysis") with (15 # 100)%Q.
  change (weightOf "tradingSimulation") with (35 # 100)%Q.
  change (Js.gt (0 + (3 # 10) + (2 # 10) + (15 # 100) + (35 # 100)) 0) with true.
  cbn [overall]. do 2 f_equal.
  set (N := 30 * riskScore ta + 20 * riskScore tp + 15 * riskScore ts + 35 * riskScore tt).
  transitivity (Js.round (inject_Z N / inject_Z 100));
    [|rewrite round_div by lia; reflexivity].
  unfold Js.round. apply Qfloor_comp. apply Qplus_comp; [|reflexivity].
  subst N. rewrite !inject_Z_plus, !inject_Z_mult.
  change (inject_Z 30) with 30%Q. change (inject_Z 20) with 20%Q.
  change (inject_Z 15) with 15%Q. change (inject_Z 35) with 35%Q.
  change (inject_Z 100) with 100%Q.
  field.
Qed.

Lemma analyzeAuthorities_riskScore (mint : Outcome MintInfo) :
  0 <= riskScore (analyzeAuthorities mint) <= 90.
Proof.
  unfold analyzeAuthorities. destruct mint as [m|mi]; cbn [riskScore]; [lia|].
  destruct (Js.isSet (mintAuthority mi)), (Js.isSet (freezeAuthority mi)); cbn; lia.
Qed.

Lemma analyzeProgram_riskScore (account : Outcome (option AccountInfo)) :
  0 <= riskScore (analyzeProgram account) <= 90.
Proof.
  unfold analyzeProgram. destruct account as [m|[ai|]]; cbn [riskScore]; try lia.
  destruct (isStandard (owner ai)); lia.
Qed.

Lemma analyzeSupplyMetrics_riskScore (sup : Outcome Supply) (mint : Outcome MintInfo) :
  0 <= riskScore (analyzeSupplyMetrics sup mint) <= 90.
Proof.
  unfold analyzeSupplyMetrics. destruct sup as [m|s], mint as [m'|mi]; cbn [riskScore]; try lia.
  destruct (Js.eq (uiAmount s) 0); [|destruct (Js.gt (uiAmount s) _)];
    destruct ((18 <? decimals mi) || (decimals mi =? 0))%bool; cbn; lia.
Qed.

(** In this version of the service the hidden [rateLimit] method makes
    every request fail before it is sent: the service is never available
    and the simulation reports SIMULATION_FAILED whatever the network
    would answer. *)
Lemma service_as_wired (http : Outcome unit) (h1 h2 : Outcome (option JupiterService.Quote)) :
  JupiterService.testConnectivity http = false
  /\ JupiterService.canBuy
       (JupiterService.simulateSwap (JupiterService.getSwapQuote h1)
                                    (JupiterService.getSwapQuote h2)) = false
  /\ (JupiterService.indicators
        <$> JupiterService.honeypotAnalysis
              (JupiterService.simulateSwap (JupiterService.getSwapQuote h1)
                                           (JupiterService.getSwapQuote h2)))
     = Some ["SIMULATION_FAILED"%string].
Proof. repeat split. Qed.

(** A sell quote that throws, rather than coming back empty, lands in the
    [catch] of [simulateSwap]: the simulation then reports that neither leg
    works. *)
Example sell_quote_that_throws :
  JupiterService.canBuy Examples.sellThrowsReport = false
  /\ JupiterService.canSell Examples.sellThrowsReport = false
  /\ JupiterService.error Examples.sellThrowsReport
     = Some "Request failed with status code 400"%string
  /\ (JupiterService.indicators <$> JupiterService.honeypotAnalysis Examples.sellThrowsReport)
     = Some ["SIMULATION_FAILED"%string].
Proof. repeat split; reflexivity. Qed.

(** The functions behind the trading simulation, handed a report that says
    "can buy, cannot sell": the sub-test scores 95 with severity CRITICAL,
    and the overall probability, a weighted mean in which the simulation
    weighs 0.35, is at least 33.  No run of the program reaches this: see
    [service_as_wired]. *)
Lemma buy_only_report_weighted_mean
    (o : Observed) (b s : Outcome (option JupiterService.Quote)) :
  connectivity o = Returned true ->
  swap o = Returned (JupiterService.simulateSwap b s) ->
  JupiterService.canBuy (JupiterService.simulateSwap b s) = true ->
  JupiterService.canSell (JupiterService.simulateSwap b s) = false ->
  exists t p,
    test "tradingSimulation" (detectHoneypot o) = Some t
    /\ riskScore t = 95 /\ severity t = CRITICAL
    /\ honeypotProbability (detectHoneypot o) = Some p
    /\ 33 <= overall p <= 100
    /\ verdict (detectHoneypot o) = generateVerdict p.
Proof.
  intros Hc Hsw Hb Hs.
  destruct (simulateSwap_buy_only _ _ Hb Hs) as [Hsell Hp].
  pose proof (runTradingSimulation_buy_only _ Hb Hs) as Ht. cbv zeta in Ht.
  set (report := JupiterService.simulateSwap b s) in *.
  set (t := runTradingSimulation (Returned true) (Returned report)) in *.
  assert (Ht95 : riskScore t = 95).
  { subst t. unfold runTradingSimulation. rewrite Hb, Hs. cbn [negb].
    destruct (JupiterService.honeypotAnalysis report) as [h|]; [|discriminate Hp].
    cbn in Hp. injection Hp as Hp. rewrite Hp. reflexivity. }
  exists t, (calculateHoneypotProbability (tests (detectHoneypot o))).
  assert (Htests : tests (detectHoneypot o)
                   = [ ("authorityAnalysis", analyzeAuthorities (authMint o));
                       ("programAnalysis", analyzeProgram (programAccount o));
                       ("supplyAnalysis", analyzeSupplyMetrics (supply o) (supplyMint o));
                       ("tradingSimulation", t) ]%string).
  { unfold detectHoneypot. cbn [tests]. rewrite Hc, Hsw. reflexivity. }
  split. { unfold test. rewrite Htests. reflexivity. }
  split; [exact Ht95|]. split; [apply Ht|]. split; [reflexivity|].
  split; [|reflexivity].
  rewrite Htests, overall_of_four, Ht95.
  pose proof (analyzeAuthorities_riskScore (authMint o)).
  pose proof (analyzeProgram_riskScore (programAccount o)).
  pose proof (analyzeSupplyMetrics_riskScore (supply o) (supplyMint o)).
  split; [|lia].
  apply Z.max_le_iff. right. apply Z.min_glb; [lia|].
  apply Z.div_le_lower_bound; lia.
Qed.

(** With the other three sub-tests clean, that weighted mean is 33 and the
    verdict CAUTION_ADVISED. *)
Example buy_only_report_overall :
  (riskScore <$> test "tradingSimulation" (detectHoneypot Examples.buyOnly)) = Some 95
  /\ (overall <$> honeypotProbability (detectHoneypot Examples.buyOnly)) = Some 33
  /\ verdict (detectHoneypot Examples.buyOnly) = CAUTION_ADVISED.
Proof. repeat split; vm_compute; reflexivity. Qed.

(** In a run of the program the answers of the quote endpoint never reach
    the detector: what it observes is what it observes when the service
    is unavailable. *)
Lemma live_is_unavailable (o : Observed) (http : Outcome unit)
    (buy sell : Outcome (option JupiterService.Quote)) :
  runTradingSimulation (connectivity (Wiring.live o http buy sell))
                       (swap (Wiring.live o http buy sell))
  = {| issues := None; riskScore := 20; severity := LOW; canSell := None |}
  /\ detectHoneypot (Wiring.live o http buy sell) = detectHoneypot (Wiring.asWired o http).
Proof. split; reflexivity. Qed.


End Honeypot.

(** ** The listener, the queue and the worker *)

(** ** Runs of a monitor *)
Section Runs.
Context {State : Type}.
Variable tokenQueueOf : State -> list TokenEvent.
Variable handleMessage : State -> Message -> Z -> State.
Variable workerCycle : State -> Z -> State * option TokenEvent.
Variable workerSettle : State -> bool -> State.
Variable toggle : State -> State.
Variable initial : State.

Lemma play_from_reachable (evs : list Event) (r : Run State) :
  reachable tokenQueueOf handleMessage workerCycle workerSettle toggle initial r ->
  reachable tokenQueueOf handleMessage workerCycle workerSettle toggle initial
    (fold_left
       (fun r ev =>
          default r (fire tokenQueueOf handleMessage workerCycle workerSettle toggle r ev))
       evs r).
Proof.
  revert r. induction evs as [|ev evs IH]; intros r Hr; [exact Hr|].
  cbn [fold_left]. apply IH.
  destruct (fire tokenQueueOf handleMessage workerCycle workerSettle toggle r ev)
    as [r'|] eqn:E; cbn [default]; [|exact Hr].
  exact (reachable_fire _ _ _ _ _ _ r ev r' Hr E).
Qed.

(** Every run that [play] produces is reachable. *)
Lemma play_reachable (evs : list Event) :
  reachable tokenQueueOf handleMessage workerCycle workerSettle toggle initial
    (play tokenQueueOf handleMessage workerCycle workerSettle toggle initial evs).
Proof. apply play_from_reachable. apply reachable_start. Qed.

End Runs.

Lemma pushed_app {State : Type} (q : State -> list TokenEvent) (st st' : State)
    (delta : list TokenEvent) :
  q st' = q st ++ delta -> pushed q st st' = delta.
Proof. intros E. unfold pushed. rewrite E. apply drop_app_length. Qed.

(** One step of a run, by the kind of event. *)
Ltac fire_cases H :=
  match type of H with
  | _ ?r ?ev = Some ?r' =>
      destruct ev as [m now|now|ok|]; cbn in H;
      [ injection H as <-
      | match type of H with
        | context [let '(_, _) := ?c in _] => destruct c as [st' started] eqn:Hw
        end; injection H as <-
      | destruct (inFlight r) as [|running rest] eqn:Hfl; [discriminate H|injection H as <-]
      | injection H as <- ]
  end.


Section ComprehensivePumpMonitorFacts.
Import ComprehensivePumpMonitor.

(** The listener appends at most one event, whose signature was new and is
    recorded; it never removes any. *)
Lemma processTokenCreation_queue (st : State) (params : Notification) (now : Z) :
  exists delta,
    tokenQueue (processTokenCreation st params now) = tokenQueue st ++ delta
    /\ (delta = []
        \/ exists e, delta = [e] /\ eventSignature e = signature params
                     /\ detectedAt e = now
                     /\ (signature params ∉ processedSignatures st)
                     /\ (signature params
                         ∈ processedSignatures (processTokenCreation st params now))
                     /\ (List.length (tokenQueue st) < maxQueueSize)%nat)
    /\ (processedSignatures st ⊆ processedSignatures (processTokenCreation st params now))
    /\ isAnalyzing (processTokenCreation st params now) = isAnalyzing st.
Proof.
  unfold processTokenCreation.
  destruct (bool_decide _) eqn:Hd.
  { exists []. rewrite app_nil_r. auto. }
  apply bool_decide_eq_false in Hd.
  destruct (negb (isRealTokenCreation (logs params))).
  { exists []. rewrite app_nil_r. auto. }
  cbn [tokenQueue processedSignatures isAnalyzing].
  destruct (Nat.ltb _ _) eqn:Hl.
  - apply Nat.ltb_lt in Hl. eexists. split; [reflexivity|].
    split; [|split; [set_solver|reflexivity]].
    right. eexists. split; [reflexivity|]. cbn. repeat split; auto; set_solver.
  - exists []. rewrite app_nil_r. split; [reflexivity|].
    split; [auto|]. split; [set_solver|reflexivity].
Qed.

Lemma comprehensive_handleMessage_queue (st : State) (m : Message) (now : Z) :
  exists delta,
    tokenQueue (handleMessage st m now) = tokenQueue st ++ delta
    /\ (delta = []
        \/ exists e, delta = [e]
                     /\ (eventSignature e ∉ processedSignatures st)
                     /\ (eventSignature e ∈ processedSignatures (handleMessage st m now))
                     /\ (List.length (tokenQueue st) < maxQueueSize)%nat)
    /\ (processedSignatures st ⊆ processedSignatures (handleMessage st m now))
    /\ isAnalyzing (handleMessage st m now) = isAnalyzing st.
Proof.
  unfold handleMessage.
  destruct (negb (isStreaming st)); [exists []; rewrite app_nil_r; auto|].
  destruct m as [id|params|]; try solve [exists []; rewrite app_nil_r; auto].
  destruct (processTokenCreation_queue st params now) as (delta & Hq & Hd & Hp & Ha).
  exists delta. split; [exact Hq|]. split; [|auto].
  destruct Hd as [->|(e & -> & He & _ & Hn & Hi & Hl)]; [auto|].
  right. exists e. rewrite He. auto.
Qed.

(** The worker either leaves the state alone or takes the oldest event and
    raises the flag, which it does only when the flag was clear. *)
Lemma comprehensive_worker_cases (st : State) (now : Z) :
  startComprehensiveWorker st now = (st, None)
  \/ exists e rest,
       tokenQueue st = e :: rest
       /\ isAnalyzing st = false
       /\ analysisDelay <= now - detectedAt e
       /\ startComprehensiveWorker st now
          = ({| tokenQueue := rest; isAnalyzing := true; isStreaming := isStreaming st;
                processedSignatures := processedSignatures st; stats := stats st |},
             Some e).
Proof.
  unfold startComprehensiveWorker.
  destruct (isAnalyzing st) eqn:Ha; cbn [negb andb]; [auto|].
  destruct (tokenQueue st) as [|e rest] eqn:Hq; cbn [List.length Nat.ltb Nat.leb]; [auto|].
  destruct (now - detectedAt e <? analysisDelay) eqn:Hage.
  - left. destruct st; cbn in *; subst; reflexivity.
  - right. apply Z.ltb_ge in Hage. exists e, rest. auto.
Qed.

Lemma comprehensive_queue_bounded (r : Run State) :
  reachable r -> (List.length (tokenQueue (object r)) <= maxQueueSize)%nat.
Proof.
  induction 1 as [|r ev r' Hr IH Hf]; [cbn; lia|].
  fire_cases Hf; cbn [object].
  - destruct (comprehensive_handleMessage_queue (object r) m now) as (delta & Hq & Hd & _).
    rewrite Hq, length_app. destruct Hd as [->|(e & -> & _ & _ & Hl)]; cbn; lia.
  - destruct (comprehensive_worker_cases (object r) now) as [E|(e & rest & Hq & _ & _ & E)];
      rewrite E in Hw; injection Hw as <- <-; [exact IH|].
    cbn. rewrite Hq in IH. cbn in IH. lia.
  - exact IH.
  - exact IH.
Qed.

Lemma comprehensive_single_flight (r : Run State) :
  reachable r ->
  (isAnalyzing (object r) = false /\ inFlight r = [])
  \/ (isAnalyzing (object r) = true /\ exists e, inFlight r = [e]).
Proof.
  induction 1 as [|r ev r' Hr IH Hf]; [left; auto|].
  fire_cases Hf; cbn [object inFlight].
  - destruct (comprehensive_handleMessage_queue (object r) m now) as (delta & _ & _ & _ & Ha).
    rewrite Ha. exact IH.
  - destruct (comprehensive_worker_cases (object r) now) as [E|(e & rest & Hq & Ha & _ & E)];
      rewrite E in Hw; injection Hw as <- <-; cbn.
    + rewrite app_nil_r. exact IH.
    + destruct IH as [[_ ->]|[IH _]]; [|congruence].
      right. split; [reflexivity|]. exists e. reflexivity.
  - left. destruct IH as [[_ IH]|[_ [e IH]]]; [discriminate IH|].
    injection IH as _ ->. auto.
  - exact IH.
Qed.

Lemma comprehensive_entered_once (r : Run State) :
  reachable r ->
  NoDup (List.map eventSignature (entered r))
  /\ (forall e, In e (entered r) -> (eventSignature e ∈ processedSignatures (object r)))
  /\ (forall e, In e (tokenQueue (object r)) -> In e (entered r)).
Proof.
  induction 1 as [|r ev r' Hr (IHn & IHp & IHq) Hf];
    [split; [constructor|split; intros e []]|].
  fire_cases Hf; cbn [object entered]; auto.
  - destruct (comprehensive_handleMessage_queue (object r) m now) as (delta & Hq & Hd & Hsub & _).
    rewrite (pushed_app tokenQueue _ _ delta Hq), Hq.
    assert (Hincl : forall e, In e (tokenQueue (object r) ++ delta) ->
                              In e (entered r ++ delta)).
    { intros e He. apply in_app_or in He as [He|He]; apply in_or_app; auto. }
    destruct Hd as [->|(e & -> & Hnew & Hrec & _)].
    + rewrite !app_nil_r. split; [exact IHn|]. split; [|exact IHq].
      intros e He. apply Hsub, IHp, He.
    + split; [|split; [|exact Hincl]].
      * rewrite List.map_app. cbn [List.map]. apply NoDup_app. split; [exact IHn|].
        split; [|apply NoDup_singleton].
        intros s Hs Hs'. apply list_elem_of_singleton in Hs'. subst s.
        apply list_elem_of_In, in_map_iff in Hs as (e' & He' & Hin).
        apply Hnew. rewrite <- He'. apply IHp, Hin.
      * intros e' He'. apply in_app_or in He' as [He'|[<-|[]]]; [|exact Hrec].
        apply Hsub, IHp, He'.
  - destruct (comprehensive_worker_cases (object r) now) as [E|(e & rest & Hq & Ha & _ & E)];
      rewrite E in Hw; injection Hw as <- <-; cbn; auto.
    split; [exact IHn|]. split; [exact IHp|].
    intros e' He'. apply IHq. rewrite Hq. right. exact He'.
Qed.

(** No transition removes a signature from the processed set. *)
Lemma comprehensive_processed_grows (r r' : Run State) (ev : Event) :
  fire r ev = Some r' ->
  processedSignatures (object r) ⊆ processedSignatures (object r').
Proof.
  intros Hf. unfold fire in Hf. fire_cases Hf; cbn [object].
  - destruct (comprehensive_handleMessage_queue (object r) m now) as (delta & _ & _ & Hsub & _).
    exact Hsub.
  - destruct (comprehensive_worker_cases (object r) now) as [E|(e & rest & _ & _ & _ & E)];
      rewrite E in Hw; injection Hw as <- <-; reflexivity.
  - reflexivity.
  - reflexivity.
Qed.

(** A message only ever appends behind the events already queued. *)
Lemma comprehensive_message_appends (st : State) (m : Message) (now : Z) :
  exists delta, tokenQueue (handleMessage st m now) = tokenQueue st ++ delta.
Proof.
  destruct (comprehensive_handleMessage_queue st m now) as (delta & Hq & _). eauto.
Qed.

End ComprehensivePumpMonitorFacts.

Section OptimizedPumpMonitorFacts.
Import OptimizedPumpMonitor.

(** The listener appends at most one event, whose signature was new and is
    recorded; it never removes any. *)
Lemma processLogEvent_queue (st : State) (params : Notification) (now : Z) :
  exists delta,
    tokenQueue (processLogEvent st params now) = tokenQueue st ++ delta
    /\ (delta = []
        \/ exists e, delta = [e] /\ eventSignature e = signature params
                     /\ detectedAt e = now
                     /\ (signature params ∉ processedSignatures st)
                     /\ (signature params
                         ∈ processedSignatures (processLogEvent st params now))
                     /\ (List.length (tokenQueue st) < maxQueueSize)%nat)
    /\ (processedSignatures st ⊆ processedSignatures (processLogEvent st params now))
    /\ isAnalyzing (processLogEvent st params now) = isAnalyzing st.
Proof.
  unfold processLogEvent.
  destruct (bool_decide _) eqn:Hd.
  { exists []. rewrite app_nil_r. auto. }
  apply bool_decide_eq_false in Hd.
  destruct (negb (isActualTokenCreation (logs params))).
  { exists []. cbn. rewrite app_nil_r. auto. }
  cbn [tokenQueue processedSignatures isAnalyzing].
  destruct (Nat.ltb _ _) eqn:Hl.
  - apply Nat.ltb_lt in Hl. eexists. split; [reflexivity|].
    split; [|split; [set_solver|reflexivity]].
    right. eexists. split; [reflexivity|]. cbn. repeat split; auto; set_solver.
  - exists []. rewrite app_nil_r. split; [reflexivity|].
    split; [auto|]. split; [set_solver|reflexivity].
Qed.

Lemma optimized_handleMessage_queue (st : State) (m : Message) (now : Z) :
  exists delta,
    tokenQueue (handleMessage st m now) = tokenQueue st ++ delta
    /\ (delta = []
        \/ exists e, delta = [e]
                     /\ (eventSignature e ∉ processedSignatures st)
                     /\ (eventSignature e ∈ processedSignatures (handleMessage st m now))
                     /\ (List.length (tokenQueue st) < maxQueueSize)%nat)
    /\ (processedSignatures st ⊆ processedSignatures (handleMessage st m now))
    /\ isAnalyzing (handleMessage st m now) = isAnalyzing st.
Proof.
  unfold handleMessage.
  destruct (negb (isStreaming st)); [exists []; rewrite app_nil_r; auto|].
  destruct m as [id|params|]; try solve [exists []; rewrite app_nil_r; auto].
  destruct (processLogEvent_queue st params now) as (delta & Hq & Hd & Hp & Ha).
  exists delta. split; [exact Hq|]. split; [|auto].
  destruct Hd as [->|(e & -> & He & _ & Hn & Hi & Hl)]; [auto|].
  right. exists e. rewrite He. auto.
Qed.

(** The worker either leaves the state alone or takes the oldest event and
    raises the flag, which it does only when the flag was clear. *)
Lemma optimized_worker_cases (st : State) (now : Z) :
  startOptimizedWorker st now = (st, None)
  \/ exists e rest,
       tokenQueue st = e :: rest
       /\ isAnalyzing st = false
       /\ analysisDelay <= now - detectedAt e
       /\ startOptimizedWorker st now
          = ({| tokenQueue := rest; isAnalyzing := true; isStreaming := isStreaming st;
                processedSignatures := processedSignatures st; stats := stats st |},
             Some e).
Proof.
  unfold startOptimizedWorker.
  destruct (isAnalyzing st) eqn:Ha; cbn [negb andb]; [auto|].
  destruct (tokenQueue st) as [|e rest] eqn:Hq; cbn [List.length Nat.ltb Nat.leb]; [auto|].
  destruct (now - detectedAt e <? analysisDelay) eqn:Hage.
  - left. destruct st; cbn in *; subst; reflexivity.
  - right. apply Z.ltb_ge in Hage. exists e, rest. auto.
Qed.

Lemma optimized_queue_bounded (r : Run State) :
  reachable r -> (List.length (tokenQueue (object r)) <= maxQueueSize)%nat.
Proof.
  induction 1 as [|r ev r' Hr IH Hf]; [cbn; lia|].
  fire_cases Hf; cbn [object].
  - destruct (optimized_handleMessage_queue (object r) m now) as (delta & Hq & Hd & _).
    rewrite Hq, length_app. destruct Hd as [->|(e & -> & _ & _ & Hl)]; cbn; lia.
  - destruct (optimized_worker_cases (object r) now) as [E|(e & rest & Hq & _ & _ & E)];
      rewrite E in Hw; injection Hw as <- <-; [exact IH|].
    cbn. rewrite Hq in IH. cbn in IH. lia.
  - exact IH.
  - exact IH.
Qed.

Lemma optimized_single_flight (r : Run State) :
  reachable r ->
  (isAnalyzing (object r) = false /\ inFlight r = [])
  \/ (isAnalyzing (object r) = true /\ exists e, inFlight r = [e]).
Proof.
  induction 1 as [|r ev r' Hr IH Hf]; [left; auto|].
  fire_cases Hf; cbn [object inFlight].
  - destruct (optimized_handleMessage_queue (object r) m now) as (delta & _ & _ & _ & Ha).
    rewrite Ha. exact IH.
  - destruct (optimized_worker_cases (object r) now) as [E|(e & rest & Hq & Ha & _ & E)];
      rewrite E in Hw; injection Hw as <- <-; cbn.
    + rewrite app_nil_r. exact IH.
    + destruct IH as [[_ ->]|[IH _]]; [|congruence].
      right. split; [reflexivity|]. exists e. reflexivity.
  - left. destruct IH as [[_ IH]|[_ [e IH]]]; [discriminate IH|].
    injection IH as _ ->. auto.
  - exact IH.
Qed.

Lemma optimized_entered_once (r : Run State) :
  reachable r ->
  NoDup (List.map eventSignature (entered r))
  /\ (forall e, In e (entered r) -> (eventSignature e ∈ processedSignatures (object r)))
  /\ (forall e, In e (tokenQueue (object r)) -> In e (entered r)).
Proof.
  induction 1 as [|r ev r' Hr (IHn & IHp & IHq) Hf];
    [split; [constructor|split; intros e []]|].
  fire_cases Hf; cbn [object entered]; auto.
  - destruct (optimized_handleMessage_queue (object r) m now) as (delta & Hq & Hd & Hsub & _).
    rewrite (pushed_app tokenQueue _ _ delta Hq), Hq.
    assert (Hincl : forall e, In e (tokenQueue (object r) ++ delta) ->
                              In e (entered r ++ delta)).
    { intros e He. apply in_app_or in He as [He|He]; apply in_or_app; auto. }
    destruct Hd as [->|(e & -> & Hnew & Hrec & _)].
    + rewrite !app_nil_r. split; [exact IHn|]. split; [|exact IHq].
      intros e He. apply Hsub, IHp, He.
    + split; [|split; [|exact Hincl]].
      * rewrite List.map_app. cbn [List.map]. apply NoDup_app. split; [exact IHn|].
        split; [|apply NoDup_singleton].
        intros s Hs Hs'. apply list_elem_of_singleton in Hs'. subst s.
        apply list_elem_of_In, in_map_iff in Hs as (e' & He' & Hin).
        apply Hnew. rewrite <- He'. apply IHp, Hin.
      * intros e' He'. apply in_app_or in He' as [He'|[<-|[]]]; [|exact Hrec].
        apply Hsub, IHp, He'.
  - destruct (optimized_worker_cases (object r) now) as [E|(e & rest & Hq & Ha & _ & E)];
      rewrite E in Hw; injection Hw as <- <-; cbn; auto.
    split; [exact IHn|]. split; [exact IHp|].
    intros e' He'. apply IHq. rewrite Hq. right. exact He'.
Qed.

(** No transition removes a signature from the processed set. *)
Lemma optimized_processed_grows (r r' : Run State) (ev : Event) :
  fire r ev = Some r' ->
  processedSignatures (object r) ⊆ processedSignatures (object r').
Proof.
  intros Hf. unfold fire in Hf. fire_cases Hf; cbn [object].
  - destruct (optimized_handleMessage_queue (object r) m now) as (delta & _ & _ & Hsub & _).
    exact Hsub.
  - destruct (optimized_worker_cases (object r) now) as [E|(e & rest & _ & _ & _ & E)];
      rewrite E in Hw; injection Hw as <- <-; reflexivity.
  - reflexivity.
  - reflexivity.
Qed.

(** A message only ever appends behind the events already queued. *)
Lemma optimized_message_appends (st : State) (m : Message) (now : Z) :
  exists delta, tokenQueue (handleMessage st m now) = tokenQueue st ++ delta.
Proof.
  destruct (optimized_handleMessage_queue st m now) as (delta & Hq & _). eauto.
Qed.

End OptimizedPumpMonitorFacts.

(** *** services/enhancedPumpFunMonitor.js *)
Section EnhancedFacts.
Import EnhancedPumpFunMonitor.

(** A matching, new detection that meets a full queue is counted in
    [stats.skipped] and leaves the queue as it was. *)
Lemma handlePumpFunLog_full (st : State) (l : Logs) (contextSlot now : Z) :
  isStreaming st = true ->
  logsSignature l ∉ processedSignatures st ->
  hasTokenCreation (logLines l) = true ->
  List.length (tokenQueue st) = maxQueueSize ->
  tokenQueue (handlePumpFunLog st l contextSlot now) = tokenQueue st
  /\ skipped (stats (handlePumpFunLog st l contextSlot now)) = skipped (stats st) + 1
  /\ queued (stats (handlePumpFunLog st l contextSlot now)) = queued (stats st)
  /\ detected (stats (handlePumpFunLog st l contextSlot now)) = detected (stats st) + 1.
Proof.
  intros Hs Hn Hc Hl. unfold handlePumpFunLog. rewrite Hs, Hc. cbn [negb].
  rewrite bool_decide_eq_false_2 by exact Hn.
  rewrite Hl, Nat.ltb_irrefl. cbn. auto.
Qed.

End EnhancedFacts.

(** ** Claims about the listener, the queue and the worker *)
Section MonitorClaims.

(** C6.  In every reachable state of the comprehensive monitor the queue
    holds at most [maxQueueSize] events; a message that arrives while the
    queue is full leaves the queue exactly as it was, evicting nothing; and
    a worker cycle that finds the queue empty takes no event and changes
    nothing. *)
Theorem C6_queue_never_exceeds_capacity (r : Run ComprehensivePumpMonitor.State) :
  ComprehensivePumpMonitor.reachable r ->
  (List.length (ComprehensivePumpMonitor.tokenQueue (object r))
   <= ComprehensivePumpMonitor.maxQueueSize)%nat
  /\ (forall m now,
        List.length (ComprehensivePumpMonitor.tokenQueue (object r))
        = ComprehensivePumpMonitor.maxQueueSize ->
        ComprehensivePumpMonitor.tokenQueue
          (ComprehensivePumpMonitor.handleMessage (object r) m now)
        = ComprehensivePumpMonitor.tokenQueue (object r))
  /\ (forall now,
        ComprehensivePumpMonitor.tokenQueue (object r) = [] ->
        ComprehensivePumpMonitor.startComprehensiveWorker (object r) now
        = (object r, None)).
Proof.
  intros Hr. split; [exact (comprehensive_queue_bounded r Hr)|]. split.
  - intros m now Hfull.
    destruct (comprehensive_handleMessage_queue (object r) m now)
      as (delta & Hq & [->|(e & _ & _ & _ & Hl)] & _); [|lia].
    rewrite Hq. apply app_nil_r.
  - intros now Hempty.
    destruct (comprehensive_worker_cases (object r) now)
      as [E|(e & rest & Hq & _)]; [exact E|congruence].
Qed.

Lemma C6_witness :
  let r := ComprehensivePumpMonitor.play Examples.sevenDetections in
  (List.length (ComprehensivePumpMonitor.tokenQueue (object r))
   <= ComprehensivePumpMonitor.maxQueueSize)%nat
  /\ (forall m now,
        List.length (ComprehensivePumpMonitor.tokenQueue (object r))
        = ComprehensivePumpMonitor.maxQueueSize ->
        ComprehensivePumpMonitor.tokenQueue
          (ComprehensivePumpMonitor.handleMessage (object r) m now)
        = ComprehensivePumpMonitor.tokenQueue (object r))
  /\ (forall now,
        ComprehensivePumpMonitor.tokenQueue (object r) = [] ->
        ComprehensivePumpMonitor.startComprehensiveWorker (object r) now
        = (object r, None)).
Proof.
  exact (C6_queue_never_exceeds_capacity
           (ComprehensivePumpMonitor.play Examples.sevenDetections)
           (play_reachable _ _ _ _ _ _ Examples.sevenDetections)).
Defined.

(** C7.  In every reachable state of the comprehensive and of the optimized
    monitor at most one analysis is in flight, and the in-flight flag is
    set exactly while one is; a worker cycle starts an analysis only when
    the flag is clear and sets it before the analysis begins; and the flag
    is cleared when the analysis settles, whether it succeeded or failed. *)
Theorem C7_at_most_one_analysis_in_flight
    (rc : Run ComprehensivePumpMonitor.State) (ro : Run OptimizedPumpMonitor.State) :
  ComprehensivePumpMonitor.reachable rc ->
  OptimizedPumpMonitor.reachable ro ->
  ((List.length (inFlight rc) <= 1)%nat
   /\ (ComprehensivePumpMonitor.isAnalyzing (object rc) = true <-> inFlight rc <> [])
   /\ (forall now st' e,
         ComprehensivePumpMonitor.startComprehensiveWorker (object rc) now = (st', Some e) ->
         ComprehensivePumpMonitor.isAnalyzing (object rc) = false
         /\ ComprehensivePumpMonitor.isAnalyzing st' = true)
   /\ (forall ok,
         ComprehensivePumpMonitor.isAnalyzing
           (ComprehensivePumpMonitor.analysisSettled (object rc) ok) = false))
  /\ ((List.length (inFlight ro) <= 1)%nat
      /\ (OptimizedPumpMonitor.isAnalyzing (object ro) = true <-> inFlight ro <> [])
      /\ (forall now st' e,
            OptimizedPumpMonitor.startOptimizedWorker (object ro) now = (st', Some e) ->
            OptimizedPumpMonitor.isAnalyzing (object ro) = false
            /\ OptimizedPumpMonitor.isAnalyzing st' = true)
      /\ (forall ok,
            OptimizedPumpMonitor.isAnalyzing
              (OptimizedPumpMonitor.analysisSettled (object ro) ok) = false)).
Proof.
  intros Hc Ho. split.
  - split; [|split; [|split]].
    + destruct (comprehensive_single_flight rc Hc) as [[_ ->]|[_ [e ->]]]; cbn; lia.
    + destruct (comprehensive_single_flight rc Hc) as [[-> ->]|[-> [e ->]]];
        split; congruence.
    + intros now st' e Hw.
      destruct (comprehensive_worker_cases (object rc) now)
        as [E|(e0 & rest & _ & Ha & _ & E)];
        rewrite E in Hw; [discriminate Hw|]. injection Hw as <- _. auto.
    + intros ok. reflexivity.
  - split; [|split; [|split]].
    + destruct (optimized_single_flight ro Ho) as [[_ ->]|[_ [e ->]]]; cbn; lia.
    + destruct (optimized_single_flight ro Ho) as [[-> ->]|[-> [e ->]]];
        split; congruence.
    + intros now st' e Hw.
      destruct (optimized_worker_cases (object ro) now)
        as [E|(e0 & rest & _ & Ha & _ & E)];
        rewrite E in Hw; [discriminate Hw|]. injection Hw as <- _. auto.
    + intros ok. reflexivity.
Qed.

Lemma C7_witness :
  let rc := ComprehensivePumpMonitor.play Examples.gatedThenStarted in
  let ro := OptimizedPumpMonitor.play Examples.gatedThenStarted in
  ((List.length (inFlight rc) <= 1)%nat
   /\ (ComprehensivePumpMonitor.isAnalyzing (object rc) = true <-> inFlight rc <> [])
   /\ (forall now st' e,
         ComprehensivePumpMonitor.startComprehensiveWorker (object rc) now = (st', Some e) ->
         ComprehensivePumpMonitor.isAnalyzing (object rc) = false
         /\ ComprehensivePumpMonitor.isAnalyzing st' = true)
   /\ (forall ok,
         ComprehensivePumpMonitor.isAnalyzing
           (ComprehensivePumpMonitor.analysisSettled (object rc) ok) = false))
  /\ ((List.length (inFlight ro) <= 1)%nat
      /\ (OptimizedPumpMonitor.isAnalyzing (object ro) = true <-> inFlight ro <> [])
      /\ (forall now st' e,
            OptimizedPumpMonitor.startOptimizedWorker (object ro) now = (st', Some e) ->
            OptimizedPumpMonitor.isAnalyzing (object ro) = false
            /\ OptimizedPumpMonitor.isAnalyzing st' = true)
      /\ (forall ok,
            OptimizedPumpMonitor.isAnalyzing
              (OptimizedPumpMonitor.analysisSettled (object ro) ok) = false)).
Proof.
  exact (C7_at_most_one_analysis_in_flight
           (ComprehensivePumpMonitor.play Examples.gatedThenStarted)
           (OptimizedPumpMonitor.play Examples.gatedThenStarted)
           (play_reachable _ _ _ _ _ _ Examples.gatedThenStarted)
           (play_reachable _ _ _ _ _ _ Examples.gatedThenStarted)).
Defined.

(** C8.  A worker cycle that finds the oldest queued event younger than the
    age gate (25 s in the comprehensive, 15 s in the optimized monitor)
    starts no analysis and leaves the monitor, hence the queue and the
    order of its events, exactly as it found it. *)
Theorem C8_young_event_stays_at_front
    (stc : ComprehensivePumpMonitor.State) (sto : OptimizedPumpMonitor.State)
    (nowc nowo : Z) (ec eo : TokenEvent) (restc resto : list TokenEvent) :
  ComprehensivePumpMonitor.tokenQueue stc = ec :: restc ->
  nowc - detectedAt ec < ComprehensivePumpMonitor.analysisDelay ->
  OptimizedPumpMonitor.tokenQueue sto = eo :: resto ->
  nowo - detectedAt eo < OptimizedPumpMonitor.analysisDelay ->
  (ComprehensivePumpMonitor.startComprehensiveWorker stc nowc = (stc, None)
   /\ forall m later, exists behind,
        ComprehensivePumpMonitor.tokenQueue
          (ComprehensivePumpMonitor.handleMessage
             (fst (ComprehensivePumpMonitor.startComprehensiveWorker stc nowc)) m later)
        = ec :: restc ++ behind)
  /\ (OptimizedPumpMonitor.startOptimizedWorker sto nowo = (sto, None)
      /\ forall m later, exists behind,
           OptimizedPumpMonitor.tokenQueue
             (OptimizedPumpMonitor.handleMessage
                (fst (OptimizedPumpMonitor.startOptimizedWorker sto nowo)) m later)
           = eo :: resto ++ behind).
Proof.
  intros Hqc Hagec Hqo Hageo. split.
  - assert (E : ComprehensivePumpMonitor.startComprehensiveWorker stc nowc = (stc, None)).
    { destruct (comprehensive_worker_cases stc nowc) as [E|(e & rest & Hq & _ & Hage & _)];
        [exact E|]. rewrite Hqc in Hq. injection Hq as <- _. lia. }
    split; [exact E|]. intros m later. rewrite E. cbn [fst].
    destruct (comprehensive_message_appends stc m later) as [behind Hb].
    exists behind. rewrite Hb, Hqc. reflexivity.
  - assert (E : OptimizedPumpMonitor.startOptimizedWorker sto nowo = (sto, None)).
    { destruct (optimized_worker_cases sto nowo) as [E|(e & rest & Hq & _ & Hage & _)];
        [exact E|]. rewrite Hqo in Hq. injection Hq as <- _. lia. }
    split; [exact E|]. intros m later. rewrite E. cbn [fst].
    destruct (optimized_message_appends sto m later) as [behind Hb].
    exists behind. rewrite Hb, Hqo. reflexivity.
Qed.

Lemma C8_witness :
  let stc := object (ComprehensivePumpMonitor.play Examples.youngEvent) in
  let sto := object (OptimizedPumpMonitor.play Examples.youngEvent) in
  ComprehensivePumpMonitor.startComprehensiveWorker stc 9000 = (stc, None)
  /\ OptimizedPumpMonitor.startOptimizedWorker sto 9000 = (sto, None).
Proof.
  cbv zeta.
  refine (let H := C8_young_event_stays_at_front
                     (object (ComprehensivePumpMonitor.play Examples.youngEvent))
                     (object (OptimizedPumpMonitor.play Examples.youngEvent))
                     9000 9000 _ _ _ _ _ _ _ _ in
          conj (proj1 (proj1 H)) (proj1 (proj2 H)));
    vm_compute; reflexivity.
Defined.

(** C9, as stated, fails for the comprehensive monitor: the seventh
    matching detection meets a full queue of six and is dropped, and the
    monitor's counters end up exactly as they do when the same detection
    is queued; no counter records the drop. *)
Lemma C9_counterexample :
  let full := Examples.comprehensiveFull in
  let roomy :=
    {| ComprehensivePumpMonitor.tokenQueue := [];
       ComprehensivePumpMonitor.isAnalyzing := ComprehensivePumpMonitor.isAnalyzing full;
       ComprehensivePumpMonitor.isStreaming := ComprehensivePumpMonitor.isStreaming full;
       ComprehensivePumpMonitor.processedSignatures :=
         ComprehensivePumpMonitor.processedSignatures full;
       ComprehensivePumpMonitor.stats := ComprehensivePumpMonitor.stats full |} in
  let dropped :=
    ComprehensivePumpMonitor.processTokenCreation full (Examples.creation "7") 7000 in
  let accepted :=
    ComprehensivePumpMonitor.processTokenCreation roomy (Examples.creation "7") 7000 in
  List.length (ComprehensivePumpMonitor.tokenQueue full) = 6%nat
  /\ ComprehensivePumpMonitor.tokenQueue dropped = ComprehensivePumpMonitor.tokenQueue full
  /\ List.length (ComprehensivePumpMonitor.tokenQueue accepted) = 1%nat
  /\ ComprehensivePumpMonitor.stats dropped = ComprehensivePumpMonitor.stats accepted
  /\ ComprehensivePumpMonitor.stats dropped
     = {| ComprehensivePumpMonitor.detected := 7; ComprehensivePumpMonitor.analyzed := 0 |}.
Proof. cbv zeta. repeat split; vm_compute; reflexivity. Qed.

(** C9, amended.  When the queue already holds [maxQueueSize] events, a
    further matching detection is dropped without an exception and the
    queue keeps its length and contents.  The enhanced monitor counts the
    drop in [stats.skipped]; the comprehensive monitor has no drop counter:
    it counts the detection in [stats.detected], as it does for a queued
    one, and records its signature. *)
Theorem C9_detection_dropped_when_full
    (se : EnhancedPumpFunMonitor.State) (l : EnhancedPumpFunMonitor.Logs)
    (contextSlot nowe : Z)
    (sc : ComprehensivePumpMonitor.State) (params : Notification) (nowc : Z) :
  EnhancedPumpFunMonitor.isStreaming se = true ->
  EnhancedPumpFunMonitor.logsSignature l ∉ EnhancedPumpFunMonitor.processedSignatures se ->
  EnhancedPumpFunMonitor.hasTokenCreation (EnhancedPumpFunMonitor.logLines l) = true ->
  List.length (EnhancedPumpFunMonitor.tokenQueue se) = EnhancedPumpFunMonitor.maxQueueSize ->
  signature params ∉ ComprehensivePumpMonitor.processedSignatures sc ->
  ComprehensivePumpMonitor.isRealTokenCreation (logs params) = true ->
  List.length (ComprehensivePumpMonitor.tokenQueue sc) = ComprehensivePumpMonitor.maxQueueSize ->
  (let se' := EnhancedPumpFunMonitor.handlePumpFunLog se l contextSlot nowe in
   EnhancedPumpFunMonitor.tokenQueue se' = EnhancedPumpFunMonitor.tokenQueue se
   /\ EnhancedPumpFunMonitor.skipped (EnhancedPumpFunMonitor.stats se')
      = EnhancedPumpFunMonitor.skipped (EnhancedPumpFunMonitor.stats se) + 1
   /\ EnhancedPumpFunMonitor.queued (EnhancedPumpFunMonitor.stats se')
      = EnhancedPumpFunMonitor.queued (EnhancedPumpFunMonitor.stats se))
  /\ (let sc' := ComprehensivePumpMonitor.processTokenCreation sc params nowc in
      ComprehensivePumpMonitor.tokenQueue sc' = ComprehensivePumpMonitor.tokenQueue sc
      /\ ComprehensivePumpMonitor.stats sc'
         = {| ComprehensivePumpMonitor.detected :=
                ComprehensivePumpMonitor.detected (ComprehensivePumpMonitor.stats sc) + 1;
              ComprehensivePumpMonitor.analyzed :=
                ComprehensivePumpMonitor.analyzed (ComprehensivePumpMonitor.stats sc) |}
      /\ (signature params ∈ ComprehensivePumpMonitor.processedSignatures sc')).
Proof.
  intros Hs Hn Hc Hl Hn' Hc' Hl'. cbv zeta. split.
  - destruct (handlePumpFunLog_full se l contextSlot nowe Hs Hn Hc Hl) as (H1 & H2 & H3 & _).
    auto.
  - unfold ComprehensivePumpMonitor.processTokenCreation.
    rewrite bool_decide_eq_false_2 by exact Hn'. rewrite Hc'. cbn [negb].
    rewrite Hl', Nat.ltb_irrefl. cbn. repeat split. set_solver.
Qed.

Lemma C9_witness :
  (let se' :=
     EnhancedPumpFunMonitor.handlePumpFunLog Examples.enhancedFull (Examples.mintLogs 101)
       312000000 101 in
   EnhancedPumpFunMonitor.tokenQueue se'
   = EnhancedPumpFunMonitor.tokenQueue Examples.enhancedFull
   /\ EnhancedPumpFunMonitor.skipped (EnhancedPumpFunMonitor.stats se')
      = EnhancedPumpFunMonitor.skipped (EnhancedPumpFunMonitor.stats Examples.enhancedFull) + 1
   /\ EnhancedPumpFunMonitor.queued (EnhancedPumpFunMonitor.stats se')
      = EnhancedPumpFunMonitor.queued (EnhancedPumpFunMonitor.stats Examples.enhancedFull))
  /\ (let sc' :=
        ComprehensivePumpMonitor.processTokenCreation Examples.comprehensiveFull
          (Examples.creation "7") 7000 in
      ComprehensivePumpMonitor.tokenQueue sc'
      = ComprehensivePumpMonitor.tokenQueue Examples.comprehensiveFull
      /\ ComprehensivePumpMonitor.stats sc'
         = {| ComprehensivePumpMonitor.detected :=
                ComprehensivePumpMonitor.detected
                  (ComprehensivePumpMonitor.stats Examples.comprehensiveFull) + 1;
              ComprehensivePumpMonitor.analyzed :=
                ComprehensivePumpMonitor.analyzed
                  (ComprehensivePumpMonitor.stats Examples.comprehensiveFull) |}
      /\ ("7"%string ∈ ComprehensivePumpMonitor.processedSignatures sc')).
Proof.
  apply (C9_detection_dropped_when_full Examples.enhancedFull (Examples.mintLogs 101)
           312000000 101 Examples.comprehensiveFull (Examples.creation "7") 7000);
    try (vm_compute; reflexivity);
    match goal with
    | |- ?x ∉ ?X => apply (bool_decide_eq_false_1 (x ∈ X)); vm_compute; reflexivity
    end.
Defined.

(** C10.  In every reachable state of the comprehensive and of the
    optimized monitor, the events that have entered the queue carry
    pairwise distinct signatures, each of them recorded in the processed
    set, and the queue holds only such events; a notification whose
    signature is already recorded changes nothing, whatever its logs; and
    the first matching notification of a signature records it. *)
Theorem C10_one_event_per_signature
    (rc : Run ComprehensivePumpMonitor.State) (ro : Run OptimizedPumpMonitor.State) :
  ComprehensivePumpMonitor.reachable rc ->
  OptimizedPumpMonitor.reachable ro ->
  (NoDup (List.map eventSignature (entered rc))
   /\ (forall e, In e (entered rc) ->
         (eventSignature e ∈ ComprehensivePumpMonitor.processedSignatures (object rc)))
   /\ (forall e, In e (ComprehensivePumpMonitor.tokenQueue (object rc)) -> In e (entered rc))
   /\ (forall params now,
         (signature params ∈ ComprehensivePumpMonitor.processedSignatures (object rc)) ->
         ComprehensivePumpMonitor.processTokenCreation (object rc) params now = object rc)
   /\ (forall params now,
         ComprehensivePumpMonitor.isRealTokenCreation (logs params) = true ->
         (signature params
            ∈ ComprehensivePumpMonitor.processedSignatures
                (ComprehensivePumpMonitor.processTokenCreation (object rc) params now)))
   /\ (forall ev rc',
         ComprehensivePumpMonitor.fire rc ev = Some rc' ->
         (ComprehensivePumpMonitor.processedSignatures (object rc)
            ⊆ ComprehensivePumpMonitor.processedSignatures (object rc'))))
  /\ (NoDup (List.map eventSignature (entered ro))
      /\ (forall e, In e (entered ro) ->
            (eventSignature e ∈ OptimizedPumpMonitor.processedSignatures (object ro)))
      /\ (forall e, In e (OptimizedPumpMonitor.tokenQueue (object ro)) -> In e (entered ro))
      /\ (forall params now,
            (signature params ∈ OptimizedPumpMonitor.processedSignatures (object ro)) ->
            OptimizedPumpMonitor.processLogEvent (object ro) params now = object ro)
      /\ (forall params now,
            OptimizedPumpMonitor.isActualTokenCreation (logs params) = true ->
            (signature params
               ∈ OptimizedPumpMonitor.processedSignatures
                   (OptimizedPumpMonitor.processLogEvent (object ro) params now)))
      /\ (forall ev ro',
            OptimizedPumpMonitor.fire ro ev = Some ro' ->
            (OptimizedPumpMonitor.processedSignatures (object ro)
               ⊆ OptimizedPumpMonitor.processedSignatures (object ro')))).
Proof.
  intros Hc Ho. split.
  - destruct (comprehensive_entered_once rc Hc) as (H1 & H2 & H3).
    split; [exact H1|]. split; [exact H2|]. split; [exact H3|]. split.
    + intros params now Hin. unfold ComprehensivePumpMonitor.processTokenCreation.
      rewrite bool_decide_eq_true_2 by exact Hin. reflexivity.
    + split.
      * intros params now Hm. unfold ComprehensivePumpMonitor.processTokenCreation.
        destruct (bool_decide _) eqn:Hd; [apply bool_decide_eq_true in Hd; exact Hd|].
        rewrite Hm. cbn. set_solver.
      * intros ev rc'. apply comprehensive_processed_grows.
  - destruct (optimized_entered_once ro Ho) as (H1 & H2 & H3).
    split; [exact H1|]. split; [exact H2|]. split; [exact H3|]. split.
    + intros params now Hin. unfold OptimizedPumpMonitor.processLogEvent.
      rewrite bool_decide_eq_true_2 by exact Hin. reflexivity.
    + split.
      * intros params now Hm. unfold OptimizedPumpMonitor.processLogEvent.
        destruct (bool_decide _) eqn:Hd; [apply bool_decide_eq_true in Hd; exact Hd|].
        rewrite Hm. cbn. set_solver.
      * intros ev ro'. apply optimized_processed_grows.
Qed.

Lemma C10_witness :
  NoDup (List.map eventSignature (entered (ComprehensivePumpMonitor.play Examples.replayed)))
  /\ NoDup (List.map eventSignature (entered (OptimizedPumpMonitor.play Examples.replayed))).
Proof.
  pose proof (C10_one_event_per_signature
                (ComprehensivePumpMonitor.play Examples.replayed)
                (OptimizedPumpMonitor.play Examples.replayed)
                (play_reachable _ _ _ _ _ _ Examples.replayed)
                (play_reachable _ _ _ _ _ _ Examples.replayed)) as [Hc Ho].
  split; [exact (proj1 Hc)|exact (proj1 Ho)].
Defined.

End MonitorClaims.
(** * Further properties: the liquidity analysis and the reports *)

Section LiquidityFacts.
Import LiquidityAnalyzer.

Lemma pools_push (holders : list LargestHolder) (acc : list Pool) :
  fold_left (fun pools holder =>
               match analyzeHolderForPool holder with
               | Some poolCandidate => pools ++ [poolCandidate]
               | None => pools
               end) holders acc
  = acc ++ omap analyzeHolderForPool holders.
Proof.
  revert acc. induction holders as [|h hs IH]; intros acc; cbn.
  - now rewrite app_nil_r.
  - rewrite IH. destruct (analyzeHolderForPool h); [now rewrite <- app_assoc|reflexivity].
Qed.

Lemma findLiquidityPools_lpMint (largestHolders : Outcome (list LargestHolder)) :
  Forall (fun pool => lpMint pool = None) (findLiquidityPools largestHolders).
Proof.
  destruct largestHolders as [msg|holders]; cbn; [constructor|].
  rewrite pools_push. cbn. induction holders as [|h hs IH]; cbn; [constructor|].
  destruct (analyzeHolderForPool h) as [p|] eqn:E; [|exact IH].
  constructor; [|exact IH].
  unfold analyzeHolderForPool in E.
  destruct (accountInfo h) as [|[info|]]; try discriminate.
  destruct (isDEXAccount _); [|discriminate]. now injection E as <-.
Qed.

Lemma analyzePoolSecurity_estimated (lp : string -> LpObserved) (pool : Pool) :
  lpMint pool = None ->
  securityStatus (analyzePoolSecurity lp pool) = Some ESTIMATED
  /\ securedPercentage (analyzePoolSecurity lp pool) = Some (Finite 50).
Proof. intros H. unfold analyzePoolSecurity. rewrite H. split; reflexivity. Qed.

Lemma addPool_estimated (lp : string -> LpObserved) (found : list Pool) (s : Q) (n : nat) :
  Forall (fun pool => lpMint pool = None) found ->
  exists s',
    fold_left addPool (List.map (analyzePoolSecurity lp) found) (Finite s, n)
    = (Finite s', (n + List.length found)%nat)
    /\ (s' == s + 50 * inject_Z (Z.of_nat (List.length found)))%Q.
Proof.
  intros H. revert s n. induction H as [|p ps Hp _ IH]; intros s n; cbn [List.map fold_left].
  - exists s. split; [now rewrite Nat.add_0_r|]. cbn. ring.
  - destruct (analyzePoolSecurity_estimated lp p Hp) as [_ Hsec].
    unfold addPool at 2. rewrite Hsec. cbn [fst snd plus].
    destruct (IH (s + 50)%Q (S n)) as (s' & -> & Hs'). exists s'. split.
    + f_equal. cbn. lia.
    + rewrite Hs'. cbn [List.length]. rewrite Nat2Z.inj_succ, <- Z.add_1_r, inject_Z_plus.
      ring.
Qed.

Lemma fifty_is_poor (q : Q) :
  (q == 50)%Q ->
  getSecurityStatus (Finite q) = POOR
  /\ lt (Finite q) 30 = false /\ lt (Finite q) 60 = true.
Proof.
  intros H. unfold getSecurityStatus, ge, lt.
  assert (Qle_bool 95 q = false) as ->.
  { apply not_true_is_false. rewrite Qle_bool_iff, H. unfold Qle; cbn; lia. }
  assert (Qle_bool 80 q = false) as ->.
  { apply not_true_is_false. rewrite Qle_bool_iff, H. unfold Qle; cbn; lia. }
  assert (Qle_bool 60 q = false) as ->.
  { apply not_true_is_false. rewrite Qle_bool_iff, H. unfold Qle; cbn; lia. }
  assert (Qle_bool 30 q = true) as ->.
  { rewrite Qle_bool_iff, H. unfold Qle; cbn; lia. }
  auto.
Qed.

Lemma analyzeLiquidity_cases
    (largestHolders : Outcome (list LargestHolder)) (lp : string -> LpObserved) :
  (pools (analyzeLiquidity largestHolders lp) = []
   /\ overallStatus (analyzeLiquidity largestHolders lp) = NO_LIQUIDITY
   /\ overallSecured (analyzeLiquidity largestHolders lp) = Finite 0
   /\ riskFactors (analyzeLiquidity largestHolders lp)
      = ["🔴 No liquidity pools detected"%string]
   /\ warnings (analyzeLiquidity largestHolders lp) = [])
  \/ (pools (analyzeLiquidity largestHolders lp) <> []
      /\ Forall (fun pool => securityStatus pool = Some ESTIMATED
                             /\ securedPercentage pool = Some (Finite 50))
                (pools (analyzeLiquidity largestHolders lp))
      /\ overallStatus (analyzeLiquidity largestHolders lp) = POOR
      /\ (exists q, overallSecured (analyzeLiquidity largestHolders lp) = Finite q
                    /\ (q == 50)%Q)
      /\ riskFactors (analyzeLiquidity largestHolders lp) = []
      /\ In "🟡 Moderate liquidity security - Some rug pull risk"%string
            (warnings (analyzeLiquidity largestHolders lp))
      /\ lpProviders (analyzeLiquidity largestHolders lp)
         = List.length (pools (analyzeLiquidity largestHolders lp))).
Proof.
  unfold analyzeLiquidity.
  pose proof (findLiquidityPools_lpMint largestHolders) as Hnull.
  destruct (findLiquidityPools largestHolders) as [|p ps] eqn:Hfound.
  - left. repeat split; reflexivity.
  - right.
    destruct (addPool_estimated lp (p :: ps) 0 0 Hnull) as (s & Hfold & Hs).
    set (found := p :: ps) in *.
    assert (Hlen : (0 < List.length found)%nat) by (cbn; lia).
    assert (Hmap : List.map (analyzePoolSecurity lp) found <> []) by (cbn; discriminate).
    unfold calculateOverallMetrics. cbn [pools].
    destruct (List.map (analyzePoolSecurity lp) found) as [|p' ps'] eqn:Hm;
      [now destruct Hmap|]. rewrite <- Hm in *. clear Hm p' ps'.
    rewrite Hfold. cbn [fst snd]. rewrite Nat.add_0_l.
    apply Nat.ltb_lt in Hlen as Hlen'. rewrite Hlen'. cbn [over].
    set (q := (s / inject_Z (Z.of_nat (List.length found)))%Q).
    assert (Hq : (q == 50)%Q).
    { unfold q. rewrite Hs. field.
      intros H0. unfold Qeq in H0. cbn in H0. lia. }
    destruct (fifty_is_poor q Hq) as (Hstatus & Hlt30 & Hlt60).
    unfold assessLiquidityRisks.
    cbn [pools overallStatus overallSecured riskFactors warnings lpProviders].
    rewrite Hstatus, Hlt30, Hlt60, length_map.
    repeat split.
    + exact Hmap.
    + apply Forall_map. eapply Forall_impl; [exact Hnull|].
      intros pool Hp. now apply analyzePoolSecurity_estimated.
    + exists q. auto.
    + destruct (List.length found) as [|[|n]]; [lia| |]; reflexivity.
    + destruct (List.length found =? 1)%nat; destruct (List.length found <? 3)%nat;
        cbn; auto.
Qed.

(** X1. Whatever the chain answers, [analyzeLiquidity] reports one of two
    results.  When no holder account is owned by a known DEX program the
    status is [NO_LIQUIDITY] with 0% secured.  Otherwise every pool is
    built with [lpMint: null], its security is the fixed estimate, and the
    analysis reports 50% secured, status [POOR], no risk factor and the
    moderate-security warning: the statuses [EXCELLENT], [GOOD],
    [MODERATE], [DANGEROUS] and [ERROR] are never reported. *)
Theorem liquidity_is_none_or_estimated_poor
    (largestHolders : Outcome (list LargestHolder)) (lp : string -> LpObserved) :
  (pools (analyzeLiquidity largestHolders lp) = []
   /\ overallStatus (analyzeLiquidity largestHolders lp) = NO_LIQUIDITY
   /\ overallSecured (analyzeLiquidity largestHolders lp) = Finite 0
   /\ riskFactors (analyzeLiquidity largestHolders lp)
      = ["🔴 No liquidity pools detected"%string]
   /\ warnings (analyzeLiquidity largestHolders lp) = [])
  \/ (pools (analyzeLiquidity largestHolders lp) <> []
      /\ Forall (fun pool => securityStatus pool = Some ESTIMATED
                             /\ securedPercentage pool = Some (Finite 50))
                (pools (analyzeLiquidity largestHolders lp))
      /\ overallStatus (analyzeLiquidity largestHolders lp) = POOR
      /\ (exists q, overallSecured (analyzeLiquidity largestHolders lp) = Finite q
                    /\ (q == 50)%Q)
      /\ riskFactors (analyzeLiquidity largestHolders lp) = []
      /\ In "🟡 Moderate liquidity security - Some rug pull risk"%string
            (warnings (analyzeLiquidity largestHolders lp))
      /\ lpProviders (analyzeLiquidity largestHolders lp)
         = List.length (pools (analyzeLiquidity largestHolders lp))).
Proof. exact (analyzeLiquidity_cases largestHolders lp). Qed.

End LiquidityFacts.

Section ReportFacts.

Lemma distinct_fold (values seen : list string) :
  NoDup seen ->
  NoDup (fold_left (fun seen value =>
                      if bool_decide (value ∈ seen) then seen else seen ++ [value])
                   values seen)
  /\ (forall x,
        In x (fold_left (fun seen value =>
                           if bool_decide (value ∈ seen) then seen else seen ++ [value])
                        values seen)
        <-> In x seen \/ In x values)
  /\ exists added,
       fold_left (fun seen value =>
                    if bool_decide (value ∈ seen) then seen else seen ++ [value])
                 values seen = seen ++ added
       /\ sublist added values.
Proof.
  revert seen. induction values as [|v vs IH]; intros seen Hnd; cbn [fold_left].
  - split; [exact Hnd|]. split; [intros x; cbn; tauto|].
    exists []. split; [now rewrite app_nil_r|constructor].
  - destruct (bool_decide (v ∈ seen)) eqn:E.
    + apply bool_decide_eq_true in E. destruct (IH seen Hnd) as (H1 & H2 & added & H3 & H4).
      split; [exact H1|]. split.
      * intros x. rewrite H2. cbn. split; [tauto|].
        intros [H|[<-|H]]; auto. left. now apply list_elem_of_In.
      * exists added. split; [exact H3|]. now constructor.
    + apply bool_decide_eq_false in E.
      assert (Hnd' : NoDup (seen ++ [v])).
      { apply NoDup_app. split; [exact Hnd|]. split.
        - intros x Hx Hx'. apply list_elem_of_singleton in Hx'. now subst.
        - apply NoDup_singleton. }
      destruct (IH (seen ++ [v]) Hnd') as (H1 & H2 & added & H3 & H4).
      split; [exact H1|]. split.
      * intros x. rewrite H2, in_app_iff. cbn. tauto.
      * exists (v :: added). split; [now rewrite H3, <- app_assoc|]. now constructor.
Qed.

Lemma distinct_spec (values : list string) :
  NoDup (JsArray.distinct values)
  /\ (forall x, In x (JsArray.distinct values) <-> In x values)
  /\ sublist (JsArray.distinct values) values.
Proof.
  destruct (distinct_fold values [] (NoDup_nil_2 (A:=string))) as (H1 & H2 & added & H3 & H4).
  unfold JsArray.distinct. split; [exact H1|]. split.
  - intros x. rewrite H2. cbn. tauto.
  - rewrite H3. exact H4.
Qed.

(** Where a value stands in [[...new Set(values)]]: before it stand the
    distinct values that occur before its first occurrence. *)
Lemma distinct_first_occurrence (values before after : list string) (x : string) :
  JsArray.distinct values = before ++ x :: after ->
  exists earlier later,
    values = earlier ++ x :: later
    /\ ~ In x earlier
    /\ before = JsArray.distinct earlier.
Proof.
  intros Hsplit.
  destruct (distinct_spec values) as (Hnd & Hmem & _).
  assert (Hin : In x values).
  { apply Hmem. rewrite Hsplit. apply in_elt. }
  apply list_elem_of_In, list_elem_of_split_l in Hin as (earlier & later & -> & Hfirst).
  exists earlier, later. split; [reflexivity|].
  assert (Hfirst' : ~ In x earlier) by (intros H; apply Hfirst; now apply list_elem_of_In).
  split; [exact Hfirst'|].
  destruct (distinct_spec earlier) as (Hnd1 & Hmem1 & _).
  assert (Hnew : x ∉ JsArray.distinct earlier).
  { intros H. apply Hfirst'. apply Hmem1. now apply list_elem_of_In. }
  assert (Hnd2 : NoDup (JsArray.distinct earlier ++ [x])).
  { apply NoDup_app. split; [exact Hnd1|]. split.
    - intros y Hy Hy'. apply list_elem_of_singleton in Hy'. now subst.
    - apply NoDup_singleton. }
  destruct (distinct_fold later (JsArray.distinct earlier ++ [x]) Hnd2)
    as (_ & _ & added & Hfold & _).
  assert (Hd : JsArray.distinct (earlier ++ x :: later)
               = JsArray.distinct earlier ++ x :: added).
  { unfold JsArray.distinct at 1. rewrite fold_left_app. cbn [fold_left].
    fold (JsArray.distinct earlier).
    rewrite (bool_decide_eq_false_2 _ Hnew), Hfold, <- app_assoc. reflexivity. }
  rewrite Hd in Hsplit, Hnd.
  apply NoDup_ListNoDup in Hnd.
  pose proof (NoDup_remove_2 _ _ _ Hnd) as Hx. rewrite in_app_iff in Hx.
  symmetry in Hsplit.
  destruct (app_inj_pivot _ _ _ _ _ Hsplit) as [[[H1 H2]|[H1 H2]]|[H1 _]].
  - exfalso. apply Hx. now right.
  - exfalso. apply Hx. now left.
  - exact H1.
Qed.

(** X2. [collectIssues] and [collectWarnings] list every issue (warning)
    of every check and of the liquidity analysis exactly once, in the order
    of first occurrence: the result has no duplicates and holds exactly the
    texts that some check or the liquidity analysis reported; and wherever
    a text stands in the result, the texts before it are the distinct texts
    reported before its first occurrence, the checks taken in their order
    and the liquidity analysis last. *)
Theorem collected_texts_listed_once (analysis : ComprehensiveAnalysis.Analysis) :
  NoDup (ComprehensiveAnalysis.collectIssues analysis)
  /\ (forall text,
        In text (ComprehensiveAnalysis.collectIssues analysis)
        <-> (exists name check,
               In (name, check) (TokenAnalyzer.checks (ComprehensiveAnalysis.token analysis))
               /\ In text (TokenAnalyzer.issues check))
            \/ In text (LiquidityAnalyzer.riskFactors
                          (ComprehensiveAnalysis.liquidity analysis)))
  /\ sublist (ComprehensiveAnalysis.collectIssues analysis)
       (flat_map (fun entry => TokenAnalyzer.issues (snd entry))
                 (TokenAnalyzer.checks (ComprehensiveAnalysis.token analysis))
        ++ LiquidityAnalyzer.riskFactors (ComprehensiveAnalysis.liquidity analysis))
  /\ (forall before text after,
        ComprehensiveAnalysis.collectIssues analysis = before ++ text :: after ->
        exists earlier later,
          flat_map (fun entry => TokenAnalyzer.issues (snd entry))
                   (TokenAnalyzer.checks (ComprehensiveAnalysis.token analysis))
          ++ LiquidityAnalyzer.riskFactors (ComprehensiveAnalysis.liquidity analysis)
          = earlier ++ text :: later
          /\ ~ In text earlier
          /\ before = JsArray.distinct earlier)
  /\ NoDup (ComprehensiveAnalysis.collectWarnings analysis)
  /\ (forall text,
        In text (ComprehensiveAnalysis.collectWarnings analysis)
        <-> (exists name check,
               In (name, check) (TokenAnalyzer.checks (ComprehensiveAnalysis.token analysis))
               /\ In text (TokenAnalyzer.warnings check))
            \/ In text (LiquidityAnalyzer.warnings
                          (ComprehensiveAnalysis.liquidity analysis)))
  /\ sublist (ComprehensiveAnalysis.collectWarnings analysis)
       (flat_map (fun entry => TokenAnalyzer.warnings (snd entry))
                 (TokenAnalyzer.checks (ComprehensiveAnalysis.token analysis))
        ++ LiquidityAnalyzer.warnings (ComprehensiveAnalysis.liquidity analysis))
  /\ (forall before text after,
        ComprehensiveAnalysis.collectWarnings analysis = before ++ text :: after ->
        exists earlier later,
          flat_map (fun entry => TokenAnalyzer.warnings (snd entry))
                   (TokenAnalyzer.checks (ComprehensiveAnalysis.token analysis))
          ++ LiquidityAnalyzer.warnings (ComprehensiveAnalysis.liquidity analysis)
          = earlier ++ text :: later
          /\ ~ In text earlier
          /\ before = JsArray.distinct earlier).
Proof.
  unfold ComprehensiveAnalysis.collectIssues, ComprehensiveAnalysis.collectWarnings.
  match goal with
  | |- NoDup (JsArray.distinct ?l) /\ _ =>
      destruct (distinct_spec l) as (Hi1 & Hi2 & Hi3);
      pose proof (distinct_first_occurrence l) as Hi4
  end.
  match goal with
  | |- _ /\ _ /\ _ /\ _ /\ NoDup (JsArray.distinct ?l) /\ _ =>
      destruct (distinct_spec l) as (Hw1 & Hw2 & Hw3);
      pose proof (distinct_first_occurrence l) as Hw4
  end.
  split; [exact Hi1|]. split.
  { intros text. rewrite Hi2, in_app_iff, in_flat_map. split.
    + intros [([name check] & H1 & H2)|H]; [left; exists name, check; auto|now right].
    + intros [(name & check & H1 & H2)|H]; [left; exists (name, check); auto|now right]. }
  split; [exact Hi3|]. split; [intros before text after; apply Hi4|].
  split; [exact Hw1|]. split.
  { intros text. rewrite Hw2, in_app_iff, in_flat_map. split.
    + intros [([name check] & H1 & H2)|H]; [left; exists name, check; auto|now right].
    + intros [(name & check & H1 & H2)|H]; [left; exists (name, check); auto|now right]. }
  split; [exact Hw3|intros before text after; apply Hw4].
Qed.

(** X3. The monitor's final verdict reads the risk score with the opposite
    polarity to the analyzer that produced it.  For every analysis
    [analyzeToken] returns: the verdict is the do-not-trade line exactly
    when the analyzer's own safety level is [SAFE] (score 80 or more), and
    whenever the verdict is one of the two reassuring lines (score below
    40) the analyzer's safety level is [DANGEROUS]. *)
Theorem final_verdict_inverts_safety_level
    (o : TokenAnalyzer.Observed) (options : TokenAnalyzer.Options)
    (liquidity : LiquidityAnalyzer.Analysis) :
  exists analysis,
    TokenAnalyzer.analyzeToken o options = Returned analysis
    /\ (ComprehensiveAnalysis.verdict
          (ComprehensiveAnalysis.getFinalRecommendation
             {| ComprehensiveAnalysis.token := analysis;
                ComprehensiveAnalysis.liquidity := liquidity |})
        = "🚨 DO NOT TRADE - Multiple critical security flaws"%string
        <-> TokenAnalyzer.safetyLevel analysis = TokenAnalyzer.SAFE)
    /\ (ComprehensiveAnalysis.verdict
          (ComprehensiveAnalysis.getFinalRecommendation
             {| ComprehensiveAnalysis.token := analysis;
                ComprehensiveAnalysis.liquidity := liquidity |})
        = "✅ RELATIVELY SAFE - Always DYOR"%string
        \/ ComprehensiveAnalysis.verdict
             (ComprehensiveAnalysis.getFinalRecommendation
                {| ComprehensiveAnalysis.token := analysis;
                   ComprehensiveAnalysis.liquidity := liquidity |})
           = "✅ APPEARS SECURE - Good security practices"%string
        <-> TokenAnalyzer.safetyLevel analysis = TokenAnalyzer.DANGEROUS).
Proof.
  eexists. split; [reflexivity|].
  cbn [ComprehensiveAnalysis.getFinalRecommendation ComprehensiveAnalysis.verdict
       ComprehensiveAnalysis.token TokenAnalyzer.riskScore TokenAnalyzer.safetyLevel].
  unfold ComprehensiveAnalysis.getFinalRecommendation.
  cbn [ComprehensiveAnalysis.verdict ComprehensiveAnalysis.token TokenAnalyzer.riskScore].
  set (s := TokenAnalyzer.calculateRiskScore _).
  unfold TokenAnalyzer.getSafetyLevel.
  destruct (80 <=? s) eqn:E80; [split; split; try tauto; try discriminate;
                                 intros [H|H]; discriminate H|].
  destruct (60 <=? s) eqn:E60; [split; split; try discriminate;
                                 intros [H|H]; discriminate H|].
  destruct (40 <=? s) eqn:E40; [split; split; try discriminate;
                                 intros [H|H]; discriminate H|].
  destruct (20 <=? s) eqn:E20; split; split; try discriminate; auto.
Qed.

End ReportFacts.

Section ValidatorFacts.
Import EnhancedSolanaTokenValidator.

(** X4. The enhanced risk score of the command-line validator.  An invalid
    address is refused.  For a valid one [analyzeToken] returns, and the
    liquidity analysis can only raise the score: without a detected pool
    the enhanced score is the analyzer's score (50 if that is 0), with one
    it is that value plus 20, capped at 100; the 15-point reduction for
    [EXCELLENT] liquidity is never applied.  Since the validator's labels
    read a high score as dangerous, a token that the analyzer rates
    [SAFE] is printed as extremely dangerous with the do-not-trade line. *)
Theorem enhanced_risk_only_raised
    (mintAddress : string) (checks : TokenAnalyzer.Observed)
    (largestHolders : Outcome (list LiquidityAnalyzer.LargestHolder))
    (lp : string -> LiquidityAnalyzer.LpObserved) :
  analyzeToken mintAddress false checks largestHolders lp
  = Threw ("Invalid token address: " ++ mintAddress)%string
  /\ exists analysis,
       analyzeToken mintAddress true checks largestHolders lp = Returned analysis
       /\ TokenAnalyzer.analyzeToken checks allOptions = Returned (token analysis)
       /\ liquidity analysis = LiquidityAnalyzer.analyzeLiquidity largestHolders lp
       /\ enhancedRiskScore analysis
          = (if Nat.eqb (List.length (LiquidityAnalyzer.pools (liquidity analysis))) 0
             then orElse (TokenAnalyzer.riskScore (token analysis)) 50
             else Z.min 100 (orElse (TokenAnalyzer.riskScore (token analysis)) 50 + 20))
       /\ TokenAnalyzer.riskScore (token analysis) <= enhancedRiskScore analysis <= 100
       /\ (TokenAnalyzer.safetyLevel (token analysis) = TokenAnalyzer.SAFE ->
           getSafetyLevel (printedScore analysis) = "🔴 EXTREMELY DANGEROUS"%string
           /\ getFinalRecommendation (printedScore analysis)
              = "🚨 DO NOT TRADE - Multiple critical security flaws detected"%string).
Proof.
  split; [reflexivity|].
  destruct (analyzeToken_riskScore_range checks allOptions) as (tok & Htok & Hrange).
  unfold analyzeToken. cbn [negb]. rewrite Htok.
  eexists. split; [reflexivity|]. cbn [token liquidity enhancedRiskScore].
  split; [reflexivity|]. split; [reflexivity|].
  assert (Hsafe : TokenAnalyzer.safetyLevel tok
                  = TokenAnalyzer.getSafetyLevel (TokenAnalyzer.riskScore tok)).
  { unfold TokenAnalyzer.analyzeToken in Htok. now injection Htok as <-. }
  set (s := TokenAnalyzer.riskScore tok) in *.
  assert (Hbase : 0 <= orElse s 50 <= 100 /\ s <= orElse s 50).
  { unfold orElse. destruct (s =? 0) eqn:E; lia. }
  assert (Henh : calculateEnhancedRisk tok (LiquidityAnalyzer.analyzeLiquidity largestHolders lp)
                 = if Nat.eqb (List.length (LiquidityAnalyzer.pools
                                 (LiquidityAnalyzer.analyzeLiquidity largestHolders lp))) 0
                   then orElse s 50 else Z.min 100 (orElse s 50 + 20)).
  { unfold calculateEnhancedRisk. fold s.
    destruct (analyzeLiquidity_cases largestHolders lp)
      as [(Hp & Hst & _)|(Hp & _ & Hst & _)]; rewrite Hst.
    - rewrite Hp. cbn. lia.
    - destruct (LiquidityAnalyzer.pools _) as [|p ps]; [now destruct Hp|]. cbn. lia. }
  rewrite Henh. split; [reflexivity|].
  assert (Hle : s <= (if Nat.eqb (List.length (LiquidityAnalyzer.pools
                                 (LiquidityAnalyzer.analyzeLiquidity largestHolders lp))) 0
                      then orElse s 50 else Z.min 100 (orElse s 50 + 20)) <= 100).
  { destruct (Nat.eqb _ 0); lia. }
  split; [exact Hle|].
  intros Hs. rewrite Hsafe in Hs.
  apply getSafetyLevel_bands in Hs.
  unfold printedScore. cbn [enhancedRiskScore token]. fold s.
  set (e := if Nat.eqb _ 0 then _ else _) in *.
  assert (He : 80 <= orElse e s).
  { unfold orElse. destruct (e =? 0); lia. }
  unfold getSafetyLevel, getFinalRecommendation.
  apply Z.leb_le in He. rewrite He. split; reflexivity.
Qed.

End ValidatorFacts.

(** ** Scenario 2 and the two step functions *)
Section Scenario2Verdict.
Import SolanaService TokenAnalyzer.

(** The step function of the validator ([index.js]), which labels the
    score it prints. *)
Lemma validator_getSafetyLevel_bands (s : Z) :
  (EnhancedSolanaTokenValidator.getSafetyLevel s = "🔴 EXTREMELY DANGEROUS"%string
   <-> 80 <= s)
  /\ (EnhancedSolanaTokenValidator.getSafetyLevel s = "🟠 HIGH RISK"%string <-> 60 <= s < 80)
  /\ (EnhancedSolanaTokenValidator.getSafetyLevel s = "🟡 MODERATE RISK"%string
      <-> 40 <= s < 60)
  /\ (EnhancedSolanaTokenValidator.getSafetyLevel s = "🟢 LOW RISK"%string <-> 20 <= s < 40)
  /\ (EnhancedSolanaTokenValidator.getSafetyLevel s = "✅ APPEARS SAFE"%string <-> s < 20).
Proof.
  unfold EnhancedSolanaTokenValidator.getSafetyLevel.
  destruct (80 <=? s) eqn:H80; [apply Z.leb_le in H80|apply Z.leb_gt in H80];
    (destruct (60 <=? s) eqn:H60; [apply Z.leb_le in H60|apply Z.leb_gt in H60]);
    (destruct (40 <=? s) eqn:H40; [apply Z.leb_le in H40|apply Z.leb_gt in H40]);
    (destruct (20 <=? s) eqn:H20; [apply Z.leb_le in H20|apply Z.leb_gt in H20]);
    repeat split; intros; try discriminate; try lia; try reflexivity.
Qed.

(** The score the validator prints: the analyzer's score, raised by the
    liquidity analysis by at most 20. *)
Lemma printedScore_bounds (tok : Analysis)
    (largestHolders : Outcome (list LiquidityAnalyzer.LargestHolder))
    (lp : string -> LiquidityAnalyzer.LpObserved) :
  0 <= riskScore tok <= 100 ->
  riskScore tok
  <= EnhancedSolanaTokenValidator.printedScore
       {| EnhancedSolanaTokenValidator.token := tok;
          EnhancedSolanaTokenValidator.liquidity :=
            LiquidityAnalyzer.analyzeLiquidity largestHolders lp;
          EnhancedSolanaTokenValidator.enhancedRiskScore :=
            EnhancedSolanaTokenValidator.calculateEnhancedRisk tok
              (LiquidityAnalyzer.analyzeLiquidity largestHolders lp) |}
  <= Z.max 50 (riskScore tok) + 20.
Proof.
  intros Hs.
  unfold EnhancedSolanaTokenValidator.printedScore,
    EnhancedSolanaTokenValidator.calculateEnhancedRisk.
  cbn [EnhancedSolanaTokenValidator.enhancedRiskScore EnhancedSolanaTokenValidator.token].
  set (s := riskScore tok) in *.
  assert (Hbase : s <= EnhancedSolanaTokenValidator.orElse s 50 <= Z.max 50 s
                  /\ 1 <= EnhancedSolanaTokenValidator.orElse s 50).
  { unfold EnhancedSolanaTokenValidator.orElse. destruct (s =? 0) eqn:E; lia. }
  set (base := EnhancedSolanaTokenValidator.orElse s 50) in *.
  destruct (analyzeLiquidity_cases largestHolders lp)
    as [(_ & Hst & _)|(_ & _ & Hst & _)]; rewrite Hst;
    unfold EnhancedSolanaTokenValidator.orElse;
    match goal with |- context [?e =? 0] => destruct (e =? 0) eqn:E end; lia.
Qed.

(** C2, as stated, fails: with the freeze authority active, a foreign
    owning program and the top holder at 70%, and nothing else wrong, the
    analysis reports riskScore 57 and its own level "RISKY"; the validator
    finds no liquidity pool among the two holders, prints the same 57 and
    labels it "MODERATE RISK", not "EXTREMELY DANGEROUS". *)
Lemma C2_counterexample :
  let result := analyzeToken Examples.scenario2 Examples.everyCheck in
  let printed :=
    EnhancedSolanaTokenValidator.analyzeToken
      "4k3Dyjzvzp8eMZWUXbBCjEvwSkkk59S5iCNLY3QrkX6R" true Examples.scenario2
      (Returned
         [ {| LiquidityAnalyzer.holderAddress := "7xKXtg2CW87d97TXJSDpbD5jBkheTqA83TZRuJosgAsU";
              LiquidityAnalyzer.uiAmount := Some 700000%Q;
              LiquidityAnalyzer.accountInfo := Returned (Some Examples.wallet) |};
           {| LiquidityAnalyzer.holderAddress := "5Q544fKrFoe6tsEbD7S8EmxGTJYAKtTVhAW5Q5pge4j1";
              LiquidityAnalyzer.uiAmount := Some 100000%Q;
              LiquidityAnalyzer.accountInfo := Returned (Some Examples.wallet) |} ])
      (fun _ => {| LiquidityAnalyzer.lpSupply := Threw "not called";
                   LiquidityAnalyzer.lpHolders := Threw "not called" |}) in
  (Spec.freezeAuthorityActive <$> (checks <$> returned result)) = Some true
  /\ (Spec.nonStandardOwner <$> (checks <$> returned result)) = Some true
  /\ (Spec.topHolderAt 70 <$> (checks <$> returned result)) = Some true
  /\ (riskScore <$> returned result) = Some 57
  /\ (safetyLevel <$> returned result) = Some RISKY
  /\ (EnhancedSolanaTokenValidator.printedScore <$> returned printed) = Some 57
  /\ (EnhancedSolanaTokenValidator.getSafetyLevel
        <$> (EnhancedSolanaTokenValidator.printedScore <$> returned printed))
     = Some "🟡 MODERATE RISK"%string.
Proof. cbv zeta. repeat split; vm_compute; reflexivity. Qed.

(** C2, amended.  For every analysis whose checks report an active freeze
    authority, a non-standard owning program and a top-1 holder
    concentration of 70%, the riskScore the analyzer computes is at most
    70, so it is never at least 80 (nor is the analyzer's own safetyLevel
    that of its band of 80 and above).  The final score the validator
    prints is at least that riskScore and at most 90, and the safety level
    derived from it is the "extremely dangerous" band exactly when that
    final score reaches 80, which the scenario does not force.  The step
    function maps final scores of 80 and above to extremely dangerous,
    60..79 to high risk, 40..59 to moderate risk, 20..39 to low risk and
    scores below 20 to appears safe. *)
Theorem C2_concentrated_frozen_foreign_at_most_70 (o : Observed) (options : Options)
    (mintAddress : string)
    (largestHolders : Outcome (list LiquidityAnalyzer.LargestHolder))
    (lp : string -> LiquidityAnalyzer.LpObserved) :
  Spec.freezeAuthorityActive (runChecks o options) = true ->
  Spec.nonStandardOwner (runChecks o options) = true ->
  Spec.topHolderAt 70 (runChecks o options) = true ->
  (exists a,
     analyzeToken o options = Returned a
     /\ checks a = runChecks o options
     /\ riskScore a <= 70
     /\ safetyLevel a = getSafetyLevel (riskScore a)
     /\ safetyLevel a <> SAFE)
  /\ (exists final,
        EnhancedSolanaTokenValidator.analyzeToken mintAddress true o largestHolders lp
        = Returned final
        /\ riskScore (EnhancedSolanaTokenValidator.token final) <= 70
        /\ riskScore (EnhancedSolanaTokenValidator.token final)
           <= EnhancedSolanaTokenValidator.printedScore final <= 90
        /\ (EnhancedSolanaTokenValidator.getSafetyLevel
              (EnhancedSolanaTokenValidator.printedScore final)
            = "🔴 EXTREMELY DANGEROUS"%string
            <-> 80 <= EnhancedSolanaTokenValidator.printedScore final))
  /\ (forall s,
        (EnhancedSolanaTokenValidator.getSafetyLevel s = "🔴 EXTREMELY DANGEROUS"%string
         <-> 80 <= s)
        /\ (EnhancedSolanaTokenValidator.getSafetyLevel s = "🟠 HIGH RISK"%string
            <-> 60 <= s < 80)
        /\ (EnhancedSolanaTokenValidator.getSafetyLevel s = "🟡 MODERATE RISK"%string
            <-> 40 <= s < 60)
        /\ (EnhancedSolanaTokenValidator.getSafetyLevel s = "🟢 LOW RISK"%string
            <-> 20 <= s < 40)
        /\ (EnhancedSolanaTokenValidator.getSafetyLevel s = "✅ APPEARS SAFE"%string
            <-> s < 20)).
Proof.
  intros Hf Hn Ht.
  apply freezeAuthorityActive_score in Hf. apply nonStandardOwner_score in Hn.
  apply topHolderAt_score in Ht as (He & Hs & Hh); [|reflexivity].
  assert (Hr : calculateRiskScore (runChecks o options) <= 70)
    by (apply riskScore_scenario_bound; auto; lia).
  assert (Hall : calculateRiskScore (runChecks o EnhancedSolanaTokenValidator.allOptions) <= 70)
    by (apply riskScore_scenario_bound; auto; lia).
  split; [|split].
  - eexists. split; [reflexivity|]. cbn [checks riskScore safetyLevel].
    split; [reflexivity|]. split; [exact Hr|]. split; [reflexivity|].
    intros Hsafe.
    apply (getSafetyLevel_bands (calculateRiskScore (runChecks o options))) in Hsafe. lia.
  - destruct (analyzeToken_riskScore_range o EnhancedSolanaTokenValidator.allOptions)
      as (tok & Htok & Hrange).
    assert (Hscore : riskScore tok
                     = calculateRiskScore (runChecks o EnhancedSolanaTokenValidator.allOptions)).
    { unfold analyzeToken in Htok. now injection Htok as <-. }
    unfold EnhancedSolanaTokenValidator.analyzeToken. cbn [negb]. rewrite Htok.
    eexists. split; [reflexivity|].
    pose proof (printedScore_bounds tok largestHolders lp Hrange) as Hp.
    cbn [EnhancedSolanaTokenValidator.token].
    split; [lia|]. split; [lia|].
    apply (validator_getSafetyLevel_bands _).
  - intros s. apply validator_getSafetyLevel_bands.
Qed.

Lemma C2_witness :
  (exists a,
     analyzeToken Examples.scenario2 Examples.everyCheck = Returned a
     /\ riskScore a <= 70
     /\ safetyLevel a <> SAFE)
  /\ exists final,
       EnhancedSolanaTokenValidator.analyzeToken
         "4k3Dyjzvzp8eMZWUXbBCjEvwSkkk59S5iCNLY3QrkX6R" true Examples.scenario2
         (Returned [])
         (fun _ => {| LiquidityAnalyzer.lpSupply := Threw "not called";
                      LiquidityAnalyzer.lpHolders := Threw "not called" |})
       = Returned final
       /\ EnhancedSolanaTokenValidator.printedScore final <= 90.
Proof.
  destruct (C2_concentrated_frozen_foreign_at_most_70
              Examples.scenario2 Examples.everyCheck
              "4k3Dyjzvzp8eMZWUXbBCjEvwSkkk59S5iCNLY3QrkX6R" (Returned [])
              (fun _ => {| LiquidityAnalyzer.lpSupply := Threw "not called";
                           LiquidityAnalyzer.lpHolders := Threw "not called" |}))
    as ((a & Ha & _ & Hr & _ & Hs) & (final & Hfinal & _ & Hp & _) & _);
    [vm_compute; reflexivity|vm_compute; reflexivity|vm_compute; reflexivity|].
  split.
  - exists a. split; [exact Ha|]. split; [exact Hr|exact Hs].
  - exists final. split; [exact Hfinal|]. apply Hp.
Defined.

End Scenario2Verdict.

Section StoredResults.
Import ComprehensiveAnalysis.

Lemma runFullAnalysis_step (stats : Stats) (tokenEvent : TokenEvent) (o : Observed) :
  (List.length (recentResults stats) <= 15)%nat ->
  (recentResults (runFullAnalysis stats tokenEvent o) = recentResults stats
   /\ apiCalls (runFullAnalysis stats tokenEvent o) = apiCalls stats + 1)
  \/ exists r,
       recentResults (runFullAnalysis stats tokenEvent o)
       = r :: firstn 14 (recentResults stats)
       /\ signature r = eventSignature tokenEvent
       /\ extractTokenMint (transaction o) = Some (tokenMint r)
       /\ wellStored r
       /\ apiCalls (runFullAnalysis stats tokenEvent o) = apiCalls stats + 13.
Proof.
  intros Hlen. unfold runFullAnalysis.
  destruct (extractTokenMint (transaction o)) as [[|c m]|]; [left; auto| |left; auto].
  destruct (analyzeToken_riskScore_range (checks o) fullOptions) as (tok & Htok & Hrange).
  rewrite Htok. right. cbn [recentResults apiCalls]. unfold storeResult.
  eexists. split.
  { match goal with
    | |- (if Nat.ltb 15 (List.length (?r :: ?l)) then _ else _) = _ =>
        destruct (Nat.ltb 15 (List.length (r :: l))) eqn:E
    end.
    - apply Nat.ltb_lt in E. cbn [List.length] in E.
      rewrite removelast_firstn_len. cbn [List.length Nat.pred].
      assert (List.length (recentResults stats) = 15%nat) as -> by lia. reflexivity.
    - apply Nat.ltb_ge in E. cbn [List.length] in E.
      rewrite firstn_all2 by lia. reflexivity. }
  split; [reflexivity|]. split; [reflexivity|]. split; [|cbn; lia].
  unfold wellStored. cbn [liquiditySecured safetyLevel riskScore token liquidity].
  split; [|split; [|exact Hrange]].
  - destruct (analyzeLiquidity_cases (largestHolders o) (lp o))
      as [(_ & _ & -> & _)|(_ & _ & _ & (q & -> & Hq) & _)].
    + exists 0%Q. split; [reflexivity|left; reflexivity].
    + exists q. split; [|now right]. unfold orZero.
      destruct (Qeq_bool q 0) eqn:E; [|reflexivity].
      apply Qeq_bool_iff in E. rewrite Hq in E. discriminate E.
  - unfold TokenAnalyzer.analyzeToken in Htok. now injection Htok as <-.
Qed.

(** X5. The monitor's list of recent results.  After any sequence of
    analyses the list holds at most 15 results; each stored result carries
    a risk score between 0 and 100 with the safety level of that score and
    a secured-liquidity figure of 0 or 50.  An analysis that runs to its
    end puts its result at the front, ahead of the 14 newest earlier ones,
    and counts 13 API calls; one that cannot extract the mint leaves the
    list as it is and counts one call. *)
Theorem recent_results_capped (jobs : list (TokenEvent * Observed)) :
  (List.length (recentResults (analysed jobs)) <= 15)%nat
  /\ Forall wellStored (recentResults (analysed jobs))
  /\ forall tokenEvent o,
       (recentResults (runFullAnalysis (analysed jobs) tokenEvent o)
        = recentResults (analysed jobs)
        /\ extractTokenMint (transaction o) = None
        /\ apiCalls (runFullAnalysis (analysed jobs) tokenEvent o)
           = apiCalls (analysed jobs) + 1)
       \/ exists r,
            recentResults (runFullAnalysis (analysed jobs) tokenEvent o)
            = r :: firstn 14 (recentResults (analysed jobs))
            /\ signature r = eventSignature tokenEvent
            /\ extractTokenMint (transaction o) = Some (tokenMint r)
            /\ apiCalls (runFullAnalysis (analysed jobs) tokenEvent o)
               = apiCalls (analysed jobs) + 13.
Proof.
  assert (Hinv : (List.length (recentResults (analysed jobs)) <= 15)%nat
                 /\ Forall wellStored (recentResults (analysed jobs))).
  { unfold analysed.
    assert (Hstart : (List.length (recentResults constructorStats) <= 15)%nat
                     /\ Forall wellStored (recentResults constructorStats))
      by (cbn; split; [lia|constructor]).
    revert Hstart. generalize constructorStats.
    induction jobs as [|[tokenEvent o] jobs IH]; intros stats [Hlen Hall]; [now split|].
    cbn [fold_left fst snd]. apply IH.
    destruct (runFullAnalysis_step stats tokenEvent o Hlen)
      as [[-> _]|(r & -> & _ & _ & Hr & _)]; [now split|].
    split.
    - cbn [List.length]. rewrite length_firstn. lia.
    - constructor; [exact Hr|]. now apply Forall_take. }
  destruct Hinv as [Hlen Hall]. split; [exact Hlen|]. split; [exact Hall|].
  intros tokenEvent o.
  destruct (extractTokenMint (transaction o)) as [m|] eqn:Hm.
  - right.
    destruct (runFullAnalysis_step (analysed jobs) tokenEvent o Hlen)
      as [[H1 H2]|(r & H1 & H2 & H3 & _ & H4)].
    + exfalso. unfold runFullAnalysis in H2. rewrite Hm in H2.
      destruct m as [|c m].
      * unfold extractTokenMint in Hm.
        destruct (transaction o) as [|[[bs|]|]]; try discriminate.
        destruct (List.find _ bs) as [b|] eqn:Hb; [|discriminate].
        apply find_some in Hb as [_ Hb]. cbn in Hm. rewrite Hm in Hb. discriminate.
      * destruct (analyzeToken_riskScore_range (checks o) fullOptions) as (tok & Htok & _).
        rewrite Htok in H2. cbn in H2. lia.
    + exists r. rewrite Hm in H3. auto.
  - left. unfold runFullAnalysis. rewrite Hm. auto.
Qed.

End StoredResults.

(** * Further properties: the aggregate and the honeypot check *)

Section AggregateFacts.
Import TokenAnalyzer.

Lemma sums_permutation (checks checks' : list (string * CheckResult)) :
  Permutation checks checks' ->
  Spec.weightedScores checks = Spec.weightedScores checks'
  /\ Spec.totalWeights checks = Spec.totalWeights checks'.
Proof.
  induction 1 as [|[n r] l l' _ [IH1 IH2]|[n r] [n' r'] l|l l' l'' _ [IH1 IH2] _ [IH3 IH4]].
  - split; reflexivity.
  - rewrite !weightedScores_cons, !totalWeights_cons, IH1, IH2. split; reflexivity.
  - rewrite !weightedScores_cons, !totalWeights_cons. split; lia.
  - split; congruence.
Qed.

Lemma totalWeights_pos (checks : list (string * CheckResult)) :
  (exists n r, In (n, r) checks /\ skipped r = false) -> 0 < Spec.totalWeights checks.
Proof.
  intros (n & r & Hin & Hs).
  induction checks as [|[n' r'] rest IH]; [destruct Hin|].
  rewrite totalWeights_cons. pose proof (totalWeights_nonneg rest).
  destruct Hin as [E|Hin].
  - injection E as -> ->. rewrite Hs. pose proof (weightOf_pos n). lia.
  - specialize (IH Hin). destruct (skipped r'); [lia|].
    pose proof (weightOf_pos n'). lia.
Qed.

Lemma sums_app (l1 l2 : list (string * CheckResult)) :
  Spec.weightedScores (l1 ++ l2) = Spec.weightedScores l1 + Spec.weightedScores l2
  /\ Spec.totalWeights (l1 ++ l2) = Spec.totalWeights l1 + Spec.totalWeights l2.
Proof.
  induction l1 as [|[n r] l1 [IH1 IH2]]; [split; reflexivity|].
  cbn [app]. rewrite !weightedScores_cons, !totalWeights_cons, IH1, IH2. split; lia.
Qed.

(** X6. The risk score does not depend on the order in which the checks
    were entered into [analysis.checks]: any rearrangement of the same
    entries gives the same score. *)
Theorem riskScore_order_independent (checks checks' : list (string * CheckResult)) :
  Permutation checks checks' ->
  calculateRiskScore checks = calculateRiskScore checks'.
Proof.
  intros H. destruct (sums_permutation checks checks' H) as [H1 H2].
  rewrite !calculateRiskScore_unfold. unfold Spec.weightNormalizedSum.
  rewrite H1, H2. reflexivity.
Qed.

Lemma riskScore_order_independent_witness :
  Permutation (runChecks Examples.scenario2 Examples.everyCheck)
              (rev (runChecks Examples.scenario2 Examples.everyCheck))
  /\ calculateRiskScore (runChecks Examples.scenario2 Examples.everyCheck)
     = calculateRiskScore (rev (runChecks Examples.scenario2 Examples.everyCheck)).
Proof.
  split; [apply Permutation_rev|].
  apply (riskScore_order_independent
           (runChecks Examples.scenario2 Examples.everyCheck)
           (rev (runChecks Examples.scenario2 Examples.everyCheck))).
  apply Permutation_rev.
Defined.

(** X7. The risk score is an average: when at least one check is counted,
    it lies between the lowest and the highest score of the counted
    checks; in particular it equals their common score when they agree. *)
Theorem riskScore_between_extremes (checks : list (string * CheckResult)) (lo hi : Z) :
  (forall n r, In (n, r) checks -> skipped r = false -> lo <= score r <= hi) ->
  (exists n r, In (n, r) checks /\ skipped r = false) ->
  lo <= calculateRiskScore checks <= hi.
Proof.
  intros Hb Hex. rewrite calculateRiskScore_unfold.
  pose proof (totalWeights_pos checks Hex) as Hw.
  apply Z.ltb_lt in Hw as Hw'. rewrite Hw'. unfold Spec.weightNormalizedSum.
  pose proof (weightedScores_bounds checks lo hi Hb).
  apply round_div_bounds; lia.
Qed.

Lemma riskScore_between_extremes_witness :
  20 <= calculateRiskScore (runChecks Examples.scenario2 Examples.fastChecksOnly) <= 100.
Proof.
  apply (riskScore_between_extremes
           (runChecks Examples.scenario2 Examples.fastChecksOnly) 20 100).
  - intros n r Hin _. cbn in Hin.
    destruct Hin as [E|[E|[E|[]]]]; inversion E; subst; cbn; lia.
  - exists "basicInfo"%string, (analyzeBasicInfo (Returned Examples.freezableMint)
                                                 (Returned Examples.oneMillion)).
    split; [left; reflexivity|reflexivity].
Defined.

(** X8. Raising the score of one counted check, all else unchanged, never
    lowers the risk score. *)
Theorem riskScore_monotone
    (before after : list (string * CheckResult)) (n : string) (r r' : CheckResult) :
  skipped r = false -> skipped r' = false ->
  score r <= score r' ->
  calculateRiskScore (before ++ (n, r) :: after)
  <= calculateRiskScore (before ++ (n, r') :: after).
Proof.
  intros Hs Hs' Hle. rewrite !calculateRiskScore_unfold. unfold Spec.weightNormalizedSum.
  destruct (sums_app before ((n, r) :: after)) as [-> ->].
  destruct (sums_app before ((n, r') :: after)) as [-> ->].
  rewrite !weightedScores_cons, !totalWeights_cons, Hs, Hs'.
  pose proof (weightOf_pos n) as Hn.
  pose proof (totalWeights_nonneg before). pose proof (totalWeights_nonneg after).
  set (w := Spec.totalWeights before + (weightOf n + Spec.totalWeights after)).
  assert (Hw : 0 < w) by (unfold w; lia).
  apply Z.ltb_lt in Hw as Hw'. rewrite Hw'.
  rewrite !round_div by exact Hw.
  apply Z.div_le_mono; [lia|]. nia.
Qed.

Lemma riskScore_monotone_witness :
  calculateRiskScore
    ([("basicInfo"%string,
       analyzeBasicInfo (Returned Examples.freezableMint) (Returned Examples.oneMillion))]
     ++ ("authorities"%string, analyzeAuthorities (Returned Examples.freezableMint)) :: [])
  <= calculateRiskScore
       ([("basicInfo"%string,
          analyzeBasicInfo (Returned Examples.freezableMint) (Returned Examples.oneMillion))]
        ++ ("authorities"%string, analyzeAuthorities (Returned Examples.revokedMint)) :: []).
Proof.
  apply (riskScore_monotone
           [("basicInfo"%string,
             analyzeBasicInfo (Returned Examples.freezableMint) (Returned Examples.oneMillion))]
           [] "authorities"
           (analyzeAuthorities (Returned Examples.freezableMint))
           (analyzeAuthorities (Returned Examples.revokedMint)));
    [reflexivity|reflexivity|cbn; lia].
Defined.

End AggregateFacts.

Section HoneypotFacts.
Import HoneypotDetector.

Lemma detectHoneypot_tests (o : Observed) :
  tests (detectHoneypot o)
  = [ ("authorityAnalysis", analyzeAuthorities (authMint o));
      ("programAnalysis", analyzeProgram (programAccount o));
      ("supplyAnalysis", analyzeSupplyMetrics (supply o) (supplyMint o));
      ("tradingSimulation", runTradingSimulation (connectivity o) (swap o)) ]%string.
Proof. reflexivity. Qed.

Lemma swapSimulation_missing (o : Observed) :
  test "swapSimulation" (detectHoneypot o) = None.
Proof. unfold test. rewrite detectHoneypot_tests. reflexivity. Qed.

Lemma detectHoneypot_overall (o : Observed) :
  TokenAnalyzer.overallOr0 (honeypotProbability (detectHoneypot o))
  = Z.max 0 (Z.min 100
      ((2 * (30 * riskScore (analyzeAuthorities (authMint o))
             + 20 * riskScore (analyzeProgram (programAccount o))
             + 15 * riskScore (analyzeSupplyMetrics (supply o) (supplyMint o))
             + 35 * riskScore (runTradingSimulation (connectivity o) (swap o)))
        + 100) / 200)).
Proof.
  unfold detectHoneypot. cbn [honeypotProbability TokenAnalyzer.overallOr0 fmap option_fmap
                              option_map default].
  apply overall_of_four.
Qed.

(** X9. The check that wraps the detector looks the simulation up under
    the key [swapSimulation], while the detector stores it under
    [tradingSimulation].  So the lookup always misses, and the issue
    saying that the tokens cannot be sold is never raised, whatever the
    simulation found: the check reports at most one issue, the high-risk
    line, and only when the overall probability exceeds 70. *)
Theorem cannot_sell_issue_never_raised (o : Observed) :
  test "swapSimulation" (detectHoneypot o) = None
  /\ test "tradingSimulation" (detectHoneypot o)
     = Some (runTradingSimulation (connectivity o) (swap o))
  /\ ~ In "🔴 CANNOT SELL TOKENS - Confirmed honeypot!"%string
          (TokenAnalyzer.issues (TokenAnalyzer.runHoneypotDetection (Settled (Returned o))))
  /\ (TokenAnalyzer.issues (TokenAnalyzer.runHoneypotDetection (Settled (Returned o))) <> []
      <-> 70 < TokenAnalyzer.overallOr0 (honeypotProbability (detectHoneypot o)))
  /\ (List.length
        (TokenAnalyzer.issues (TokenAnalyzer.runHoneypotDetection (Settled (Returned o))))
      <= 1)%nat.
Proof.
  split; [apply swapSimulation_missing|].
  split; [unfold test; rewrite detectHoneypot_tests; reflexivity|].
  unfold TokenAnalyzer.runHoneypotDetection.
  generalize (swapSimulation_missing o). generalize (detectHoneypot o).
  intros result ->.
  generalize (TokenAnalyzer.overallOr0 (honeypotProbability result)). intros ov.
  destruct (70 <? ov) eqn:E70; [|destruct (40 <? ov) eqn:E40];
    cbn [TokenAnalyzer.issues app List.length In].
  - apply Z.ltb_lt in E70. repeat split; try lia; try discriminate.
    intros [H|[]]. cbn in H. discriminate H.
  - apply Z.ltb_ge in E70. repeat split; try lia; try tauto.
  - apply Z.ltb_ge in E70. repeat split; try lia; try tauto.
Qed.

(** X10. Run against the quote service embedded above, whose connectivity
    test always answers [false], the detector skips the trading
    simulation with a fixed sub-score of 20.  Whatever the chain answers,
    the overall probability then lies between 7 and 66, the verdict is
    never [CONFIRMED_HONEYPOT], and the wrapping check reports no issue
    and a score of at least 34. *)
Theorem unreachable_service_never_flags (o : Observed) (http : Outcome unit) :
  test "tradingSimulation" (detectHoneypot (Wiring.asWired o http))
  = Some {| issues := None; riskScore := 20; severity := LOW; canSell := None |}
  /\ (7 <= TokenAnalyzer.overallOr0
            (honeypotProbability (detectHoneypot (Wiring.asWired o http))) <= 66)
  /\ verdict (detectHoneypot (Wiring.asWired o http)) <> CONFIRMED_HONEYPOT
  /\ TokenAnalyzer.issues
       (TokenAnalyzer.runHoneypotDetection (Settled (Returned (Wiring.asWired o http)))) = []
  /\ 34 <= TokenAnalyzer.score
             (TokenAnalyzer.runHoneypotDetection (Settled (Returned (Wiring.asWired o http)))).
Proof.
  destruct (service_as_wired http (Returned None) (Returned None)) as [Hconn _].
  assert (Ht : runTradingSimulation (connectivity (Wiring.asWired o http))
                                    (swap (Wiring.asWired o http))
               = {| issues := None; riskScore := 20; severity := LOW; canSell := None |}).
  { cbn [Wiring.asWired connectivity swap]. rewrite Hconn. reflexivity. }
  assert (Hov : 7 <= TokenAnalyzer.overallOr0
                       (honeypotProbability (detectHoneypot (Wiring.asWired o http))) <= 66).
  { rewrite detectHoneypot_overall, Ht. cbn [riskScore].
    pose proof (analyzeAuthorities_riskScore (authMint (Wiring.asWired o http))).
    pose proof (analyzeProgram_riskScore (programAccount (Wiring.asWired o http))).
    pose proof (analyzeSupplyMetrics_riskScore (supply (Wiring.asWired o http))
                                               (supplyMint (Wiring.asWired o http))).
    split.
    - apply Z.max_le_iff. right. apply Z.min_glb; [lia|].
      apply Z.div_le_lower_bound; lia.
    - apply Z.max_lub; [lia|]. etransitivity; [apply Z.le_min_r|].
      apply Z.div_le_upper_bound; lia. }
  split. { unfold test. rewrite detectHoneypot_tests, Ht. reflexivity. }
  split; [exact Hov|]. split.
  - unfold detectHoneypot at 1. cbn [verdict]. unfold generateVerdict.
    change (overall (calculateHoneypotProbability _))
      with (TokenAnalyzer.overallOr0
              (honeypotProbability (detectHoneypot (Wiring.asWired o http)))).
    destruct (80 <=? _) eqn:E; [apply Z.leb_le in E; lia|].
    destruct (60 <=? _); [discriminate|]. destruct (40 <=? _); [discriminate|].
    destruct (20 <=? _); discriminate.
  - unfold TokenAnalyzer.runHoneypotDetection.
    rewrite swapSimulation_missing.
    set (ov := TokenAnalyzer.overallOr0 _) in *.
    assert (E70 : (70 <? ov) = false) by (apply Z.ltb_ge; lia). rewrite E70.
    destruct (40 <? ov); cbn [TokenAnalyzer.issues TokenAnalyzer.score]; split; auto; lia.
Qed.

(** X11. The sub-score of the trading simulation over every outcome of the
    two quote requests.  If the token can be sold it can be bought, and
    the sub-score is at most 60 and never [CRITICAL].  If it can be bought
    but not sold the sub-score is 95.  In every other case (no buy route,
    or a quote request that throws) the report says that the token can
    neither be bought nor sold, and the sub-score is 170, outside the
    0..100 scale, with severity [CRITICAL]. *)
Theorem trading_subscore_classes (buy sell : Outcome (option JupiterService.Quote)) :
  JupiterService.honeypotAnalysis (JupiterService.simulateSwap buy sell) <> None
  /\ (JupiterService.canSell (JupiterService.simulateSwap buy sell) = true ->
      JupiterService.canBuy (JupiterService.simulateSwap buy sell) = true
      /\ 0 <= riskScore (runTradingSimulation (Returned true)
                           (Returned (JupiterService.simulateSwap buy sell))) <= 60
      /\ severity (runTradingSimulation (Returned true)
                     (Returned (JupiterService.simulateSwap buy sell))) <> CRITICAL)
  /\ (JupiterService.canBuy (JupiterService.simulateSwap buy sell) = true ->
      JupiterService.canSell (JupiterService.simulateSwap buy sell) = false ->
      riskScore (runTradingSimulation (Returned true)
                   (Returned (JupiterService.simulateSwap buy sell))) = 95)
  /\ (JupiterService.canBuy (JupiterService.simulateSwap buy sell) = false ->
      JupiterService.canSell (JupiterService.simulateSwap buy sell) = false
      /\ riskScore (runTradingSimulation (Returned true)
                      (Returned (JupiterService.simulateSwap buy sell))) = 170
      /\ severity (runTradingSimulation (Returned true)
                     (Returned (JupiterService.simulateSwap buy sell))) = CRITICAL).
Proof.
  unfold JupiterService.simulateSwap.
  destruct buy as [msg|[bq|]]; cbn.
  - repeat split; try discriminate.
  - destruct (Js.truthy (JupiterService.outAmount bq)); cbn.
    + destruct sell as [msg|[sq|]]; cbn.
      * repeat split; try discriminate.
      * unfold JupiterService.impactPenalties.
        destruct (Js.gt _ 10), (Js.gt _ 15), (JupiterService.routePlan bq) as [[|? [|? ?]]|];
          cbn; repeat split; try discriminate; try lia.
      * repeat split; try discriminate.
    + repeat split; try discriminate.
  - repeat split; try discriminate.
Qed.

(** X12. The four sub-tests are always present and their weights sum to
    one, so the confidence the detector reports is the constant 0.9
    whatever was observed, and the verdict is always one of the five
    bands of the overall probability. *)
Theorem honeypot_confidence_constant (o : Observed) :
  exists p,
    honeypotProbability (detectHoneypot o) = Some p
    /\ (confidence p == 9 # 10)%Q
    /\ 0 <= overall p <= 100
    /\ verdict (detectHoneypot o) = generateVerdict p
    /\ verdict (detectHoneypot o) <> ANALYSIS_FAILED
    /\ verdict (detectHoneypot o) <> TIMEOUT
    /\ verdict (detectHoneypot o) <> ERROR.
Proof.
  eexists. split; [reflexivity|]. split; [|split].
  - unfold calculateHoneypotProbability. cbn [fold_left accumulate].
    change (weightOf "authorityAnalysis") with (3 # 10)%Q.
    change (weightOf "programAnalysis") with (2 # 10)%Q.
    change (weightOf "supplyAnalysis") with (15 # 100)%Q.
    change (weightOf "tradingSimulation") with (35 # 100)%Q.
    cbn [confidence]. apply Q.min_l. unfold Qle. cbn. lia.
  - apply calculateHoneypotProbability_overall.
  - cbn [verdict detectHoneypot]. unfold generateVerdict.
    split; [reflexivity|].
    destruct (80 <=? _); [repeat split; discriminate|].
    destruct (60 <=? _); [repeat split; discriminate|].
    destruct (40 <=? _); [repeat split; discriminate|].
    destruct (20 <=? _); repeat split; discriminate.
Qed.

End HoneypotFacts.

(** * Further properties: the holder analysis *)

Section HolderFacts.
Import HolderAnalyzer.

Lemma processAccount_cases (totalSupply : Q) (validHolders : list Holder) (account : Account) :
  (HolderFilter.kept account = false
   /\ processAccount totalSupply validHolders account = validHolders)
  \/ exists h uiAmount,
       HolderFilter.kept account = true
       /\ amount account = Some uiAmount
       /\ processAccount totalSupply validHolders account = validHolders ++ [h]
       /\ holderAddress h = address account
       /\ holderAmount h = uiAmount
       /\ percentage h = (uiAmount / totalSupply * 100)%Q
       /\ (analyzed h = true -> (List.length validHolders < 3)%nat).
Proof.
  unfold processAccount, HolderFilter.kept.
  destruct (amount account) as [uiAmount|]; [|left; auto].
  destruct (Js.eq uiAmount 0); [left; auto|].
  destruct (isValidBase58Address account); [|left; auto].
  destruct (bool_decide _); [left; auto|].
  right. cbn [negb andb].
  destruct (Nat.ltb (List.length validHolders) 3) eqn:E.
  - apply Nat.ltb_lt in E.
    destruct (info account); eexists; exists uiAmount; repeat split; auto.
  - eexists; exists uiAmount; repeat split; auto. cbn. discriminate.
Qed.

Lemma processAccounts_spec (totalSupply : Q) (accounts : list Account) (acc : list Holder) :
  exists added,
    fold_left (processAccount totalSupply) accounts acc = acc ++ added
    /\ List.map holderAddress added = List.map address (List.filter HolderFilter.kept accounts)
    /\ List.map (fun h => Some (holderAmount h)) added
       = List.map amount (List.filter HolderFilter.kept accounts)
    /\ Forall (fun h => percentage h = (holderAmount h / totalSupply * 100)%Q) added
    /\ (forall i h, added !! i = Some h -> analyzed h = true ->
                    (List.length acc + i < 3)%nat).
Proof.
  revert acc. induction accounts as [|account accounts IH]; intros acc.
  - exists []. cbn. rewrite app_nil_r. repeat split; auto. intros i h H. discriminate H.
  - cbn [fold_left List.filter].
    destruct (processAccount_cases totalSupply acc account)
      as [[Hk ->]|(h & uiAmount & Hk & Ha & -> & H1 & H2 & H3 & H4)]; rewrite Hk.
    + exact (IH acc).
    + destruct (IH (acc ++ [h])) as (added & E & M1 & M2 & F & A).
      exists (h :: added). rewrite E, <- app_assoc. cbn [app List.map].
      split; [reflexivity|]. split; [now rewrite H1, M1|].
      split; [now rewrite H2, Ha, M2|]. split.
      * constructor; [now rewrite H3, H2|exact F].
      * intros [|i] h' Hl Han.
        -- cbn in Hl. injection Hl as <-. specialize (H4 Han). lia.
        -- cbn in Hl. specialize (A i h' Hl Han). rewrite length_app in A. cbn in A. lia.
Qed.

Lemma insertByPercentage_perm (h : Holder) (l : list Holder) :
  Permutation (insertByPercentage h l) (h :: l).
Proof.
  induction l as [|x rest IH]; cbn; [reflexivity|].
  destruct (Qle_bool (percentage x) (percentage h)); [reflexivity|].
  rewrite IH. apply perm_swap.
Qed.

Lemma sortByPercentage_perm (hs : list Holder) : Permutation (sortByPercentage hs) hs.
Proof.
  induction hs as [|h hs IH]; cbn; [reflexivity|].
  rewrite insertByPercentage_perm. now constructor.
Qed.

Lemma insertByPercentage_sorted (h : Holder) (l : list Holder) :
  StronglySorted HolderFilter.descending l ->
  StronglySorted HolderFilter.descending (insertByPercentage h l).
Proof.
  induction 1 as [|x rest Hs IH Hall]; cbn.
  - repeat constructor.
  - destruct (Qle_bool (percentage x) (percentage h)) eqn:E.
    + apply Qle_bool_iff in E. constructor; [now constructor|].
      constructor; [exact E|].
      eapply Forall_impl; [exact Hall|].
      intros y Hy. unfold HolderFilter.descending in *. now apply Qle_trans with (percentage x).
    + assert (Hlt : (percentage h <= percentage x)%Q).
      { apply Qlt_le_weak, Qnot_le_lt. intros H. apply Qle_bool_iff in H. congruence. }
      constructor; [exact IH|].
      rewrite (Forall_forall). intros y Hy.
      apply list_elem_of_In in Hy.
      apply (Permutation_in _ (insertByPercentage_perm h rest)) in Hy.
      destruct Hy as [<-|Hy]; [exact Hlt|].
      rewrite Forall_forall in Hall. apply Hall. now apply list_elem_of_In.
Qed.

Lemma sortByPercentage_sorted (hs : list Holder) :
  StronglySorted HolderFilter.descending (sortByPercentage hs).
Proof.
  induction hs as [|h hs IH]; cbn; [constructor|]. now apply insertByPercentage_sorted.
Qed.

Lemma filter_length_permutation {A : Type} (f : A -> bool) (l l' : list A) :
  Permutation l l' -> List.length (List.filter f l) = List.length (List.filter f l').
Proof.
  induction 1 as [|x l l' _ IH|x y l|l l' l'' _ IH1 _ IH2]; cbn [List.filter].
  - reflexivity.
  - destruct (f x); cbn [List.length]; congruence.
  - destruct (f x), (f y); reflexivity.
  - congruence.
Qed.

Lemma filter_within_prefix {A : Type} (f : A -> bool) (n : nat) (l : list A) :
  (forall i x, l !! i = Some x -> f x = true -> (i < n)%nat) ->
  (List.length (List.filter f l) <= n)%nat.
Proof.
  revert l. induction n as [|n IH]; intros l H.
  - induction l as [|x rest IHl]; [cbn; lia|]. cbn [List.filter].
    destruct (f x) eqn:E; [specialize (H 0%nat x Logic.eq_refl E); lia|].
    apply IHl. intros i y Hl Hy. specialize (H (S i) y Hl Hy). lia.
  - destruct l as [|x rest]; [cbn; lia|]. cbn [List.filter].
    assert (Hrest : (List.length (List.filter f rest) <= n)%nat).
    { apply IH. intros i y Hl Hy. specialize (H (S i) y Hl Hy). lia. }
    destruct (f x); cbn [List.length]; lia.
Qed.

Lemma analyzeHolderDistribution_success (o : Observed) (accounts : list Account) (sup : SolanaService.Supply) :
  largestAccounts o = Returned (Some accounts) ->
  accounts <> [] ->
  supply o = Returned sup ->
  Js.eq (SolanaService.uiAmount sup) 0 = false ->
  analyzeHolderDistribution o
  = {| holders := sortByPercentage
                    (fold_left (processAccount (SolanaService.uiAmount sup)) accounts []);
       concentration :=
         Some (calculateConcentration
                 (fold_left (processAccount (SolanaService.uiAmount sup)) accounts []));
       issues := riskIssues
                   (assessHolderRisks
                      (calculateConcentration
                         (fold_left (processAccount (SolanaService.uiAmount sup)) accounts []))
                      (fold_left (processAccount (SolanaService.uiAmount sup)) accounts []));
       warnings := riskWarnings
                     (assessHolderRisks
                        (calculateConcentration
                           (fold_left (processAccount (SolanaService.uiAmount sup)) accounts []))
                        (fold_left (processAccount (SolanaService.uiAmount sup)) accounts []));
       score := riskScore
                  (assessHolderRisks
                     (calculateConcentration
                        (fold_left (processAccount (SolanaService.uiAmount sup)) accounts []))
                     (fold_left (processAccount (SolanaService.uiAmount sup)) accounts []));
       severity := riskSeverity
                     (assessHolderRisks
                        (calculateConcentration
                           (fold_left (processAccount (SolanaService.uiAmount sup)) accounts []))
                        (fold_left (processAccount (SolanaService.uiAmount sup)) accounts []));
       holderCount :=
         List.length (fold_left (processAccount (SolanaService.uiAmount sup)) accounts []) |}.
Proof.
  intros Ha Hne Hs Hz. unfold analyzeHolderDistribution. rewrite Ha, Hs, Hz.
  destruct accounts; [now destruct Hne|reflexivity].
Qed.

Lemma analyzeHolderDistribution_cases (o : Observed) :
  (exists msg, analyzeHolderDistribution o = noData msg)
  \/ exists accounts sup,
       largestAccounts o = Returned (Some accounts)
       /\ accounts <> []
       /\ supply o = Returned sup
       /\ Js.eq (SolanaService.uiAmount sup) 0 = false.
Proof.
  unfold analyzeHolderDistribution.
  destruct (largestAccounts o) as [msg|[[|a accounts]|]] eqn:Ha; try (left; eexists; reflexivity).
  destruct (supply o) as [msg|sup] eqn:Hs; [left; eexists; reflexivity|].
  destruct (Js.eq (SolanaService.uiAmount sup) 0) eqn:Hz; [left; eexists; reflexivity|].
  right. exists (a :: accounts), sup. repeat split; auto; discriminate.
Qed.

(** X13. The holders of a completed analysis are exactly the accounts that
    pass the three guards of the loop (amount set and non-zero, valid
    base58 key, not a burn address), each once and with its share of the
    reported supply; their number is [holderCount], and at most three of
    them were looked up in detail. *)
Theorem holders_are_the_kept_accounts
    (o : Observed) (accounts : list Account) (sup : SolanaService.Supply) :
  largestAccounts o = Returned (Some accounts) ->
  supply o = Returned sup ->
  Js.eq (SolanaService.uiAmount sup) 0 = false ->
  Permutation (List.map holderAddress (holders (analyzeHolderDistribution o)))
              (List.map address (List.filter HolderFilter.kept accounts))
  /\ holderCount (analyzeHolderDistribution o)
     = List.length (List.filter HolderFilter.kept accounts)
  /\ (holderCount (analyzeHolderDistribution o) <= List.length accounts)%nat
  /\ (List.length (List.filter analyzed (holders (analyzeHolderDistribution o))) <= 3)%nat
  /\ Forall (fun h => percentage h
                      = (holderAmount h / SolanaService.uiAmount sup * 100)%Q)
            (holders (analyzeHolderDistribution o)).
Proof.
  intros Ha Hs Hz.
  destruct accounts as [|a rest].
  { unfold analyzeHolderDistribution. rewrite Ha. cbn. repeat split; auto. }
  rewrite (analyzeHolderDistribution_success o (a :: rest) sup Ha ltac:(discriminate) Hs Hz).
  cbn [holders holderCount].
  destruct (processAccounts_spec (SolanaService.uiAmount sup) (a :: rest) [])
    as (added & E & M1 & _ & F & A).
  rewrite E. cbn [app].
  pose proof (sortByPercentage_perm added) as Hp.
  split; [rewrite <- M1; now apply Permutation_map|].
  assert (Hlen : List.length added = List.length (List.filter HolderFilter.kept (a :: rest))).
  { rewrite <- (length_map holderAddress added), M1. apply length_map. }
  split; [exact Hlen|]. split.
  - rewrite Hlen. apply filter_length_le.
  - split.
    + rewrite (filter_length_permutation analyzed _ _ Hp).
      apply filter_within_prefix. intros i h Hl Han. apply (A i h Hl Han).
    + rewrite (Forall_forall) in *. intros h Hh. apply F.
      apply list_elem_of_In. apply list_elem_of_In in Hh.
      now apply (Permutation_in _ Hp).
Qed.

Lemma holders_are_the_kept_accounts_witness :
  holderCount (analyzeHolderDistribution Examples.seventyPercent) = 2%nat
  /\ (List.length
        (List.filter analyzed (holders (analyzeHolderDistribution Examples.seventyPercent)))
      <= 3)%nat.
Proof.
  destruct (holders_are_the_kept_accounts Examples.seventyPercent
              [ {| address := "7xKXtg2CW87d97TXJSDpbD5jBkheTqA83TZRuJosgAsU";
                   amount := Some 700000%Q; validKey := true;
                   info := Returned (Returned (Some Examples.wallet)) |};
                {| address := "5Q544fKrFoe6tsEbD7S8EmxGTJYAKtTVhAW5Q5pge4j1";
                   amount := Some 100000%Q; validKey := true;
                   info := Returned (Returned (Some Examples.wallet)) |} ]
              Examples.oneMillion) as (_ & H2 & _ & H4 & _);
    [reflexivity|reflexivity|reflexivity|].
  split; [|exact H4].
  rewrite H2. vm_compute. reflexivity.
Defined.

(** X14. The holders of every analysis are sorted by decreasing share, and
    [holderCount] is their number.  The concentration figures are taken
    before the sort, in the order the accounts were answered: the reported
    top-holder share is the share of the first account that passes the
    three guards (0 when none does), whatever the sizes of the others, and
    so never exceeds the share of the holder listed first; when a larger
    holder is answered later it is strictly smaller. *)
Theorem holders_sorted_by_share (o : Observed) :
  StronglySorted HolderFilter.descending (holders (analyzeHolderDistribution o))
  /\ holderCount (analyzeHolderDistribution o)
     = List.length (holders (analyzeHolderDistribution o))
  /\ (forall c,
        concentration (analyzeHolderDistribution o) = Some c ->
        exists accounts sup,
          largestAccounts o = Returned (Some accounts)
          /\ supply o = Returned sup
          /\ match List.filter HolderFilter.kept accounts with
             | [] => top1Percentage c = 0%Q
             | firstKept :: _ =>
                 exists uiAmount,
                   amount firstKept = Some uiAmount
                   /\ top1Percentage c
                      = (uiAmount / SolanaService.uiAmount sup * 100)%Q
             end)
  /\ (forall c first,
        concentration (analyzeHolderDistribution o) = Some c ->
        head (holders (analyzeHolderDistribution o)) = Some first ->
        (top1Percentage c <= percentage first)%Q)
  /\ (exists answered c first,
        concentration (analyzeHolderDistribution answered) = Some c
        /\ head (holders (analyzeHolderDistribution answered)) = Some first
        /\ (top1Percentage c == 10)%Q
        /\ (percentage first == 70)%Q).
Proof.
  assert (Hexample :
            exists answered c first,
              concentration (analyzeHolderDistribution answered) = Some c
              /\ head (holders (analyzeHolderDistribution answered)) = Some first
              /\ (top1Percentage c == 10)%Q
              /\ (percentage first == 70)%Q).
  { exists {| largestAccounts :=
                Returned (Some
                  [ {| address := "5Q544fKrFoe6tsEbD7S8EmxGTJYAKtTVhAW5Q5pge4j1";
                       amount := Some 100000%Q; validKey := true;
                       info := Returned (Returned (Some Examples.wallet)) |};
                    {| address := "7xKXtg2CW87d97TXJSDpbD5jBkheTqA83TZRuJosgAsU";
                       amount := Some 700000%Q; validKey := true;
                       info := Returned (Returned (Some Examples.wallet)) |} ]);
              supply := Returned Examples.oneMillion |}.
    eexists. eexists. split; [vm_compute; reflexivity|].
    split; [vm_compute; reflexivity|]. split; reflexivity. }
  destruct (analyzeHolderDistribution_cases o)
    as [[msg ->]|(accounts & sup & Ha & Hne & Hs & Hz)].
  - cbn. split; [constructor|]. split; [reflexivity|].
    split; [intros c H; discriminate H|].
    split; [intros c first H; discriminate H|exact Hexample].
  - rewrite (analyzeHolderDistribution_success o accounts sup Ha Hne Hs Hz).
    cbn [holders holderCount concentration].
    destruct (processAccounts_spec (SolanaService.uiAmount sup) accounts [])
      as (valid & Evalid & M1 & M2 & F & _).
    cbn [app] in Evalid. rewrite Evalid.
    pose proof (sortByPercentage_perm valid) as Hp.
    pose proof (sortByPercentage_sorted valid) as Hsorted.
    split; [exact Hsorted|]. split; [now rewrite (Permutation_length Hp)|].
    split; [|split; [|exact Hexample]].
    + intros c Hc. injection Hc as <-. exists accounts, sup.
      split; [exact Ha|]. split; [exact Hs|].
      destruct (List.filter HolderFilter.kept accounts) as [|firstKept keptRest].
      * destruct valid; [reflexivity|discriminate M1].
      * destruct valid as [|v rest]; [discriminate M1|].
        cbn [List.map] in M2. injection M2 as M2 _.
        exists (holderAmount v). split; [now symmetry|].
        cbn [calculateConcentration top1Percentage].
        now apply Forall_inv in F.
    + intros c first Hc Hhead. injection Hc as <-.
      destruct valid as [|v rest] eqn:Hv.
      * cbn in Hhead. discriminate Hhead.
      * cbn [calculateConcentration top1Percentage].
        assert (Hin : In v (sortByPercentage (v :: rest))).
        { apply (Permutation_in _ (Permutation_sym Hp)). now left. }
        destruct (sortByPercentage (v :: rest)) as [|s srest]; [destruct Hin|].
        cbn in Hhead. injection Hhead as ->.
        destruct Hin as [->|Hin]; [apply Qle_refl|].
        apply StronglySorted_inv in Hsorted as [_ Hall].
        rewrite Forall_forall in Hall. apply Hall. now apply list_elem_of_In.
Qed.

(** X15. Every way in which the holder lookup can fail (the account list
    or the supply cannot be fetched, the list is empty, the supply is
    zero) gives the same kind of result: no holders, no concentration,
    one issue, score 0 and severity [CRITICAL].  Unlike a lookup that
    outlives its timer, which is skipped with 70, such a result is
    counted by the aggregate with score 0. *)
Theorem holder_lookup_failure_scores_zero (o : Observed) :
  (concentration (analyzeHolderDistribution o) = None ->
   holders (analyzeHolderDistribution o) = []
   /\ holderCount (analyzeHolderDistribution o) = 0%nat
   /\ List.length (issues (analyzeHolderDistribution o)) = 1%nat
   /\ score (analyzeHolderDistribution o) = 0
   /\ severity (analyzeHolderDistribution o) = CRITICAL
   /\ TokenAnalyzer.skipped (TokenAnalyzer.analyzeHoldersWithTimeout (Settled (Returned o)))
      = false
   /\ TokenAnalyzer.score (TokenAnalyzer.analyzeHoldersWithTimeout (Settled (Returned o)))
      = 0)
  /\ (concentration (analyzeHolderDistribution o) = None
      <-> (forall accounts, largestAccounts o = Returned (Some accounts) ->
           accounts = []
           \/ forall sup, supply o = Returned sup ->
                          Js.eq (SolanaService.uiAmount sup) 0 = true))
  /\ TokenAnalyzer.skipped (TokenAnalyzer.analyzeHoldersWithTimeout TimedOut) = true
  /\ TokenAnalyzer.score (TokenAnalyzer.analyzeHoldersWithTimeout TimedOut) = 70.
Proof.
  split; [|split; [|split; reflexivity]].
  - destruct (analyzeHolderDistribution_cases o)
      as [[msg E]|(accounts & sup & Ha & Hne & Hs & Hz)].
    + intros _. cbn [TokenAnalyzer.analyzeHoldersWithTimeout TokenAnalyzer.skipped
                     TokenAnalyzer.score]. rewrite E. cbn. repeat split; reflexivity.
    + rewrite (analyzeHolderDistribution_success o accounts sup Ha Hne Hs Hz).
      cbn [concentration]. discriminate.
  - destruct (analyzeHolderDistribution_cases o)
      as [[msg E]|(accounts & sup & Ha & Hne & Hs & Hz)].
    + rewrite E. cbn [noData concentration]. split; [|reflexivity]. intros _ accounts Ha.
      unfold analyzeHolderDistribution in E. rewrite Ha in E.
      destruct accounts as [|a rest]; [now left|right].
      intros sup Hs. rewrite Hs in E.
      destruct (Js.eq (SolanaService.uiAmount sup) 0); [reflexivity|discriminate E].
    + rewrite (analyzeHolderDistribution_success o accounts sup Ha Hne Hs Hz).
      cbn [concentration]. split; [discriminate|].
      intros H. destruct (H accounts Ha) as [->|H']; [now destruct Hne|].
      specialize (H' sup Hs). congruence.
Qed.

Lemma sumPercentage_from (hs : list Holder) (a : Q) :
  (fold_left (fun sum h => sum + percentage h) hs a == a + sumPercentage hs)%Q.
Proof.
  unfold sumPercentage. revert a. induction hs as [|h hs IH]; intros a; cbn [fold_left].
  - ring.
  - rewrite IH, (IH (0 + percentage h)%Q). ring.
Qed.

Lemma sumPercentage_app (l1 l2 : list Holder) :
  (sumPercentage (l1 ++ l2) == sumPercentage l1 + sumPercentage l2)%Q.
Proof.
  unfold sumPercentage at 1. rewrite fold_left_app.
  rewrite sumPercentage_from. reflexivity.
Qed.

Lemma sumPercentage_nonneg (hs : list Holder) :
  Forall (fun h => (0 <= percentage h)%Q) hs -> (0 <= sumPercentage hs)%Q.
Proof.
  induction 1 as [|h hs Hh _ IH].
  - unfold sumPercentage. cbn. apply Qle_refl.
  - change (h :: hs) with ([h] ++ hs). rewrite sumPercentage_app.
    unfold sumPercentage at 1. cbn [fold_left]. lra.
Qed.

Lemma sumPercentage_firstn (hs : list Holder) (n m : nat) :
  Forall (fun h => (0 <= percentage h)%Q) hs -> (n <= m)%nat ->
  (sumPercentage (firstn n hs) <= sumPercentage (firstn m hs))%Q.
Proof.
  intros Hall Hnm.
  assert (E : firstn m hs = firstn n hs ++ firstn (m - n) (skipn n hs)).
  { replace m with (n + (m - n))%nat at 1 by lia. symmetry. apply take_take_drop. }
  rewrite E, sumPercentage_app.
  assert (0 <= sumPercentage (firstn (m - n) (skipn n hs)))%Q; [|lra].
  apply sumPercentage_nonneg. now apply Forall_take, Forall_drop.
Qed.

(** X16. For a positive supply and non-negative amounts the concentration
    figures of a completed analysis are ordered:
    0 <= top-1 share <= top-5 share <= top-10 share, and the Herfindahl
    index is not negative. *)
Theorem concentration_figures_ordered
    (o : Observed) (accounts : list Account) (sup : SolanaService.Supply) :
  largestAccounts o = Returned (Some accounts) ->
  supply o = Returned sup ->
  (0 < SolanaService.uiAmount sup)%Q ->
  Forall (fun account => forall q, amount account = Some q -> (0 <= q)%Q) accounts ->
  forall c,
    concentration (analyzeHolderDistribution o) = Some c ->
    (0 <= top1Percentage c)%Q
    /\ (top1Percentage c <= top5Percentage c)%Q
    /\ (top5Percentage c <= top10Percentage c)%Q
    /\ (0 <= herfindahlIndex c)%Q.
Proof.
  intros Ha Hs Hpos Hamounts c Hc.
  assert (Hz : Js.eq (SolanaService.uiAmount sup) 0 = false).
  { unfold Js.eq. apply not_true_is_false. intros H. apply Qeq_bool_iff in H.
    rewrite H in Hpos. discriminate Hpos. }
  destruct accounts as [|a rest].
  { unfold analyzeHolderDistribution in Hc. rewrite Ha in Hc. discriminate Hc. }
  rewrite (analyzeHolderDistribution_success o (a :: rest) sup Ha ltac:(discriminate) Hs Hz)
    in Hc.
  cbn [concentration] in Hc. injection Hc as <-.
  destruct (processAccounts_spec (SolanaService.uiAmount sup) (a :: rest) [])
    as (added & E & _ & M2 & F & _).
  cbn [fold_left] in E. rewrite E. cbn [app]. clear E.
  assert (Hnonneg : Forall (fun h => (0 <= percentage h)%Q) added).
  { apply Forall_forall. intros h Hh.
    rewrite Forall_forall in F. rewrite (F h Hh).
    assert (Hq : In (Some (holderAmount h))
                    (List.map amount (List.filter HolderFilter.kept (a :: rest)))).
    { rewrite <- M2. apply in_map_iff. exists h. split; [reflexivity|].
      now apply list_elem_of_In. }
    apply in_map_iff in Hq as (account & Hq & Hin).
    apply filter_In in Hin as [Hin _].
    assert (Hge : (0 <= holderAmount h)%Q).
    { rewrite Forall_forall in Hamounts.
      apply (Hamounts account); [now apply list_elem_of_In|exact Hq]. }
    apply Qmult_le_0_compat; [|discriminate].
    apply Qle_shift_div_l; [exact Hpos|]. now rewrite Qmult_0_l. }
  destruct added as [|first others].
  { cbn. repeat split; apply Qle_refl. }
  cbn [calculateConcentration top1Percentage top5Percentage top10Percentage herfindahlIndex].
  assert (H1 : (sumPercentage (firstn 1 (first :: others)) == percentage first)%Q).
  { unfold sumPercentage. cbn [firstn fold_left]. rewrite take_0. cbn [fold_left]. ring. }
  split; [|split; [|split]].
  - apply Forall_inv in Hnonneg. exact Hnonneg.
  - rewrite <- H1. apply sumPercentage_firstn; [exact Hnonneg|lia].
  - apply sumPercentage_firstn; [exact Hnonneg|lia].
  - generalize (first :: others). intros l.
    assert (G : forall a0, (0 <= a0)%Q ->
                (0 <= fold_left (fun sum h => sum + percentage h / 100 * (percentage h / 100))
                                l a0)%Q).
    { induction l as [|h l IH]; intros a0 Ha0; cbn [fold_left]; [exact Ha0|].
      apply IH. nra. }
    apply G. apply Qle_refl.
Qed.

Lemma concentration_figures_ordered_witness :
  exists c,
    concentration (analyzeHolderDistribution Examples.seventyPercent) = Some c
    /\ (0 <= top1Percentage c)%Q
    /\ (top1Percentage c <= top5Percentage c)%Q
    /\ (top5Percentage c <= top10Percentage c)%Q
    /\ (0 <= herfindahlIndex c)%Q.
Proof.
  eexists. split; [reflexivity|].
  apply (concentration_figures_ordered Examples.seventyPercent
           [ {| address := "7xKXtg2CW87d97TXJSDpbD5jBkheTqA83TZRuJosgAsU";
                amount := Some 700000%Q; validKey := true;
                info := Returned (Returned (Some Examples.wallet)) |};
             {| address := "5Q544fKrFoe6tsEbD7S8EmxGTJYAKtTVhAW5Q5pge4j1";
                amount := Some 100000%Q; validKey := true;
                info := Returned (Returned (Some Examples.wallet)) |} ]
           Examples.oneMillion).
  - reflexivity.
  - reflexivity.
  - reflexivity.
  - repeat constructor; intros q Hq; injection Hq as <-; discriminate.
  - reflexivity.
Defined.

End HolderFacts.

Section RiskAssessmentFacts.

(** X17. Severity and score of the holder risk assessment agree.  The
    severity is [CRITICAL] exactly when an issue was raised, and then the
    score is at most 75; it is [LOW] exactly when the score is 100, which
    is exactly when neither an issue nor a warning was raised.  At most
    three issues and four warnings are raised. *)
Theorem holder_severity_matches_score
    (c : HolderAnalyzer.Concentration) (hs : list HolderAnalyzer.Holder) :
  (HolderAnalyzer.riskSeverity (HolderAnalyzer.assessHolderRisks c hs) = CRITICAL
   <-> HolderAnalyzer.riskIssues (HolderAnalyzer.assessHolderRisks c hs) <> [])
  /\ (HolderAnalyzer.riskIssues (HolderAnalyzer.assessHolderRisks c hs) <> [] ->
      HolderAnalyzer.riskScore (HolderAnalyzer.assessHolderRisks c hs) <= 75)
  /\ (HolderAnalyzer.riskSeverity (HolderAnalyzer.assessHolderRisks c hs) = LOW
      <-> HolderAnalyzer.riskScore (HolderAnalyzer.assessHolderRisks c hs) = 100)
  /\ (HolderAnalyzer.riskSeverity (HolderAnalyzer.assessHolderRisks c hs) = LOW
      <-> HolderAnalyzer.riskIssues (HolderAnalyzer.assessHolderRisks c hs) = []
          /\ HolderAnalyzer.riskWarnings (HolderAnalyzer.assessHolderRisks c hs) = [])
  /\ (List.length (HolderAnalyzer.riskIssues (HolderAnalyzer.assessHolderRisks c hs)) <= 3)%nat
  /\ (List.length (HolderAnalyzer.riskWarnings (HolderAnalyzer.assessHolderRisks c hs))
      <= 4)%nat.
Proof.
  unfold HolderAnalyzer.assessHolderRisks.
  destruct (Js.gt (HolderAnalyzer.top1Percentage c) 50);
    [|destruct (Js.gt (HolderAnalyzer.top1Percentage c) 30)];
    (destruct (Js.gt (HolderAnalyzer.top10Percentage c) 80);
       [|destruct (Js.gt (HolderAnalyzer.top10Percentage c) 60)]);
    (destruct (Js.gt (HolderAnalyzer.herfindahlIndex c) (25 # 100));
       [|destruct (Js.gt (HolderAnalyzer.herfindahlIndex c) (15 # 100))]);
    destruct (Nat.ltb 0 _);
    cbn [HolderAnalyzer.riskIssues HolderAnalyzer.riskWarnings HolderAnalyzer.riskScore
         HolderAnalyzer.riskSeverity List.length app Nat.ltb Nat.leb];
    repeat split; intros; try discriminate; try lia; try congruence;
    match goal with
    | H : _ /\ _ |- _ => destruct H; discriminate
    end.
Qed.

End RiskAssessmentFacts.

(** * Further properties: counters and order in the monitors *)

Section ComprehensiveCounters.
Import ComprehensivePumpMonitor.

Lemma comprehensive_handleMessage_cases (st : State) (m : Message) (now : Z) :
  handleMessage st m now = st
  \/ exists params delta,
       m = LogsNotification params
       /\ (signature params ∉ processedSignatures st)
       /\ processedSignatures (handleMessage st m now)
          = {[ signature params ]} ∪ processedSignatures st
       /\ detected (stats (handleMessage st m now)) = detected (stats st) + 1
       /\ analyzed (stats (handleMessage st m now)) = analyzed (stats st)
       /\ tokenQueue (handleMessage st m now) = tokenQueue st ++ delta
       /\ (List.length delta <= 1)%nat.
Proof.
  unfold handleMessage. destruct (isStreaming st); cbn [negb]; [|now left].
  destruct m as [id|params|]; [now left| |now left].
  unfold processTokenCreation.
  destruct (bool_decide (signature params ∈ processedSignatures st)) eqn:E; [now left|].
  apply bool_decide_eq_false in E.
  destruct (isRealTokenCreation (logs params)); cbn [negb]; [|now left].
  right. exists params.
  destruct (Nat.ltb (List.length (tokenQueue st)) maxQueueSize);
    [eexists [_]|exists []]; cbn; rewrite ?app_nil_r; repeat split; auto; lia.
Qed.

Lemma comprehensive_counters (r : Run State) :
  reachable r ->
  detected (stats (object r)) = Z.of_nat (size (processedSignatures (object r)))
  /\ (List.length (entered r) <= size (processedSignatures (object r)))%nat
  /\ exists finished,
       entered r = finished ++ inFlight r ++ tokenQueue (object r)
       /\ 0 <= analyzed (stats (object r)) <= Z.of_nat (List.length finished).
Proof.
  induction 1 as [|r ev r' Hr (IHd & IHe & finished & IHf & IHa) Hf].
  { cbn. split; [reflexivity|]. split; [lia|]. exists []. split; [reflexivity|cbn; lia]. }
  fire_cases Hf; cbn [object entered inFlight].
  - destruct (comprehensive_handleMessage_cases (object r) m now)
      as [E|(params & delta & _ & Hnew & Hp & Hd & Ha & Hq & Hl)].
    + rewrite E. unfold pushed. rewrite drop_all, app_nil_r.
      split; [exact IHd|]. split; [exact IHe|]. exists finished. auto.
    + rewrite (pushed_app tokenQueue _ _ delta Hq), Hp, Hd, Ha, Hq.
      rewrite size_union by (apply disjoint_singleton_l; exact Hnew). rewrite size_singleton.
      split; [lia|]. split; [rewrite length_app; lia|].
      exists finished. split; [|exact IHa]. rewrite IHf, <- !app_assoc. reflexivity.
  - destruct (comprehensive_worker_cases (object r) now) as [E|(e & rest & Hq & _ & _ & E)];
      rewrite E in Hw; injection Hw as <- <-; cbn [from_option object tokenQueue
                                                      processedSignatures stats].
    + rewrite app_nil_r. split; [exact IHd|]. split; [exact IHe|]. exists finished. auto.
    + split; [exact IHd|]. split; [exact IHe|]. exists finished.
      split; [|exact IHa]. rewrite IHf, Hq, <- !app_assoc. reflexivity.
  - cbn [analysisSettled processedSignatures tokenQueue stats].
    split; [destruct ok; exact IHd|]. split; [exact IHe|].
    exists (finished ++ [running]). split.
    + rewrite IHf, <- !app_assoc. reflexivity.
    + rewrite length_app. cbn [List.length]. destruct ok; cbn [analyzed]; lia.
  - cbn [toggleStreaming processedSignatures tokenQueue stats].
    split; [exact IHd|]. split; [exact IHe|]. exists finished. auto.
Qed.

End ComprehensiveCounters.

Section OptimizedCounters.
Import OptimizedPumpMonitor.

Lemma optimized_handleMessage_cases (st : State) (m : Message) (now : Z) :
  (tokenQueue (handleMessage st m now) = tokenQueue st
   /\ processedSignatures (handleMessage st m now) = processedSignatures st
   /\ detected (stats (handleMessage st m now)) = detected (stats st)
   /\ analyzed (stats (handleMessage st m now)) = analyzed (stats st)
   /\ failed (stats (handleMessage st m now)) = failed (stats st))
  \/ exists params delta,
       m = LogsNotification params
       /\ (signature params ∉ processedSignatures st)
       /\ processedSignatures (handleMessage st m now)
          = {[ signature params ]} ∪ processedSignatures st
       /\ detected (stats (handleMessage st m now)) = detected (stats st) + 1
       /\ analyzed (stats (handleMessage st m now)) = analyzed (stats st)
       /\ failed (stats (handleMessage st m now)) = failed (stats st)
       /\ tokenQueue (handleMessage st m now) = tokenQueue st ++ delta
       /\ (List.length delta <= 1)%nat.
Proof.
  unfold handleMessage. destruct (isStreaming st); cbn [negb]; [|left; auto].
  destruct m as [id|params|]; [left; auto| |left; auto].
  unfold processLogEvent.
  destruct (bool_decide (signature params ∈ processedSignatures st)) eqn:E; [left; auto|].
  apply bool_decide_eq_false in E.
  destruct (isActualTokenCreation (logs params)); cbn [negb]; [|left; cbn; auto].
  right. exists params.
  destruct (Nat.ltb (List.length (tokenQueue st)) maxQueueSize);
    [eexists [_]|exists []]; cbn; rewrite ?app_nil_r; repeat split; auto; lia.
Qed.

Lemma optimized_counters (r : Run State) :
  reachable r ->
  detected (stats (object r)) = Z.of_nat (size (processedSignatures (object r)))
  /\ (List.length (entered r) <= size (processedSignatures (object r)))%nat
  /\ exists finished,
       entered r = finished ++ inFlight r ++ tokenQueue (object r)
       /\ 0 <= analyzed (stats (object r))
       /\ 0 <= failed (stats (object r))
       /\ analyzed (stats (object r)) + failed (stats (object r))
          = Z.of_nat (List.length finished).
Proof.
  induction 1 as [|r ev r' Hr (IHd & IHe & finished & IHf & IHa) Hf].
  { cbn. split; [reflexivity|]. split; [lia|]. exists []. split; [reflexivity|cbn; lia]. }
  fire_cases Hf; cbn [object entered inFlight].
  - destruct (optimized_handleMessage_cases (object r) m now)
      as [(Hq & Hp & Hd & Ha & Hfa)|(params & delta & _ & Hnew & Hp & Hd & Ha & Hfa & Hq & Hl)].
    + unfold pushed. rewrite Hq, Hp, Hd, Ha, Hfa, drop_all, app_nil_r.
      split; [exact IHd|]. split; [exact IHe|]. exists finished. auto.
    + rewrite (pushed_app tokenQueue _ _ delta Hq), Hp, Hd, Ha, Hfa, Hq.
      rewrite size_union by (apply disjoint_singleton_l; exact Hnew). rewrite size_singleton.
      split; [lia|]. split; [rewrite length_app; lia|].
      exists finished. split; [|exact IHa]. rewrite IHf, <- !app_assoc. reflexivity.
  - destruct (optimized_worker_cases (object r) now) as [E|(e & rest & Hq & _ & _ & E)];
      rewrite E in Hw; injection Hw as <- <-; cbn [from_option object tokenQueue
                                                      processedSignatures stats].
    + rewrite app_nil_r. split; [exact IHd|]. split; [exact IHe|]. exists finished. auto.
    + split; [exact IHd|]. split; [exact IHe|]. exists finished.
      split; [|exact IHa]. rewrite IHf, Hq, <- !app_assoc. reflexivity.
  - cbn [analysisSettled processedSignatures tokenQueue stats].
    split; [destruct ok; exact IHd|]. split; [exact IHe|].
    exists (finished ++ [running]). split.
    + rewrite IHf, <- !app_assoc. reflexivity.
    + rewrite length_app. cbn [List.length]. destruct ok; cbn [analyzed failed]; lia.
  - cbn [toggleStreaming processedSignatures tokenQueue stats].
    split; [exact IHd|]. split; [exact IHe|]. exists finished. auto.
Qed.

End OptimizedCounters.

Section MonitorExtras.

(** X18. In every run of the comprehensive and of the optimized monitor
    the counter [stats.detected] equals the number of signatures recorded
    in [processedSignatures], and the events that entered the queue are
    never more than that: the difference is the number of detections
    dropped at a full queue. *)
Theorem detected_counts_recorded_signatures :
  (forall r : Run ComprehensivePumpMonitor.State,
     ComprehensivePumpMonitor.reachable r ->
     ComprehensivePumpMonitor.detected (ComprehensivePumpMonitor.stats (object r))
     = Z.of_nat (size (ComprehensivePumpMonitor.processedSignatures (object r)))
     /\ (List.length (entered r)
         <= size (ComprehensivePumpMonitor.processedSignatures (object r)))%nat)
  /\ (forall r : Run OptimizedPumpMonitor.State,
        OptimizedPumpMonitor.reachable r ->
        OptimizedPumpMonitor.detected (OptimizedPumpMonitor.stats (object r))
        = Z.of_nat (size (OptimizedPumpMonitor.processedSignatures (object r)))
        /\ (List.length (entered r)
            <= size (OptimizedPumpMonitor.processedSignatures (object r)))%nat).
Proof.
  split; intros r Hr.
  - destruct (comprehensive_counters r Hr) as (H1 & H2 & _). auto.
  - destruct (optimized_counters r Hr) as (H1 & H2 & _). auto.
Qed.

(** X19. Both monitors analyse first in, first out, and lose no queued
    event: at every point of a run the events that ever entered the queue
    are, in order, those whose analysis has settled, then the one in
    flight (if any), then the queue.  In the optimized monitor every
    settled analysis is counted exactly once, as analysed or as failed; in
    the comprehensive monitor [stats.analyzed] never exceeds the number of
    settled analyses. *)
Theorem analyses_follow_arrival_order :
  (forall r : Run ComprehensivePumpMonitor.State,
     ComprehensivePumpMonitor.reachable r ->
     exists finished,
       entered r = finished ++ inFlight r ++ ComprehensivePumpMonitor.tokenQueue (object r)
       /\ 0 <= ComprehensivePumpMonitor.analyzed (ComprehensivePumpMonitor.stats (object r))
            <= Z.of_nat (List.length finished))
  /\ (forall r : Run OptimizedPumpMonitor.State,
        OptimizedPumpMonitor.reachable r ->
        exists finished,
          entered r = finished ++ inFlight r ++ OptimizedPumpMonitor.tokenQueue (object r)
          /\ 0 <= OptimizedPumpMonitor.analyzed (OptimizedPumpMonitor.stats (object r))
          /\ 0 <= OptimizedPumpMonitor.failed (OptimizedPumpMonitor.stats (object r))
          /\ OptimizedPumpMonitor.analyzed (OptimizedPumpMonitor.stats (object r))
             + OptimizedPumpMonitor.failed (OptimizedPumpMonitor.stats (object r))
             = Z.of_nat (List.length finished)).
Proof.
  split; intros r Hr.
  - destruct (comprehensive_counters r Hr) as (_ & _ & H). exact H.
  - destruct (optimized_counters r Hr) as (_ & _ & H). exact H.
Qed.

End MonitorExtras.

Section EnhancedWorkerFacts.
Import EnhancedPumpFunMonitor.

Lemma handlePumpFunLog_cases (st : State) (l : Logs) (contextSlot now : Z) :
  handlePumpFunLog st l contextSlot now = st
  \/ ((logsSignature l ∉ processedSignatures st)
      /\ processedSignatures (handlePumpFunLog st l contextSlot now)
         = {[ logsSignature l ]} ∪ processedSignatures st
      /\ isAnalyzing (handlePumpFunLog st l contextSlot now) = isAnalyzing st
      /\ detected (stats (handlePumpFunLog st l contextSlot now)) = detected (stats st) + 1
      /\ analyzed (stats (handlePumpFunLog st l contextSlot now)) = analyzed (stats st)
      /\ (((List.length (tokenQueue st) < maxQueueSize)%nat
           /\ (exists e, tokenQueue (handlePumpFunLog st l contextSlot now)
                         = tokenQueue st ++ [e])
           /\ queued (stats (handlePumpFunLog st l contextSlot now)) = queued (stats st) + 1
           /\ skipped (stats (handlePumpFunLog st l contextSlot now)) = skipped (stats st))
          \/ ((maxQueueSize <= List.length (tokenQueue st))%nat
              /\ tokenQueue (handlePumpFunLog st l contextSlot now) = tokenQueue st
              /\ queued (stats (handlePumpFunLog st l contextSlot now)) = queued (stats st)
              /\ skipped (stats (handlePumpFunLog st l contextSlot now))
                 = skipped (stats st) + 1))).
Proof.
  unfold handlePumpFunLog. destruct (isStreaming st); cbn [negb]; [|now left].
  destruct (bool_decide (logsSignature l ∈ processedSignatures st)) eqn:E; [now left|].
  apply bool_decide_eq_false in E.
  destruct (hasTokenCreation (logLines l)); [|now left].
  right. destruct (Nat.ltb (List.length (tokenQueue st)) maxQueueSize) eqn:Hl.
  - apply Nat.ltb_lt in Hl. cbn. repeat split; auto. left. repeat split; eauto.
  - apply Nat.ltb_ge in Hl. cbn. repeat split; auto.
Qed.

(** X20. The counters of the enhanced monitor, over every run of listener,
    worker and controls.  The queue never holds more than 100 events;
    every detection is either queued or skipped
    ([detected = queued + skipped]) and [detected] equals the number of
    recorded signatures; and the events handed to the listeners plus those
    still queued never exceed the events queued. *)
Theorem enhanced_counters_balance (st : State) :
  EnhancedWorker.reachable st ->
  (List.length (tokenQueue st) <= maxQueueSize)%nat
  /\ detected (stats st) = queued (stats st) + skipped (stats st)
  /\ detected (stats st) = Z.of_nat (size (processedSignatures st))
  /\ 0 <= skipped (stats st)
  /\ 0 <= analyzed (stats st)
  /\ analyzed (stats st) + Z.of_nat (List.length (tokenQueue st)) <= queued (stats st).
Proof.
  induction 1 as [|st turn st' Hr (IHq & IHd & IHs & IHk & IHa & IHb) Hf].
  { cbn. repeat split; lia. }
  destruct turn as [l contextSlot now|emitted| |]; cbn in Hf.
  - injection Hf as <-.
    destruct (handlePumpFunLog_cases st l contextSlot now)
      as [->|(Hnew & Hp & _ & Hd & Ha & [(Hl & (e & Hq) & Hqd & Hsk)|(Hl & Hq & Hqd & Hsk)])].
    + repeat split; auto.
    + rewrite Hp, Hd, Ha, Hq, Hqd, Hsk, length_app.
      rewrite size_union by (apply disjoint_singleton_l; exact Hnew).
      rewrite size_singleton. cbn [List.length]. repeat split; lia.
    + rewrite Hp, Hd, Ha, Hq, Hqd, Hsk.
      rewrite size_union by (apply disjoint_singleton_l; exact Hnew).
      rewrite size_singleton. repeat split; lia.
  - injection Hf as <-. unfold EnhancedWorker.startAnalysisWorker.
    destruct (isAnalyzing st); cbn [negb andb]; [repeat split; auto|].
    destruct (tokenQueue st) as [|e rest] eqn:Hq; cbn [List.length Nat.ltb Nat.leb].
    + rewrite Hq. repeat split; auto.
    + cbn [List.length] in *. destruct emitted; cbn; repeat split; try lia.
  - destruct (isAnalyzing st); [|discriminate Hf]. injection Hf as <-.
    cbn. repeat split; auto.
  - injection Hf as <-. cbn. repeat split; auto.
Qed.

Lemma enhanced_counters_balance_witness :
  (List.length
     (tokenQueue (EnhancedWorker.startAnalysisWorker
                    (handlePumpFunLog EnhancedWorker.constructor (Examples.mintLogs 1)
                                      312000000 1000)
                    (Returned tt)))
   <= maxQueueSize)%nat.
Proof.
  apply (enhanced_counters_balance
           (EnhancedWorker.startAnalysisWorker
              (handlePumpFunLog EnhancedWorker.constructor (Examples.mintLogs 1)
                                312000000 1000)
              (Returned tt))).
  apply (EnhancedWorker.reachable_fire
           (handlePumpFunLog EnhancedWorker.constructor (Examples.mintLogs 1) 312000000 1000)
           (EnhancedWorker.Cycle (Returned tt))); [|reflexivity].
  apply (EnhancedWorker.reachable_fire EnhancedWorker.constructor
           (EnhancedWorker.LogEntry (Examples.mintLogs 1) 312000000 1000)); [|reflexivity].
  apply EnhancedWorker.reachable_start.
Defined.

End EnhancedWorkerFacts.

Section SocialFacts.
Import SocialAnalyzer.

(** X21. The social risk score.  Whatever the metadata and the fetched
    document, the score lies between 20 and 100 and the verification
    status stays [UNVERIFIED].  Without a metadata URI the score is 80 and
    after a failed fetch 70.  For a fetched document at most three
    suspicious patterns are recorded; when all three match the score is at
    least 80 whatever links are present, and when none matches it is at
    most 50. *)
Theorem social_score_bounds (uri : option string) (fetched : Outcome Document) :
  20 <= riskScore (analyzeSocialPresence uri fetched) <= 100
  /\ verificationStatus (analyzeSocialPresence uri fetched) = "UNVERIFIED"%string
  /\ (List.length (suspiciousContent (analyzeSocialPresence uri fetched)) <= 3)%nat
  /\ (Js.truthy uri = false -> riskScore (analyzeSocialPresence uri fetched) = 80)
  /\ (forall message,
        Js.truthy uri = true -> fetched = Threw message ->
        riskScore (analyzeSocialPresence uri fetched) = 70)
  /\ (forall data,
        Js.truthy uri = true -> fetched = Returned data ->
        (Forall (fun pattern => matches data pattern = true) suspiciousPatterns ->
         80 <= riskScore (analyzeSocialPresence uri fetched))
        /\ (Forall (fun pattern => matches data pattern = false) suspiciousPatterns ->
            riskScore (analyzeSocialPresence uri fetched) <= 50)).
Proof.
  unfold analyzeSocialPresence.
  destruct (Js.truthy uri) eqn:Hu; cbn [negb].
  2: { cbn. repeat split; try lia; try discriminate. }
  destruct fetched as [message|data].
  { cbn. repeat split; try lia; try discriminate. }
  cbn [riskScore verificationStatus suspiciousContent].
  assert (Hlen : (List.length (List.filter (matches data) suspiciousPatterns) <= 3)%nat).
  { etransitivity; [apply filter_length_le|]. cbn. lia. }
  unfold calculateSocialRiskScore.
  cbn [hasWebsite hasTwitter hasTelegram hasDiscord suspiciousContent].
  split; [|split; [reflexivity|split; [exact Hlen|split; [discriminate|split;
           [discriminate|]]]]].
  - destruct (website data), (twitter data), (telegram data), (discord data); lia.
  - intros data' _ E. injection E as <-. split; intros Hall.
    + assert (E3 : List.filter (matches data) suspiciousPatterns = suspiciousPatterns).
      { apply forallb_filter_id. apply forallb_forall. intros p Hp.
        rewrite Forall_forall in Hall. apply Hall. now apply list_elem_of_In. }
      rewrite E3. cbn [List.length suspiciousPatterns].
      destruct (website data), (twitter data), (telegram data), (discord data); lia.
    + assert (E0 : List.filter (matches data) suspiciousPatterns = []).
      { unfold suspiciousPatterns in *. cbn [List.filter].
        repeat match goal with
        | H : Forall _ (_ :: _) |- _ => apply Forall_cons in H as [-> H]
        end. reflexivity. }
      rewrite E0. cbn [List.length].
      destruct (website data), (twitter data), (telegram data), (discord data); lia.
Qed.

End SocialFacts.

Section SemaphoreFacts.
Import Semaphore.

Lemma without_length (caller : nat) (l : list nat) :
  caller ∈ l -> S (List.length (without caller l)) = List.length l.
Proof.
  induction l as [|h rest IH]; intros Hin; [now apply elem_of_nil in Hin|].
  cbn [without]. destruct (Nat.eqb h caller) eqn:E; [reflexivity|].
  apply Nat.eqb_neq in E. apply elem_of_cons in Hin as [->|Hin]; [congruence|].
  cbn [List.length]. now rewrite IH.
Qed.

(** X22. The semaphore that bounds the concurrency of [processBatch].
    Started with a non-negative number of permits, in every run the free
    permits plus the callers that hold a release function make up the
    initial number, so never more than that many callers are inside; a
    caller only waits while no permit is free.  With zero permits no
    caller is ever let in. *)
Theorem semaphore_admits_at_most_permits (initial : Z) (r : Run) :
  0 <= initial ->
  reachable initial r ->
  0 <= permits (object r)
  /\ permits (object r) + Z.of_nat (List.length (holders r)) = initial
  /\ Z.of_nat (List.length (holders r)) <= initial
  /\ (waiting (object r) <> [] -> permits (object r) = 0)
  /\ (initial = 0 -> holders r = []).
Proof.
  intros Hinit Hr.
  assert (Hinv : 0 <= permits (object r)
                 /\ permits (object r) + Z.of_nat (List.length (holders r)) = initial
                 /\ (waiting (object r) <> [] -> permits (object r) = 0)).
  { induction Hr as [|r step r' Hr (IH1 & IH2 & IH3) Hf].
    - cbn. repeat split; try lia. intros H. now destruct H.
    - destruct step as [caller|caller]; cbn in Hf.
      + injection Hf as <-. unfold acquire.
        destruct (0 <? permits (object r)) eqn:E; cbn [fst snd object holders permits waiting].
        * apply Z.ltb_lt in E. rewrite length_app. cbn [List.length].
          repeat split; try lia. intros Hw. specialize (IH3 Hw). lia.
        * apply Z.ltb_ge in E. repeat split; try lia.
      + destruct (bool_decide (caller ∈ holders r)) eqn:E; [|discriminate Hf].
        apply bool_decide_eq_true in E. injection Hf as <-.
        pose proof (without_length caller (holders r) E) as Hlen.
        unfold release. destruct (waiting (object r)) as [|w rest] eqn:Hw;
          cbn [fst snd object holders permits waiting from_option].
        * rewrite app_nil_r. repeat split; try lia. intros H. now destruct H.
        * assert (Hp : permits (object r) = 0) by (apply IH3; discriminate).
          rewrite length_app. cbn [List.length]. repeat split; try lia. }
  destruct Hinv as (H1 & H2 & H3). repeat split; auto; try lia.
  intros ->. destruct (holders r); [reflexivity|cbn in H2; lia].
Qed.

Lemma semaphore_admits_at_most_permits_witness :
  Z.of_nat (List.length
              (holders {| object := {| permits := 1; waiting := [] |}; holders := [7%nat] |}))
  <= 2.
Proof.
  apply (semaphore_admits_at_most_permits 2
           {| object := {| permits := 1; waiting := [] |}; holders := [7%nat] |});
    [lia|].
  apply (reachable_fire 2 {| object := constructor 2; holders := [] |} (Acquire 7));
    [apply reachable_start|reflexivity].
Defined.

End SemaphoreFacts.

Section RateLimitFacts.
Import RateLimitManager.

Lemma executeRequest_ledger {A : Type} (st : State) (credits : Z) (job : Outcome A) :
  0 <= credits ->
  creditsUsed st <= maxCredits st ->
  maxCredits (fst (executeRequest st credits job)) = maxCredits st
  /\ creditsUsed st <= creditsUsed (fst (executeRequest st credits job)) <= maxCredits st
  /\ (forall message, snd (executeRequest st credits job) = Threw message ->
                      fst (executeRequest st credits job) = st)
  /\ (forall a, snd (executeRequest st credits job) = Returned a ->
                creditsUsed (fst (executeRequest st credits job)) = creditsUsed st + credits).
Proof.
  intros Hc Hu. unfold executeRequest, refused.
  destruct (maxCredits st <? creditsUsed st + credits) eqn:E.
  - cbn. repeat split; try lia; auto. intros a H. discriminate H.
  - apply Z.ltb_ge in E. destruct job as [message|a]; cbn.
    + repeat split; try lia; auto. intros a H. discriminate H.
    + repeat split; try lia. intros message H. discriminate H.
Qed.

(** X23. The credit ledger under requests made one after the other, as
    the holder analysis makes them.  With non-negative credits the total
    never exceeds the ceiling and never decreases; a request that is
    refused or whose call fails is not charged, and a request that
    succeeds is charged exactly its credits. *)
Theorem credits_never_exceed_ceiling_in_sequence
    {A : Type} (st : State) (requests : list (Z * Outcome A)) :
  creditsUsed st <= maxCredits st ->
  Forall (fun request => 0 <= fst request) requests ->
  creditsUsed st <= creditsUsed (inSequence st requests) <= maxCredits st
  /\ maxCredits (inSequence st requests) = maxCredits st
  /\ forall credits (job : Outcome A),
       0 <= credits ->
       (forall message,
          snd (executeRequest (inSequence st requests) credits job) = Threw message ->
          fst (executeRequest (inSequence st requests) credits job)
          = inSequence st requests)
       /\ (forall a,
             snd (executeRequest (inSequence st requests) credits job) = Returned a ->
             creditsUsed (fst (executeRequest (inSequence st requests) credits job))
             = creditsUsed (inSequence st requests) + credits).
Proof.
  intros Hu Hall.
  assert (Hinv : creditsUsed st <= creditsUsed (inSequence st requests) <= maxCredits st
                 /\ maxCredits (inSequence st requests) = maxCredits st).
  { unfold inSequence. revert st Hu.
    induction Hall as [|[credits job] rest Hc _ IH]; intros st Hu; cbn [fold_left fst snd].
    - split; [lia|reflexivity].
    - destruct (executeRequest_ledger st credits job Hc Hu) as (Hm & Hb & _).
      destruct (IH (fst (executeRequest st credits job))) as [IH1 IH2]; [lia|].
      rewrite Hm in *. split; [lia|exact IH2]. }
  destruct Hinv as [Hb Hm]. split; [exact Hb|]. split; [exact Hm|].
  intros credits job Hc.
  destruct (executeRequest_ledger (inSequence st requests) credits job Hc) as (_ & _ & H1 & H2);
    [lia|]. auto.
Qed.

Lemma credits_never_exceed_ceiling_in_sequence_witness :
  creditsUsed (inSequence (constructor 3)
                 [ (1, Returned tt); (1, Threw "429"%string); (2, Returned tt);
                   (1, Returned tt) ])
  <= 3.
Proof.
  apply (credits_never_exceed_ceiling_in_sequence (constructor 3)
           [ (1, Returned tt); (1, Threw "429"%string); (2, Returned tt);
             (1, Returned tt) ]).
  - cbn. lia.
  - repeat constructor; cbn; lia.
Defined.

(** X24. The ceiling is not kept across requests that overlap.  When two
    requests both pass the guard before either has settled, as the
    members of one batch of [executeBatch] do, and both succeed, the
    ledger charges both: if their credits together exceed what was left,
    the total ends above the ceiling. *)
Theorem overlapping_requests_can_pass_ceiling
    {A : Type} (st : State) (c1 c2 : Z) (a b : A) :
  refused st c1 = false ->
  refused st c2 = false ->
  maxCredits st < creditsUsed st + c1 + c2 ->
  exists st',
    overlapping st (c1, Returned a) (c2, Returned b) = Some st'
    /\ creditsUsed st' = creditsUsed st + c1 + c2
    /\ maxCredits st' < creditsUsed st'.
Proof.
  intros H1 H2 Hover. unfold overlapping. cbn [fst snd]. rewrite H1, H2. cbn [orb].
  eexists. split; [reflexivity|]. cbn. lia.
Qed.

Lemma overlapping_requests_can_pass_ceiling_witness :
  exists st',
    overlapping {| creditsUsed := 9; maxCredits := 10 |} (1, Returned tt) (1, Returned tt)
    = Some st'
    /\ creditsUsed st' = 9 + 1 + 1
    /\ maxCredits st' < creditsUsed st'.
Proof.
  apply (overlapping_requests_can_pass_ceiling
           {| creditsUsed := 9; maxCredits := 10 |} 1 1 tt tt);
    [reflexivity|reflexivity|cbn; lia].
Defined.

End RateLimitFacts.

Section BatchFacts.
Import BatchProcessor.

Lemma starts_spec (n size : nat) :
  (0 < size)%nat ->
  forall fuel i,
    (n - i <= fuel)%nat ->
    exists l,
      starts fuel n size i = Some l
      /\ (forall k j, l !! k = Some j -> j = (i + k * size)%nat /\ (j < n)%nat)
      /\ (n <= i + List.length l * size)%nat
      /\ ((i <= n)%nat -> (i + List.length l * size < n + size)%nat).
Proof.
  intros Hsize. induction fuel as [|fuel IH]; intros i Hfuel; cbn [starts].
  - assert (E : Nat.ltb i n = false) by (apply Nat.ltb_ge; lia). rewrite E.
    exists []. split; [reflexivity|]. split; [intros k j H; discriminate H|]. cbn. lia.
  - destruct (Nat.ltb i n) eqn:E.
    + apply Nat.ltb_lt in E.
      destruct (IH (i + size)%nat) as (l & -> & Hl & Hn & Hm); [lia|].
      exists (i :: l). split; [reflexivity|]. split; [|cbn [List.length]; split; [lia|]].
      * intros [|k] j Hk; cbn in Hk.
        -- injection Hk as <-. lia.
        -- destruct (Hl k j Hk). lia.
      * intros _. destruct (Nat.le_gt_cases (i + size) n) as [H|H]; [specialize (Hm H); lia|].
        assert (l = []) as ->; [|cbn; lia].
        destruct l as [|j l]; [reflexivity|].
        destruct (Hl 0%nat j Logic.eq_refl). lia.
    + apply Nat.ltb_ge in E. exists []. split; [reflexivity|].
      split; [intros k j H; discriminate H|]. cbn. lia.
Qed.

Lemma starts_more_fuel (n size : nat) (fuel fuel' i : nat) (l : list nat) :
  starts fuel n size i = Some l -> (fuel <= fuel')%nat -> starts fuel' n size i = Some l.
Proof.
  revert fuel' i l. induction fuel as [|fuel IH]; intros fuel' i l; cbn [starts].
  - destruct (Nat.ltb i n) eqn:E; [discriminate|]. intros [= <-] _.
    destruct fuel'; cbn [starts]; rewrite E; reflexivity.
  - destruct (Nat.ltb i n) eqn:E.
    + destruct (starts fuel n size (i + size)) as [l'|] eqn:E'; [|discriminate].
      cbn. intros [= <-] Hle. destruct fuel' as [|fuel']; [lia|].
      cbn [starts]. rewrite E, (IH fuel' _ l' E') by lia. reflexivity.
    + intros [= <-] _. destruct fuel'; cbn [starts]; rewrite E; reflexivity.
Qed.

Lemma starts_never_ends (n fuel i : nat) :
  (i < n)%nat -> starts fuel n 0 i = None.
Proof.
  intros Hi. induction fuel as [|fuel IH]; cbn [starts];
    apply Nat.ltb_lt in Hi as E; rewrite E; [reflexivity|].
  rewrite Nat.add_0_r, IH. reflexivity.
Qed.

Lemma slices_concat {A : Type} (array : list A) (size : nat) (l : list nat) (i : nat) :
  (forall k j, l !! k = Some j -> j = (i + k * size)%nat) ->
  (List.length array <= i + List.length l * size)%nat ->
  concat (List.map (fun j => slice j (j + size) array) l) = skipn i array.
Proof.
  revert i. induction l as [|j l IH]; intros i Hl Hn; cbn [List.map concat].
  - cbn in Hn. symmetry. apply drop_ge. lia.
  - assert (j = i) as -> by (specialize (Hl 0%nat j Logic.eq_refl); lia).
    rewrite (IH (i + size)%nat).
    + unfold slice. replace (i + size - i)%nat with size by lia.
      rewrite <- (drop_drop array size i). apply take_drop.
    + intros k j Hk. specialize (Hl (S k) j Hk). lia.
    + cbn [List.length] in Hn. lia.
Qed.

Lemma concat_nils {B C : Type} (l : list B) :
  concat (List.map (fun _ => @nil C) l) = [].
Proof. induction l as [|b l IH]; [reflexivity|exact IH]. Qed.

Lemma slice_length {A : Type} (array : list A) (size j : nat) :
  List.length (slice j (j + size) array) = Nat.min size (List.length array - j).
Proof.
  unfold slice. rewrite length_take, length_drop. lia.
Qed.

(** X25. [chunk(array, size)] for a positive size returns, and cuts the
    array into consecutive pieces: joined in order they give the array
    back, every piece has between one and [size] elements, the piece at
    position [k] starts at element [k * size], and their number is the
    quotient of the length by [size], rounded up. *)
Theorem chunk_partitions_array {A : Type} (array : list A) (size : nat) :
  (0 < size)%nat ->
  exists chunks,
    chunk array size = Some chunks
    /\ (forall fuel, (List.length array <= fuel)%nat ->
                     chunkWithin fuel array size = Some chunks)
    /\ concat chunks = array
    /\ Forall (fun piece => (0 < List.length piece <= size)%nat) chunks
    /\ (forall k piece, chunks !! k = Some piece ->
                        piece = firstn size (skipn (k * size) array))
    /\ (List.length array <= List.length chunks * size < List.length array + size)%nat.
Proof.
  intros Hsize.
  destruct (starts_spec (List.length array) size Hsize (List.length array) 0%nat)
    as (l & Hs & Hl & Hn & Hm); [lia|].
  exists (List.map (fun j => slice j (j + size) array) l).
  unfold chunk, chunkWithin. rewrite Hs. split; [reflexivity|]. split.
  { intros fuel Hfuel. rewrite (starts_more_fuel _ _ _ fuel _ _ Hs Hfuel). reflexivity. }
  split.
  { rewrite (slices_concat array size l 0); [reflexivity| |lia].
    intros k j Hk. now destruct (Hl k j Hk). }
  split.
  { apply Forall_forall. intros piece Hp.
    apply list_elem_of_In, in_map_iff in Hp as (j & <- & Hj).
    apply list_elem_of_In, list_elem_of_lookup in Hj as [k Hk].
    destruct (Hl k j Hk) as [_ Hlt]. rewrite slice_length. lia. }
  split.
  { intros k piece Hk. rewrite list_lookup_fmap in Hk.
    destruct (l !! k) as [j|] eqn:Hj; [|discriminate Hk].
    cbn in Hk. injection Hk as <-. destruct (Hl k j Hj) as [-> _].
    unfold slice. cbn [Nat.add]. f_equal. lia. }
  rewrite length_map. split; [lia|]. apply Hm. lia.
Qed.

Lemma chunk_partitions_array_witness :
  exists chunks,
    chunk [1; 2; 3; 4; 5; 6; 7] 3 = Some chunks
    /\ (forall fuel, (List.length [1; 2; 3; 4; 5; 6; 7] <= fuel)%nat ->
                     chunkWithin fuel [1; 2; 3; 4; 5; 6; 7] 3 = Some chunks)
    /\ concat chunks = [1; 2; 3; 4; 5; 6; 7]
    /\ Forall (fun piece => (0 < List.length piece <= 3)%nat) chunks
    /\ (forall k piece, chunks !! k = Some piece ->
                        piece = firstn 3 (skipn (k * 3) [1; 2; 3; 4; 5; 6; 7]))
    /\ (List.length [1; 2; 3; 4; 5; 6; 7] <= List.length chunks * 3
        < List.length [1; 2; 3; 4; 5; 6; 7] + 3)%nat.
Proof.
  apply (chunk_partitions_array [1; 2; 3; 4; 5; 6; 7] 3). lia.
Defined.

Section ProcessingFacts.
Context {A R : Type}.

Lemma processSingleBatch_items (items : list A) (processor : nat -> Outcome R) (start : nat) :
  List.map item (processSingleBatch items processor start) = items.
Proof.
  unfold processSingleBatch.
  change (List.map item ?l) with (item <$> l). rewrite fmap_imap.
  rewrite <- (list_fmap_id items) at 2. rewrite <- imap_const.
  apply imap_ext. intros i x _. cbn. destruct (processor _); reflexivity.
Qed.

Lemma runBatch_value (processor : nat -> nat -> Outcome R) (hooks : nat -> Outcome unit)
    (onError : OnError) (batch : Batch A) :
  onError <> Stop \/ (forall b, hooks b = Returned tt) ->
  exists v,
    runBatch processor hooks onError batch = Returned v
    /\ List.map item (fst v) = batchItems batch
    /\ ((forall b, hooks b = Returned tt) ->
        v = (processSingleBatch (batchItems batch) (fun i => processor i 0%nat)
                                (startIndex batch), [])).
Proof.
  intros H. unfold runBatch.
  destruct (hooks (batchIndex batch)) as [message|u] eqn:Hh.
  - destruct H as [H|H]; [|rewrite H in Hh; discriminate Hh].
    destruct onError; [| now destruct H |].
    + eexists. split; [reflexivity|]. cbn [fst]. split.
      * rewrite List.map_map. cbn. apply List.map_id.
      * intros Hall. rewrite Hall in Hh. discriminate Hh.
    + eexists. split; [reflexivity|]. cbn [fst]. split.
      * apply processSingleBatch_items.
      * intros Hall. rewrite Hall in Hh. discriminate Hh.
  - eexists. split; [reflexivity|]. cbn [fst]. split; [apply processSingleBatch_items|].
    reflexivity.
Qed.

Lemma settled_values (processor : nat -> nat -> Outcome R) (hooks : nat -> Outcome unit)
    (onError : OnError) (batches : list (Batch A)) :
  onError <> Stop \/ (forall b, hooks b = Returned tt) ->
  rejections (List.map (runBatch processor hooks onError) batches) = []
  /\ List.map (fun v => List.map item (fst v))
       (omap (fun o => match o with Returned v => Some v | Threw _ => None end)
             (List.map (runBatch processor hooks onError) batches))
     = List.map batchItems batches
  /\ ((forall b, hooks b = Returned tt) ->
      omap (fun o => match o with Returned v => Some v | Threw _ => None end)
           (List.map (runBatch processor hooks onError) batches)
      = List.map (fun batch =>
                    (processSingleBatch (batchItems batch) (fun i => processor i 0%nat)
                                        (startIndex batch), @nil (BatchError A)))
                 batches).
Proof.
  intros H. induction batches as [|b bs (IH1 & IH2 & IH3)]; [repeat split; reflexivity|].
  destruct (runBatch_value processor hooks onError b H) as (v & Hv & Hi & Hall).
  cbn [List.map]. unfold rejections in *. rewrite Hv. cbn [omap list_omap List.map fst].
  split; [exact IH1|]. split; [now rewrite Hi, IH2|].
  intros Hh. rewrite (Hall Hh), (IH3 Hh). reflexivity.
Qed.

Lemma batches_single (items : list A) (processor : nat -> Outcome R) (size : nat)
    (l : list nat) (i : nat) :
  (0 < size)%nat ->
  (forall k j, l !! k = Some j -> j = (i + k * size)%nat) ->
  (List.length items <= i + List.length l * size)%nat ->
  concat (List.map (fun j => processSingleBatch (slice j (j + size) items) processor j) l)
  = processSingleBatch (skipn i items) processor i.
Proof.
  intros Hsize. revert i. induction l as [|j l IH]; intros i Hl Hn; cbn [List.map concat].
  - cbn in Hn. rewrite drop_ge by lia. reflexivity.
  - assert (j = i) as -> by (specialize (Hl 0%nat j Logic.eq_refl); lia).
    rewrite (IH (i + size)%nat).
    + unfold slice. replace (i + size - i)%nat with size by lia.
      rewrite <- (drop_drop items size i).
      rewrite <- (take_drop size (skipn i items)) at 3.
      unfold processSingleBatch. rewrite imap_app. f_equal.
      destruct (Nat.le_gt_cases (List.length (skipn i items)) size) as [Hle|Hgt].
      * rewrite (drop_ge _ _ Hle). reflexivity.
      * apply imap_ext. intros k x _. rewrite length_take.
        replace (size `min` List.length (skipn i items))%nat with size by lia.
        rewrite Nat.add_assoc. reflexivity.
    + intros k j Hk. specialize (Hl (S k) j Hk). lia.
    + cbn [List.length] in Hn. lia.
Qed.

(** X26. [processBatch] with a positive batch size and at least one
    permit, in the modes [continue] and [retry] (or in any mode when the
    progress callbacks do not throw), returns a summary with exactly one
    entry per item, in the order of the items; [totalProcessed] is the
    number of items and every entry is counted once, as a success or as
    an error.  When the progress callbacks do not throw, the entries are
    those of a single pass over all items, numbered from 0, and no batch
    error is recorded. *)
Theorem processBatch_one_entry_per_item
    (items : list A) (processor : nat -> nat -> Outcome R) (hooks : nat -> Outcome unit)
    (batchSize concurrency : nat) (onError : OnError) :
  (0 < batchSize)%nat ->
  (0 < concurrency)%nat ->
  onError <> Stop \/ (forall b, hooks b = Returned tt) ->
  exists summary,
    processBatch items processor hooks batchSize concurrency onError
    = Some (Completed summary)
    /\ List.map item (results summary) = items
    /\ totalProcessed summary = List.length items
    /\ (successCount summary + errorCount summary = List.length items)%nat
    /\ ((forall b, hooks b = Returned tt) ->
        results summary = processSingleBatch items (fun i => processor i 0%nat) 0
        /\ errors summary = []).
Proof.
  intros Hsize Hconc Hmode.
  destruct (starts_spec (List.length items) batchSize Hsize (List.length items) 0%nat)
    as (l & Hs & Hl & Hn & _); [lia|].
  assert (Hl' : forall k j, l !! k = Some j -> j = (0 + k * batchSize)%nat).
  { intros k j Hk. now destruct (Hl k j Hk). }
  unfold processBatch, processBatchWithin, batchesWithin. rewrite Hs.
  cbn [fmap option_fmap option_map].
  assert (Hc : Nat.eqb concurrency 0 = false) by (apply Nat.eqb_neq; lia).
  rewrite Hc. cbn [andb].
  set (batches := List.map _ l).
  destruct (settled_values processor hooks onError batches Hmode) as (Hrej & Hitems & Hall).
  rewrite Hrej. eexists. split; [reflexivity|].
  cbn [results totalProcessed successCount errorCount errors].
  set (values := omap _ _) in *.
  assert (Hres : List.map item (concat (List.map fst values)) = items).
  { rewrite concat_map, List.map_map, Hitems. unfold batches.
    rewrite List.map_map. cbn [batchItems].
    rewrite (slices_concat items batchSize l 0 Hl' ltac:(lia)). reflexivity. }
  split; [exact Hres|].
  assert (Hlen : List.length (concat (List.map fst values)) = List.length items).
  { transitivity (List.length (List.map item (concat (List.map fst values))));
      [symmetry; apply length_map|now rewrite Hres]. }
  split; [exact Hlen|]. split; [rewrite filter_length; exact Hlen|].
  intros Hh. rewrite (Hall Hh). split.
  - rewrite List.map_map. cbn [fst]. unfold batches. rewrite List.map_map.
    cbn [batchItems startIndex].
    rewrite (batches_single items (fun i => processor i 0%nat) batchSize l 0 Hsize Hl'
               ltac:(lia)).
    reflexivity.
  - rewrite List.map_map. cbn [snd]. apply concat_nils.
Qed.

(** X27. Calls that never return.  With size 0 the loop of [chunk] over a
    non-empty array never ends, and neither does the first loop of
    [processBatch]; with no permit to give, [processBatch] over a
    non-empty list never settles, because no batch ever gets past the
    semaphore. *)
Theorem batch_calls_that_never_return
    (items : list A) (processor : nat -> nat -> Outcome R) (hooks : nat -> Outcome unit)
    (batchSize concurrency : nat) (onError : OnError) (fuel : nat) :
  items <> [] ->
  chunkWithin fuel items 0 = None
  /\ processBatchWithin fuel items processor hooks 0 concurrency onError = None
  /\ ((List.length items <= fuel)%nat ->
      processBatchWithin fuel items processor hooks batchSize 0 onError = None).
Proof.
  intros Hne.
  assert (Hlen : (0 < List.length items)%nat) by (destruct items; [congruence|cbn; lia]).
  unfold chunkWithin, processBatchWithin, batchesWithin.
  rewrite (starts_never_ends _ fuel 0 Hlen). cbn. split; [reflexivity|].
  split; [reflexivity|]. intros Hfuel.
  destruct (Nat.eq_dec batchSize 0%nat) as [->|Hsize].
  { rewrite (starts_never_ends _ fuel 0 Hlen). reflexivity. }
  destruct (starts_spec (List.length items) batchSize ltac:(lia) fuel 0%nat)
    as (l & -> & _ & Hn & _); [lia|].
  cbn [fmap option_fmap option_map]. rewrite length_map.
  destruct l as [|j l]; [cbn in Hn; lia|]. reflexivity.
Qed.

End ProcessingFacts.

Lemma processBatch_one_entry_per_item_witness :
  exists summary,
    processBatch ["a"; "b"; "c"]%string
                 (fun i _ => if Nat.eqb i 1 then Threw "boom"%string else Returned i)
                 (fun _ => Returned tt) 2 1 Continue
    = Some (Completed summary)
    /\ totalProcessed summary = 3%nat.
Proof.
  destruct (processBatch_one_entry_per_item
              ["a"; "b"; "c"]%string
              (fun i _ => if Nat.eqb i 1 then Threw "boom"%string else Returned i)
              (fun _ => Returned tt) 2 1 Continue)
    as (summary & H1 & _ & H3 & _); [lia|lia|left; discriminate|].
  exists summary. split; [exact H1|exact H3].
Defined.

Lemma batch_calls_that_never_return_witness :
  chunkWithin 1000 ["a"; "b"]%string 0 = None.
Proof.
  destruct (batch_calls_that_never_return
              ["a"; "b"]%string (fun i _ => Returned i) (fun _ => Returned tt)
              2 1 Continue 1000) as [H _]; [discriminate|exact H].
Defined.

End BatchFacts.

Section OnChainFacts.
Import OnChainHoneypotDetector.

Lemma onchain_overall_of_four (ta tp ts th : TestResult) :
  overall (calculateOnChainHoneypotProbability
             [ ("authorityAnalysis", ta); ("programAnalysis", tp);
               ("supplyAnalysis", ts); ("holderPatterns", th) ]%string)
  = Z.min 100 (Z.max 0
      ((2 * (4 * riskScore ta + 3 * riskScore tp + 2 * riskScore ts + riskScore th) + 10)
       / 20)).
Proof.
  unfold calculateOnChainHoneypotProbability. cbn [fold_left accumulate fst snd].
  change (weightOf "authorityAnalysis") with (4 # 10)%Q.
  change (weightOf "programAnalysis") with (3 # 10)%Q.
  change (weightOf "supplyAnalysis") with (2 # 10)%Q.
  change (weightOf "holderPatterns") with (1 # 10)%Q.
  change (Js.gt (0 + 100 * (4 # 10) + 100 * (3 # 10) + 100 * (2 # 10) + 100 * (1 # 10)) 0)
    with true.
  cbn [overall]. do 2 f_equal.
  set (N := 4 * riskScore ta + 3 * riskScore tp + 2 * riskScore ts + riskScore th).
  transitivity (Js.round (inject_Z N / inject_Z 10));
    [|rewrite round_div by lia; reflexivity].
  unfold Js.round. apply Qfloor_comp. apply Qplus_comp; [|reflexivity].
  subst N. rewrite !inject_Z_plus, !inject_Z_mult.
  change (inject_Z 4) with 4%Q. change (inject_Z 3) with 3%Q.
  change (inject_Z 2) with 2%Q. change (inject_Z 10) with 10%Q.
  field.
Qed.

Lemma onchain_authorities_range (mint : Outcome SolanaService.MintInfo) :
  0 <= riskScore (analyzeAuthorities mint) <= 70.
Proof.
  destruct mint as [msg|mintInfo]; unfold analyzeAuthorities; [cbn; lia|].
  destruct (Js.isSet (SolanaService.mintAuthority mintInfo)),
           (Js.isSet (SolanaService.freezeAuthority mintInfo)); cbn; lia.
Qed.

Lemma onchain_program_range (account : Outcome (option SolanaService.AccountInfo)) :
  0 <= riskScore (analyzeProgram account) <= 80.
Proof.
  destruct account as [msg|[accountInfo|]]; unfold analyzeProgram; [cbn; lia| |cbn; lia].
  destruct (SolanaService.isStandard (SolanaService.owner accountInfo)); cbn; lia.
Qed.

Lemma onchain_supply_range (sup : Outcome SolanaService.Supply)
    (mint : Outcome SolanaService.MintInfo) :
  0 <= riskScore (analyzeSupplyMetrics sup mint) <= 75.
Proof.
  destruct sup as [msg|s], mint as [msg'|mintInfo]; unfold analyzeSupplyMetrics;
    try (cbn; lia).
  destruct (Js.eq (SolanaService.uiAmount s) 0);
    [|destruct (Js.gt (SolanaService.uiAmount s) (inject_Z (10 ^ 12)))];
    destruct ((18 <? SolanaService.decimals mintInfo)
              || (SolanaService.decimals mintInfo =? 0))%bool; cbn; lia.
Qed.

Lemma onchain_holders_range (hs : Guarded (list (option Q)))
    (sup : Outcome SolanaService.Supply) :
  0 <= riskScore (analyzeHolderPatterns hs sup) <= 60.
Proof.
  destruct hs as [|[msg|[|first rest]]]; unfold analyzeHolderPatterns; try (cbn; lia).
  destruct sup as [msg|s]; [cbn; lia|].
  destruct (Js.gt (SolanaService.uiAmount s) 0); [|cbn; lia].
  destruct (Js.gt (default 0%Q first / SolanaService.uiAmount s * 100)%Q 80); [cbn; lia|].
  destruct (Js.gt (default 0%Q first / SolanaService.uiAmount s * 100)%Q 50); [cbn; lia|].
  destruct (Js.gt (default 0%Q first / SolanaService.uiAmount s * 100)%Q 30); cbn; lia.
Qed.

(** X28. The detector that reads the chain only.  Whatever the chain
    answers, its overall probability is at most 73: the strongest verdict,
    [LIKELY_HONEYPOT] (80 or more), is never given, and neither is
    [CANNOT_ANALYZE].  The four sub-tests are always present, so the
    reported confidence is the constant 0.8.  The recommendations start
    with the line for the band of the overall probability, list no text
    twice, and include the note that no DEX simulation was run. *)
Theorem onchain_detector_never_says_likely_honeypot (o : Observed) :
  0 <= overall (honeypotProbability (detectHoneypot o)) <= 73
  /\ verdict (detectHoneypot o) <> LIKELY_HONEYPOT
  /\ verdict (detectHoneypot o) <> CANNOT_ANALYZE
  /\ (confidence (honeypotProbability (detectHoneypot o)) == 8 # 10)%Q
  /\ NoDup (recommendations (detectHoneypot o))
  /\ In "📝 NOTE: This analysis is based on on-chain data only (no DEX simulation)"%string
        (recommendations (detectHoneypot o))
  /\ exists headline rest,
       recommendations (detectHoneypot o) = headline :: rest
       /\ (headline = "🚨 HIGH RISK: Avoid this token due to suspicious on-chain patterns"%string
           <-> 60 <= overall (honeypotProbability (detectHoneypot o))).
Proof.
  assert (Hov : 0 <= overall (honeypotProbability (detectHoneypot o)) <= 73).
  { unfold detectHoneypot. cbn [honeypotProbability]. rewrite onchain_overall_of_four.
    pose proof (onchain_authorities_range (authMint o)).
    pose proof (onchain_program_range (programAccount o)).
    pose proof (onchain_supply_range (supply o) (supplyMint o)).
    pose proof (onchain_holders_range (holders o) (holdersSupply o)).
    match goal with
    | |- _ <= Z.min 100 (Z.max 0 (?a / 20)) <= _ =>
        assert (a / 20 < 74) by (apply Z.div_lt_upper_bound; lia)
    end.
    lia. }
  split; [exact Hov|].
  assert (Hverdict : verdict (detectHoneypot o)
                     = generateVerdict (honeypotProbability (detectHoneypot o)))
    by reflexivity.
  split.
  { rewrite Hverdict. unfold generateVerdict.
    destruct (80 <=? _) eqn:E; [apply Z.leb_le in E; lia|].
    destruct (60 <=? _); [discriminate|]. destruct (40 <=? _); [discriminate|].
    destruct (20 <=? _); discriminate. }
  split.
  { rewrite Hverdict. unfold generateVerdict.
    destruct (80 <=? _); [discriminate|].
    destruct (60 <=? _); [discriminate|]. destruct (40 <=? _); [discriminate|].
    destruct (20 <=? _); discriminate. }
  split.
  { unfold detectHoneypot. cbn [honeypotProbability].
    unfold calculateOnChainHoneypotProbability. cbn [fold_left accumulate fst snd confidence].
    cbn [Z.add Z.ltb Z.compare Pos.add Pos.succ]. apply Q.min_l. unfold Qle. cbn. lia. }
  unfold detectHoneypot at 1 2 3. cbn [recommendations]. unfold generateRecommendations.
  set (p := calculateOnChainHoneypotProbability _).
  set (headline := if 60 <=? overall p then _ else _).
  set (body := flat_map _ _).
  destruct (distinct_spec ([headline] ++ body ++
              ["📝 NOTE: This analysis is based on on-chain data only (no DEX simulation)"%string]))
    as (Hnd & Hin & _).
  split; [exact Hnd|]. split.
  { apply Hin. apply in_or_app. right. apply in_or_app. right. now left. }
  unfold JsArray.distinct. cbn [app fold_left].
  assert (E : bool_decide (headline ∈ @nil string) = false)
    by (apply bool_decide_eq_false, not_elem_of_nil).
  rewrite E. cbn [app].
  destruct (distinct_fold (body ++
              ["📝 NOTE: This analysis is based on on-chain data only (no DEX simulation)"%string])
              [headline] (NoDup_singleton headline)) as (_ & _ & added & -> & _).
  exists headline, added. split; [reflexivity|].
  change (overall (honeypotProbability (detectHoneypot o))) with (overall p).
  subst headline.
  destruct (60 <=? overall p) eqn:E60.
  - apply Z.leb_le in E60. tauto.
  - apply Z.leb_gt in E60.
    destruct (40 <=? overall p); [split; [discriminate|lia]|].
    destruct (20 <=? overall p); split; try discriminate; lia.
Qed.

End OnChainFacts.

(** * Further properties: the recommendations of the token analyzer *)

Section RecommendationFacts.
Import TokenAnalyzer.

Lemma generateRecommendations_shape (checks : list (string * CheckResult)) :
  exists b1 b2 b3 b4 b5 : bool,
    generateRecommendations checks
    = match (if b1 then ["🚨 AVOID: Mint authority not revoked - infinite supply risk"%string]
             else [])
            ++ (if b2
                then ["🚨 CAUTION: Freeze authority active - accounts can be frozen"%string]
                else [])
            ++ (if b3 then ["🚨 HONEYPOT DETECTED: Do not purchase this token"%string] else [])
            ++ (if b4 then ["🚨 AVOID: Non-standard token program detected"%string] else [])
            ++ (if b5 then ["⚠️ HIGH RISK: Single holder owns majority of supply"%string]
                else [])
      with
      | [] => ["✅ No critical issues detected - but always DYOR"%string]
      | line :: rest => line :: rest
      end
    /\ ((exists m f, detail <$> check "authorities" checks = Some (Authorities (Some m) f))
        <-> b1 = true)
    /\ ((exists m f, detail <$> check "authorities" checks = Some (Authorities m (Some f)))
        <-> b2 = true)
    /\ ((exists h, check "honeypot" checks = Some h /\ issues h <> []) <-> b3 = true)
    /\ ((exists o, detail <$> check "programOwnership" checks
                   = Some (ProgramOwnership o false)) <-> b4 = true)
    /\ ((exists hs c, detail <$> check "holders" checks = Some (Holders hs (Some c))
                      /\ Js.gt (HolderAnalyzer.top1Percentage c) 50 = true) <-> b5 = true).
Proof.
  unfold generateRecommendations.
  generalize (detail <$> check "authorities" checks) as authorities.
  generalize (check "honeypot" checks) as honeypot.
  generalize (detail <$> check "programOwnership" checks) as ownership.
  generalize (detail <$> check "holders" checks) as holders.
  intros holders ownership honeypot authorities.
  exists (match authorities with Some (Authorities (Some _) _) => true | _ => false end),
         (match authorities with Some (Authorities _ (Some _)) => true | _ => false end),
         (match honeypot with
          | Some h => Nat.ltb 0 (List.length (issues h)) | None => false end),
         (match ownership with Some (ProgramOwnership _ false) => true | _ => false end),
         (match holders with
          | Some (Holders _ (Some c)) => Js.gt (HolderAnalyzer.top1Percentage c) 50
          | _ => false end).
  split.
  - destruct authorities as [[| [?|] [?|] | | | | |]|];
      (destruct honeypot as [h|]; [destruct (Nat.ltb 0 (List.length (issues h)))|]);
      destruct ownership as [[| | ? [|] | | | |]|];
      destruct holders as [[| | | | ? [c|] | |]|];
      try destruct (Js.gt (HolderAnalyzer.top1Percentage c) 50); reflexivity.
  - split; [|split; [|split; [|split]]].
    + split.
      * intros (m & f & ->). reflexivity.
      * destruct authorities as [[| [m|] f | | | | |]|]; try discriminate. eauto.
    + split.
      * intros (m & f & ->). now destruct m.
      * destruct authorities as [[| m [f|] | | | | |]|]; try discriminate; try (now destruct m).
        eauto.
    + split.
      * intros (h & -> & Hne). destruct (issues h); [congruence|reflexivity].
      * destruct honeypot as [h|]; [|discriminate]. intros H. exists h. split; [reflexivity|].
        destruct (issues h); [discriminate H|discriminate].
    + split.
      * intros (o & ->). reflexivity.
      * destruct ownership as [[| | o [|] | | | |]|]; try discriminate. eauto.
    + split.
      * intros (hs & c & -> & ->). reflexivity.
      * destruct holders as [[| | | | hs [c|] | |]|]; try discriminate. eauto.
Qed.

(** X29. The recommendations of an analysis are never empty and hold at
    most five lines.  The all-clear line is given only on its own, and
    exactly when none of the five findings applies: a mint or a freeze
    authority that is still set, an issue reported by the honeypot check,
    a program-ownership check that did not find a standard token program,
    a top holder above 50%.  A mint authority that is still set always puts
    the line about it first. *)
Theorem recommendations_never_empty (checks : list (string * CheckResult)) :
  generateRecommendations checks <> []
  /\ (List.length (generateRecommendations checks) <= 5)%nat
  /\ (In "✅ No critical issues detected - but always DYOR"%string
         (generateRecommendations checks)
      <-> generateRecommendations checks
          = ["✅ No critical issues detected - but always DYOR"%string])
  /\ (generateRecommendations checks
      = ["✅ No critical issues detected - but always DYOR"%string]
      <-> ~ (exists m f, detail <$> check "authorities" checks
                         = Some (Authorities (Some m) f))
          /\ ~ (exists m f, detail <$> check "authorities" checks
                            = Some (Authorities m (Some f)))
          /\ ~ (exists h, check "honeypot" checks = Some h /\ issues h <> [])
          /\ ~ (exists o, detail <$> check "programOwnership" checks
                          = Some (ProgramOwnership o false))
          /\ ~ (exists hs c, detail <$> check "holders" checks = Some (Holders hs (Some c))
                             /\ Js.gt (HolderAnalyzer.top1Percentage c) 50 = true))
  /\ ((exists m f, detail <$> check "authorities" checks = Some (Authorities (Some m) f)) ->
      head (generateRecommendations checks)
      = Some "🚨 AVOID: Mint authority not revoked - infinite supply risk"%string).
Proof.
  destruct (generateRecommendations_shape checks)
    as (b1 & b2 & b3 & b4 & b5 & -> & H1 & H2 & H3 & H4 & H5).
  rewrite H1, H2, H3, H4, H5.
  destruct b1, b2, b3, b4, b5; cbn [app In List.length head];
    (split; [discriminate|]); (split; [lia|]);
    (split; [split; [intros H; repeat destruct H as [H|H]; try discriminate H; tauto
                    |intros H; try discriminate H; left; reflexivity]|]);
    (split; [split; [intros H; try discriminate H; repeat split; discriminate
                    |intros (N1 & N2 & N3 & N4 & N5); try reflexivity; exfalso;
                     first [now apply N1|now apply N2|now apply N3|now apply N4|now apply N5]]
            |]);
    intros H; try discriminate H; reflexivity.
Qed.

End RecommendationFacts.

(** * Further properties: token extraction of the optimized monitor *)

Section ExtractionFacts.
Import OptimizedExtraction.

Lemma append_cons (c : Ascii.ascii) (a b : string) :
  (String c a ++ b)%string = String c (a ++ b)%string.
Proof. reflexivity. Qed.

Lemma run_spec (limit : nat) (s : string) :
  s = (fst (run limit s) ++ snd (run limit s))%string
  /\ (String.length (fst (run limit s)) <= limit)%nat
  /\ Forall (fun c => inClass c = true) (list_ascii_of_string (fst (run limit s))).
Proof.
  revert s. induction limit as [|limit IH]; intros s.
  - cbn. repeat split; [lia|constructor].
  - destruct s as [|c rest]; cbn [run].
    + cbn. repeat split; [lia|constructor].
    + destruct (inClass c) eqn:Hc.
      * specialize (IH rest). destruct (run limit rest) as [matched after].
        cbn [fst snd] in *. destruct IH as (E & L & F).
        cbn [String.append String.length list_ascii_of_string].
        split; [|split; [lia|now constructor]].
        rewrite append_cons. now f_equal.
      * cbn. repeat split; [lia|constructor].
Qed.

Lemma prefix_append (m post : string) : String.prefix m (m ++ post) = true.
Proof.
  induction m as [|c m IH].
  - now destruct post.
  - rewrite append_cons. cbn [String.prefix].
    destruct (Ascii.ascii_dec c c); [exact IH|congruence].
Qed.

Lemma includes_middle (pre m post : string) :
  Js.includes m (pre ++ m ++ post) = true.
Proof.
  induction pre as [|c pre IH].
  - change (EmptyString ++ m ++ post)%string with (m ++ post)%string.
    destruct (m ++ post)%string eqn:E; cbn [Js.includes];
      rewrite <- E, prefix_append; reflexivity.
  - rewrite append_cons. cbn [Js.includes].
    destruct (String.prefix m (String c (pre ++ m ++ post))); [reflexivity|exact IH].
Qed.

Lemma append_assoc (a b c : string) : ((a ++ b) ++ c = a ++ b ++ c)%string.
Proof.
  induction a as [|x a IH]; [reflexivity|].
  rewrite !append_cons. now rewrite IH.
Qed.

Lemma matchesWithin_spec (fuel : nat) (s m : string) :
  In m (matchesWithin fuel s) ->
  (32 <= String.length m <= 44)%nat
  /\ Forall (fun c => inClass c = true) (list_ascii_of_string m)
  /\ exists pre post, s = (pre ++ m ++ post)%string.
Proof.
  revert s. induction fuel as [|fuel IH]; intros s Hin; [destruct Hin|].
  cbn [matchesWithin] in Hin. destruct s as [|c rest]; [destruct Hin|].
  pose proof (run_spec 44 (String c rest)) as (E & L & F).
  destruct (run 44 (String c rest)) as [matched after]. cbn [fst snd] in *.
  destruct (Nat.leb 32 (String.length matched)) eqn:Hlen.
  - destruct Hin as [<-|Hin].
    + apply Nat.leb_le in Hlen. repeat split; try lia; [exact F|].
      exists EmptyString, after. exact E.
    + destruct (IH _ Hin) as (B & C & pre & post & Eafter).
      repeat split; try lia; [exact C|].
      exists (matched ++ pre)%string, post. rewrite E, Eafter.
      now rewrite append_assoc.
  - destruct (IH _ Hin) as (B & C & pre & post & Erest).
    repeat split; try lia; [exact C|].
    exists (String c pre), post. rewrite append_cons. now rewrite Erest.
Qed.

Lemma string_length_append (a b : string) :
  String.length (a ++ b)%string = (String.length a + String.length b)%nat.
Proof.
  induction a as [|c a IH]; [reflexivity|].
  rewrite append_cons. cbn [String.length]. now rewrite IH.
Qed.

(** The positions [matchAll] allows are enough: more of them give the
    same matches. *)
Lemma matchesWithin_enough (fuel fuel' : nat) (s : string) :
  (String.length s <= fuel)%nat -> (String.length s <= fuel')%nat ->
  matchesWithin fuel s = matchesWithin fuel' s.
Proof.
  revert fuel' s. induction fuel as [|fuel IH]; intros fuel' s H H'.
  - destruct s; [|cbn in H; lia]. now destruct fuel'.
  - destruct s as [|c rest]; [now destruct fuel'|].
    destruct fuel' as [|fuel']; [cbn in H'; lia|].
    cbn [String.length] in H, H'. cbn [matchesWithin].
    pose proof (run_spec 44 (String c rest)) as (E & _ & _).
    destruct (run 44 (String c rest)) as [matched after]. cbn [fst snd] in E.
    apply (f_equal String.length) in E. rewrite string_length_append in E.
    cbn [String.length] in E.
    destruct (Nat.leb 32 (String.length matched)) eqn:Hlen.
    + apply Nat.leb_le in Hlen. f_equal. apply IH; lia.
    + apply IH; lia.
Qed.

Lemma extractFromLogs_spec (logs : list string) (m : string) :
  extractFromLogs logs = Some m ->
  looksLikeTokenMint m = true
  /\ exists log, In log logs /\ In m (matchAll log).
Proof.
  induction logs as [|log rest IH]; cbn [extractFromLogs]; [discriminate|].
  destruct (List.find looksLikeTokenMint (matchAll log)) as [found|] eqn:Hfind.
  - intros [= ->]. apply List.find_some in Hfind as [Hin Hlooks].
    split; [exact Hlooks|]. exists log. split; [now left|exact Hin].
  - intros H. destruct (IH H) as (Hlooks & log' & Hin & Hm).
    split; [exact Hlooks|]. exists log'. split; [now right|exact Hm].
Qed.

Lemma looksLikeTokenMint_long (m : string) :
  looksLikeTokenMint m = true ->
  (32 <= String.length m)%nat /\ ~ In m knownPrograms.
Proof.
  unfold looksLikeTokenMint. destruct (Nat.ltb (String.length m) 32) eqn:Hlen; [discriminate|].
  apply Nat.ltb_ge in Hlen. intros H. split; [exact Hlen|].
  intros Hin. apply negb_true_iff in H.
  assert (existsb (String.eqb m) knownPrograms = true) as Hex; [|congruence].
  apply existsb_exists. exists m. split; [exact Hin|apply String.eqb_refl].
Qed.

(** X30. Where a mint returned by [extractTokenMultiMethod] of the
    optimized monitor comes from.  It is never the empty string, and it is
    one of three things: the mint of an entry of the transaction's
    [postTokenBalances] that has a token amount (no further check is made
    on it); or one of the account keys at positions 1 to 3, at least 32
    characters long and none of the four known programs (the key at
    position 0 is never taken); or a piece of one of the event's logs that
    is 32 to 44 characters long, none of the known programs, and made only
    of the digits 1-9 and the capital letters other than I and O: log
    parsing never returns an address that holds a small letter.  The call
    has counted one API call. *)
Theorem extracted_mint_origin (apiCalls : Z) (transaction : Outcome (option Transaction))
    (tokenEvent : TokenEvent) (m : string) :
  snd (extractTokenMultiMethod apiCalls transaction tokenEvent) = Some m ->
  fst (extractTokenMultiMethod apiCalls transaction tokenEvent) = apiCalls + 1
  /\ m <> EmptyString
  /\ ((exists t balances balance,
          transaction = Returned (Some t)
          /\ postTokenBalances t = Some balances
          /\ In balance balances
          /\ ComprehensiveAnalysis.mint balance = Some m
          /\ ComprehensiveAnalysis.uiTokenAmount balance = true)
      \/ (exists t keys i,
             transaction = Returned (Some t)
             /\ accountKeys t = Some keys
             /\ keys !! i = Some m
             /\ (1 <= i < 4)%nat
             /\ (32 <= String.length m)%nat
             /\ ~ In m knownPrograms)
      \/ (exists log,
             In log (eventLogs tokenEvent)
             /\ Js.includes m log = true
             /\ (32 <= String.length m <= 44)%nat
             /\ ~ In m knownPrograms
             /\ Forall (fun c => inClass c = true) (list_ascii_of_string m)
             /\ Forall (fun c => ~ (97 <= Ascii.nat_of_ascii c <= 122)%nat)
                       (list_ascii_of_string m))).
Proof.
  intros H. split; [reflexivity|].
  assert (forall s, (32 <= String.length s)%nat -> s <> EmptyString) as Hnonempty.
  { intros s Hs ->. cbn in Hs. lia. }
  assert (extractFromLogs (eventLogs tokenEvent) = Some m ->
          m <> EmptyString
          /\ exists log,
               In log (eventLogs tokenEvent)
               /\ Js.includes m log = true
               /\ (32 <= String.length m <= 44)%nat
               /\ ~ In m knownPrograms
               /\ Forall (fun c => inClass c = true) (list_ascii_of_string m)
               /\ Forall (fun c => ~ (97 <= Ascii.nat_of_ascii c <= 122)%nat)
                         (list_ascii_of_string m)) as Hlogs.
  { intros Hl. apply extractFromLogs_spec in Hl as (Hlooks & log & Hin & Hm).
    apply looksLikeTokenMint_long in Hlooks as (Hlong & Hknown).
    apply matchesWithin_spec in Hm as (Hlen & Hclass & pre & post & E).
    split; [now apply Hnonempty|]. exists log.
    repeat split; try lia; try assumption.
    - rewrite E. apply includes_middle.
    - eapply Forall_impl; [exact Hclass|]. cbn beta. intros c Hc Hsmall.
      unfold inClass in Hc. cbv zeta in Hc.
      repeat (apply orb_true_iff in Hc as [Hc|Hc]);
        apply andb_true_iff in Hc as [Hc1 Hc2];
        apply Nat.leb_le in Hc1, Hc2; lia. }
  assert (forall keys, fromAccountKeys keys = Some m ->
          exists i, keys !! i = Some m /\ (1 <= i < 4)%nat
                    /\ (32 <= String.length m)%nat /\ ~ In m knownPrograms) as Hkeys.
  { intros keys Hk. unfold fromAccountKeys in Hk.
    apply List.find_some in Hk as [Hin Hlooks].
    apply looksLikeTokenMint_long in Hlooks as (Hlong & Hknown).
    apply list_elem_of_In, list_elem_of_lookup in Hin as [j Hj].
    pose proof (lookup_lt_Some _ _ _ Hj) as Hlt. rewrite length_take in Hlt.
    rewrite lookup_take_lt in Hj by lia. rewrite lookup_drop in Hj.
    exists (1 + j)%nat. repeat split; try assumption; lia. }
  unfold extractTokenMultiMethod in H. cbn [snd] in H.
  destruct transaction as [message|[t|]].
  - destruct (Hlogs H) as (Hne & Hlog). split; [exact Hne|]. right. right. exact Hlog.
  - destruct (postTokenBalances t) as [balances|] eqn:Hbal.
    + destruct (List.find _ balances) as [balance|] eqn:Hfind.
      * cbn in H. apply List.find_some in Hfind as [Hin Hok].
        apply andb_true_iff in Hok as [Hmint Hamount].
        destruct (ComprehensiveAnalysis.mint balance) as [mint|] eqn:Hm; [|discriminate].
        cbn in H. injection H as ->.
        split; [intros ->; discriminate|].
        left. exists t, balances, balance. repeat split; assumption.
      * cbn in H. destruct (accountKeys t) as [keys|] eqn:Hk.
        -- destruct (fromAccountKeys keys) as [found|] eqn:Hfound.
           ++ injection H as ->. destruct (Hkeys _ Hfound) as (i & Hi & Hrange & Hlong & Hknown).
              split; [now apply Hnonempty|]. right. left.
              exists t, keys, i. repeat split; try assumption; lia.
           ++ destruct (Hlogs H) as (Hne & Hlog). split; [exact Hne|]. right. right. exact Hlog.
        -- destruct (Hlogs H) as (Hne & Hlog). split; [exact Hne|]. right. right. exact Hlog.
    + destruct (accountKeys t) as [keys|] eqn:Hk.
      * destruct (fromAccountKeys keys) as [found|] eqn:Hfound.
        -- injection H as ->. destruct (Hkeys _ Hfound) as (i & Hi & Hrange & Hlong & Hknown).
           split; [now apply Hnonempty|]. right. left.
           exists t, keys, i. repeat split; try assumption; lia.
        -- destruct (Hlogs H) as (Hne & Hlog). split; [exact Hne|]. right. right. exact Hlog.
      * destruct (Hlogs H) as (Hne & Hlog). split; [exact Hne|]. right. right. exact Hlog.
  - destruct (Hlogs H) as (Hne & Hlog). split; [exact Hne|]. right. right. exact Hlog.
Qed.

Lemma extracted_mint_origin_witness :
  snd (extractTokenMultiMethod 7 (Threw "fetch failed")
         {| eventSignature := "5h3K"; eventSlot := 1; timestamp := 0;
            eventLogs := [ "Program 11111111111111111111111111111111 invoke [1]";
                           "Program data: 9WZDXWBBMKG8ZTBNMQUXVQRAYRZZDSGYDLVL9ZYTAWWM" ];
            detectedAt := 0 |})
  = Some "9WZDXWBBMKG8ZTBNMQUXVQRAYRZZDSGYDLVL9ZYTAWWM"%string
  /\ "9WZDXWBBMKG8ZTBNMQUXVQRAYRZZDSGYDLVL9ZYTAWWM"%string <> EmptyString.
Proof.
  split; [reflexivity|].
  exact (proj1 (proj2 (extracted_mint_origin 7 (Threw "fetch failed")
           {| eventSignature := "5h3K"; eventSlot := 1; timestamp := 0;
              eventLogs := [ "Program 11111111111111111111111111111111 invoke [1]";
                             "Program data: 9WZDXWBBMKG8ZTBNMQUXVQRAYRZZDSGYDLVL9ZYTAWWM" ];
              detectedAt := 0 |}
           "9WZDXWBBMKG8ZTBNMQUXVQRAYRZZDSGYDLVL9ZYTAWWM" eq_refl))).
Defined.

End ExtractionFacts.
